(** * Lowering rules of the ONNX-to-TensorFlow backend (onnx_tf/backends/backend_v1.py)

    The handlers of [TensorflowBackend] are embedded as functions in a small
    state-and-exception monad: the state holds the node object the handler
    was given (Python passes it by reference, so a handler can change the
    lists stored in [node.attrs]), the symbol table [input_dict] and the
    warnings emitted so far; a raised Python exception is a [Raise] result.

    Tensors carry an element-type tag, a static shape and their elements as a
    function of the multi-index.  The elements of float tensors are kept
    abstract behind the [FloatOps] interface, with IEEE 754 binary32 as one
    instance; the Python floats of the shape arithmetic are binary64
    numbers. *)

From Stdlib Require Import ZArith QArith Qround Qabs Qpower List Lia Lqa SpecFloat.
From stdpp Require Import base option list gmap strings sorting.

Open Scope Z_scope.

(** ** Python values and exceptions *)

Inductive exn : Type :=
| KeyError (key : string)
| IndexError
| TypeError
| ValueError
| ZeroDivisionError
| OverflowError
| UnboundLocalError
| AssertionError
| NotImplementedError.

Inductive result (A : Type) : Type :=
| Ok (a : A)
| Raise (e : exn).
Arguments Ok {A} a.
Arguments Raise {A} e.

#[global] Instance result_ret : MRet result := @Ok.
#[global] Instance result_bind : MBind result :=
  fun A B k r => match r with Ok a => k a | Raise e => Raise e end.

(** A [for] loop collecting one value per element; stops at the first
    exception. *)
Fixpoint result_map {A B} (f : A -> result B) (l : list A) : result (list B) :=
  match l with
  | [] => Ok []
  | a :: l' => b ← f a; bs ← result_map f l'; Ok (b :: bs)
  end.

(** [l[i]] on a Python list: a negative index counts from the end, an index
    out of range raises [IndexError]. *)
Definition py_norm_index (len i : Z) : option nat :=
  if (0 <=? i) && (i <? len) then Some (Z.to_nat i)
  else if (i <? 0) && (0 <=? i + len) then Some (Z.to_nat (i + len))
  else None.

Definition zlen {A} (l : list A) : Z := Z.of_nat (length l).

Definition py_getitem {A} (l : list A) (i : Z) : result A :=
  match py_norm_index (zlen l) i with
  | Some k => match l !! k with Some v => Ok v | None => Raise IndexError end
  | None => Raise IndexError
  end.

(** [l[i] = v] on a Python list. *)
Definition py_setitem {A} (l : list A) (i : Z) (v : A) : result (list A) :=
  match py_norm_index (zlen l) i with
  | Some k => Ok (<[k := v]> l)
  | None => Raise IndexError
  end.

(** [range(n)] and [range(a, b)]. *)
Definition py_range (n : Z) : list Z := map Z.of_nat (seq 0 (Z.to_nat n)).
Definition py_range2 (a b : Z) : list Z := map (fun k => a + k) (py_range (b - a)).

(** [[v] * n]. *)
Definition py_repeat {A} (v : A) (n : Z) : list A := repeat v (Z.to_nat n).

(** [l[k:]] and [l[:k]] for [0 <= k]. *)
Definition py_from {A} (k : Z) (l : list A) : list A := drop (Z.to_nat k) l.
Definition py_upto {A} (k : Z) (l : list A) : list A := take (Z.to_nat k) l.

(** [itertools.product] of the lists [ls]: the last component varies fastest. *)
Fixpoint itertools_product {A} (ls : list (list A)) : list (list A) :=
  match ls with
  | [] => [[]]
  | l :: rest =>
      flat_map (fun a => map (cons a) (itertools_product rest)) l
  end.

(** ** Floats

    Python floats, numpy floats and the elements of float tensors.  The
    lowering rules only move them around; what they compute is left to the
    instance. *)
Class FloatOps (F : Type) : Type := {
  f_of_Z : Z -> F;
  f_of_Q : Q -> F;
  f_add : F -> F -> F;
  f_sub : F -> F -> F;
  f_mul : F -> F -> F;
  f_div : F -> F -> F;
  f_exp : F -> F;
  f_ltb : F -> F -> bool;
  f_eqb : F -> F -> bool;
  f_lowest : F;
  np_nan : F;
  np_isnan : F -> bool;
  astype_float32 : F -> F
}.

(** ** Tensors *)

Inductive dtype : Type := float32 | float64 | int32 | int64 | tf_bool.

Record tensor (A : Type) : Type := Tensor {
  dtype_of : dtype;
  shape : list Z;
  item : list Z -> A
}.
Arguments Tensor {A} dtype_of shape item.
Arguments dtype_of {A} t.
Arguments shape {A} t.
Arguments item {A} t idx.

Definition rank {A} (t : tensor A) : Z := zlen (shape t).

(** Multi-indices of a shape, in row-major order. *)
Definition indices (sh : list Z) : list (list Z) :=
  itertools_product (map py_range sh).

(** Two tensors are the same value when tag and shape agree and the elements
    agree at every index of the shape. *)
Definition tensor_eq {A} (x y : tensor A) : Prop :=
  dtype_of x = dtype_of y /\ shape x = shape y /\
  forall idx, In idx (indices (shape x)) -> item x idx = item y idx.

(** ** Data layouts

    Modelled from the spec: [get_data_format] and [get_perm_from_formats]
    belong to [TensorflowBackendBase] (onnx_tf/backend.py), which is not part
    of the sources at hand.  The spec's Layout Resolver stores tensors
    channel-first, computes channel-first when accelerated execution is
    available and channel-last otherwise, and converts with the permutation
    that moves the channel axis from position 1 to the last position, or with
    its inverse. *)
Inductive data_format : Type :=
| channel_first (r : Z)
| channel_last (r : Z).

Definition get_data_format (x_rank : Z) (support_cuda : bool) : data_format * data_format :=
  (channel_first x_rank,
   if support_cuda then channel_first x_rank else channel_last x_rank).

Definition get_perm_from_formats (from_ to_ : data_format) : list Z :=
  match from_, to_ with
  | channel_first r, channel_last _ => 0 :: py_range2 2 r ++ [1]
  | channel_last r, channel_first _ => 0 :: (r - 1) :: py_range2 1 (r - 1)
  | channel_first r, channel_first _ => py_range r
  | channel_last r, channel_last _ => py_range r
  end.

(** ** What the rules take from their environment

    TensorFlow primitives whose arithmetic plays no part in what is proved
    below, the CUDA query and two helpers of [TensorflowBackendBase]. *)
Class TFEnv (F : Type) : Type := {
  supports_cuda : bool;
  tf_nn_pool : string -> tensor F -> list Z -> string -> list Z -> data_format -> tensor F;
  tf_nn_convolution :
    tensor F -> tensor F -> string -> option (list Z) -> option (list Z) -> data_format -> tensor F;
  tf_nn_bias_add : tensor F -> tensor F -> data_format -> tensor F;
  tf_nn_batch_normalization :
    tensor F -> tensor F -> tensor F -> tensor F -> tensor F -> F -> tensor F;
  tf_nn_moments : tensor F -> list Z -> tensor F * tensor F;
  tf_add : tensor F -> tensor F -> tensor F;
  tf_scalar_mul : tensor F -> F -> tensor F;
  _explicit_broadcast : tensor F -> Z -> Z -> tensor F;
  get_padding_as_op : tensor F -> list Z -> tensor F
}.

(** ** Nodes and the handler monad *)

Section Backend.
Context {F : Type} `{FloatOps F} `{TFEnv F}.

Inductive attr : Type :=
| AInt (z : Z)
| AFloat (f : F)
| AStr (s : string)
| AInts (l : list Z)
| AStrs (l : list string).

Record node : Type := Node {
  op_type : string;
  attrs : gmap string attr;
  inputs : list string;
  outputs : list string;
  name : string
}.

Record pystate : Type := PyState {
  st_node : node;
  st_input_dict : gmap string (tensor F);
  st_warnings : list string
}.

Definition M (A : Type) : Type := pystate -> result A * pystate.

Definition ret {A} (a : A) : M A := fun s => (Ok a, s).
Definition bind {A B} (m : M A) (k : A -> M B) : M B :=
  fun s => match m s with
           | (Ok a, s') => k a s'
           | (Raise e, s') => (Raise e, s')
           end.
Definition raise {A} (e : exn) : M A := fun s => (Raise e, s).
Definition lift {A} (r : result A) : M A := fun s => (r, s).

#[global] Instance M_ret : MRet M := @ret.
#[global] Instance M_bind : MBind M := fun A B k m => bind m k.

(** [node.inputs[i]], [len(node.inputs)], [input_dict[name]]. *)
Definition node_input (i : Z) : M string :=
  fun s => (py_getitem (inputs (st_node s)) i, s).
Definition node_inputs_len : M Z :=
  fun s => (Ok (zlen (inputs (st_node s))), s).
Definition input_dict_getitem (key : string) : M (tensor F) :=
  fun s => match st_input_dict s !! key with
           | Some t => (Ok t, s)
           | None => (Raise (KeyError key), s)
           end.

(** [node.attrs[key]], [node.attrs.get(key)], [key in node.attrs]. *)
Definition attrs_getitem (key : string) : M attr :=
  fun s => match attrs (st_node s) !! key with
           | Some v => (Ok v, s)
           | None => (Raise (KeyError key), s)
           end.
Definition attrs_get (key : string) : M (option attr) :=
  fun s => (Ok (attrs (st_node s) !! key), s).
Definition attrs_contains (key : string) : M bool :=
  fun s => (Ok (bool_decide (is_Some (attrs (st_node s) !! key))), s).

(** Assignment into a list held by [node.attrs]: the attribute dictionary
    keeps the very list object the handler indexes, so the node sees it. *)
Definition attrs_store (key : string) (v : attr) : M unit :=
  fun s =>
    let n := st_node s in
    (Ok tt,
     PyState (Node (op_type n) (<[key := v]> (attrs n)) (inputs n) (outputs n) (name n))
             (st_input_dict s) (st_warnings s)).

(** [warnings.warn(msg, UserWarning)]. *)
Definition warn (msg : string) : M unit :=
  fun s => (Ok tt, PyState (st_node s) (st_input_dict s) (st_warnings s ++ [msg])).

(** What a handler call [handle(node, input_dict)] leaves behind. *)
Definition call {A} (h : M A) (n : node) (d : gmap string (tensor F)) : result A * pystate :=
  h (PyState n d []).

(** Dynamic typing of attribute values. *)
Definition as_int (v : attr) : M Z :=
  match v with AInt z => ret z | _ => raise TypeError end.
Definition as_ints (v : attr) : M (list Z) :=
  match v with AInts l => ret l | _ => raise TypeError end.
Definition as_float (v : attr) : M F :=
  match v with AInt z => ret (f_of_Z z) | AFloat f => ret f | _ => raise TypeError end.

(** Truth value of an attribute in an [if]. *)
Definition attr_truthy (v : attr) : bool :=
  match v with
  | AInt z => negb (z =? 0)
  | AFloat f => negb (f_eqb f (f_of_Z 0))
  | AStr s => negb (bool_decide (s = ""))
  | AInts l => negb (bool_decide (l = []))
  | AStrs l => negb (bool_decide (l = []))
  end.

(** [v == k] for an integer literal [k]. *)
Definition attr_eq_int (v : attr) (k : Z) : bool :=
  match v with
  | AInt z => z =? k
  | AFloat f => f_eqb f (f_of_Z k)
  | _ => false
  end.

(** [v == s] for a string literal [s]. *)
Definition attr_eq_str (v : attr) (s : string) : bool :=
  match v with
  | AStr s' => bool_decide (s' = s)
  | _ => false
  end.

(** ** TensorFlow primitives used by the rules below *)

(** Index of the first largest (for [lt := f_ltb]) element. *)
Fixpoint arg_best (lt : F -> F -> bool) (best_i : Z) (best : F) (i : Z) (l : list F) : Z :=
  match l with
  | [] => best_i
  | v :: l' =>
      if lt best v then arg_best lt i v (i + 1) l'
      else arg_best lt best_i best (i + 1) l'
  end.

Definition arg_best_list (lt : F -> F -> bool) (l : list F) : Z :=
  match l with
  | [] => 0
  | v :: l' => arg_best lt 0 v 1 l'
  end.

(** Axis numbers may be negative in TensorFlow. *)
Definition norm_axis (r axis : Z) : Z := if axis <? 0 then axis + r else axis.

Definition remove_at {A} (k : Z) (l : list A) : list A :=
  py_upto k l ++ py_from (k + 1) l.
Definition insert_at {A} (k : Z) (v : A) (l : list A) : list A :=
  py_upto k l ++ v :: py_from k l.

(** [tf.argmax(x, axis)] and [tf.argmin(x, axis)]: the axis disappears from
    the shape, the elements are positions along it. *)
Definition tf_arg (lt : F -> F -> bool) (x : tensor F) (axis : Z) : tensor Z :=
  let a := norm_axis (rank x) axis in
  let d := nth (Z.to_nat a) (shape x) 0 in
  Tensor int64 (remove_at a (shape x))
    (fun idx => arg_best_list lt (map (fun k => item x (insert_at a k idx)) (py_range d))).

Definition tf_argmax : tensor F -> Z -> tensor Z := tf_arg f_ltb.
Definition tf_argmin : tensor F -> Z -> tensor Z := tf_arg (fun a b => f_ltb b a).

(** ** handle_arg_max, handle_arg_min *)

Definition argmax_warning : string :=
  "Definition of ArgMax with keepdims enabled is incompatible between onnx and tensorflow.".
Definition argmin_warning : string :=
  "Definition of ArgMin with keepdims enabled is incompatible between onnx and tensorflow.".

Definition handle_arg_max : M (list (tensor Z)) :=
  i0 ← node_input 0;
  data ← input_dict_getitem i0;
  axis ← attrs_getitem "axis";
  keepdims ← attrs_get "keepdims";
  let keepdims := default (AInt 1) keepdims in
  _ ← (if attr_eq_int keepdims 1 then warn argmax_warning else ret tt);
  axis ← as_int axis;
  mret [tf_argmax data axis].

Definition handle_arg_min : M (list (tensor Z)) :=
  i0 ← node_input 0;
  data ← input_dict_getitem i0;
  axis ← attrs_getitem "axis";
  keepdims ← attrs_get "keepdims";
  let keepdims := default (AInt 1) keepdims in
  _ ← (if attr_eq_int keepdims 1 then warn argmin_warning else ret tt);
  axis ← as_int axis;
  mret [tf_argmin data axis].


(** ** Python floats: IEEE 754 binary64

    The pooling fallback computes its output lengths with Python and numpy
    floats.  A finite double is represented by the rational number it
    denotes; [round_nearest] is rounding to nearest, ties to even, into a
    binary format with [prec] significant bits whose smallest positive
    number is [2^emin] and whose numbers stay below [2^emax].  [None] is
    overflow. *)
Definition two_power (e : Z) : Q := Qpower 2 e.

(** [floor(log2 q)] for [q > 0]. *)
Definition floor_log2 (q : Q) : Z :=
  let l := Z.log2 (Qnum q) - Z.log2 (Zpos (Qden q)) in
  if Qle_bool (two_power l) q then l else l - 1.

(** The integer nearest to [r], the even one of two equally near. *)
Definition round_half_even (r : Q) : Z :=
  let f := Qfloor r in
  match Qcompare (r - inject_Z f) (1 # 2) with
  | Lt => f
  | Gt => f + 1
  | Eq => if Z.even f then f else f + 1
  end.

Definition round_nearest (prec emin emax : Z) (q : Q) : option Q :=
  let q := Qred q in
  if Qeq_bool q 0 then Some 0%Q
  else
    let a := Qabs q in
    let e := Z.max (floor_log2 a - (prec - 1)) emin in
    let m := round_half_even (a / two_power e) in
    let r := (inject_Z m * two_power e)%Q in
    if Qle_bool (two_power emax) r then None
    else Some (Qred (if Qle_bool 0 q then r else - r)).

Definition round64 : Q -> option Q := round_nearest 53 (-1074) 1024.

(** [int(x)] of a finite float truncates towards zero. *)
Definition Qtrunc (q : Q) : Z := if Qle_bool 0 q then Qfloor q else Qceiling q.

(** [float(a)] of a Python integer. *)
Definition py_float (a : Z) : result Q :=
  match round64 (inject_Z a) with
  | Some v => Ok v
  | None => Raise OverflowError
  end.
(** ** numpy on the tensor model *)

Fixpoint np_index (sh idx : list Z) : option (list Z) :=
  match sh, idx with
  | [], [] => Some []
  | d :: sh', i :: idx' =>
      match py_norm_index d i, np_index sh' idx' with
      | Some k, Some rest => Some (Z.of_nat k :: rest)
      | _, _ => None
      end
  | _, _ => None
  end.

Fixpoint in_bounds (sh idx : list Z) : bool :=
  match sh, idx with
  | [], [] => true
  | d :: sh', i :: idx' => (0 <=? i) && (i <? d) && in_bounds sh' idx'
  | _, _ => false
  end.

(** [x[idx]] for a full index tuple. *)
Definition np_getitem (x : tensor F) (idx : list Z) : result F :=
  match np_index (shape x) idx with
  | Some j => Ok (item x j)
  | None => Raise IndexError
  end.

(** [y[idx] = v] for a full index tuple. *)
Definition np_setitem (y : tensor F) (idx : list Z) (v : F) : result (tensor F) :=
  match np_index (shape y) idx with
  | Some j =>
      Ok (Tensor (dtype_of y) (shape y)
            (fun i => if bool_decide (i = j) then v else item y i))
  | None => Raise IndexError
  end.

Definition np_zeros (sh : list Z) : result (tensor F) :=
  if forallb (fun d => 0 <=? d) sh
  then Ok (Tensor float64 sh (fun _ => f_of_Z 0))
  else Raise ValueError.

(** [np.pad(x, pad_attr, mode="constant", constant_values=np.nan)].  The
    NaN is stored into an array of the element type of [x]: an integer array
    cannot hold it and numpy raises ValueError (a numpy that casts instead
    stores the smallest integer, which [np.isnan] does not recognise); in a
    boolean array it is stored as True. *)
Definition np_pad_nan (x : tensor F) (pad_attr : list (Z * Z)) : result (tensor F) :=
  if bool_decide (zlen pad_attr = rank x)
     && forallb (fun p => (0 <=? p.1) && (0 <=? p.2)) pad_attr
  then
    let padded (fill : F) :=
      Tensor (dtype_of x)
        (zip_with (fun d p => p.1 + d + p.2) (shape x) pad_attr)
        (fun idx =>
           let src := zip_with (fun i p => i - p.1) idx pad_attr in
           if in_bounds (shape x) src then item x src else fill) in
    match dtype_of x with
    | float32 | float64 => Ok (padded np_nan)
    | tf_bool => Ok (padded (f_of_Z 1))
    | int32 | int64 => Raise ValueError
    end
  else Raise ValueError.

Definition np_average (l : list F) : F :=
  f_div (foldl f_add (f_of_Z 0) l) (f_of_Z (zlen l)).

Definition f_max (a b : F) : F := if f_ltb a b then b else a.

Definition np_max (l : list F) : result F :=
  match l with
  | [] => Raise ValueError
  | v :: l' => Ok (foldl f_max v l')
  end.

(** [y.astype(np.float32)]. *)
Definition np_astype_float32 (y : tensor F) : tensor F :=
  Tensor float32 (shape y) (fun idx => astype_float32 (item y idx)).

(** [int(m / s + 1)] on numpy integers under true division: both are
    converted to doubles, [m / s] is a rounded quotient and [+ 1] a rounded
    sum, and [int] truncates towards zero.  A zero divisor gives an infinity
    (or a NaN when [m] is zero too), which [int] refuses. *)
Definition int_truediv_plus1 (m s : Z) : result Z :=
  if s =? 0 then Raise (if m =? 0 then ValueError else OverflowError)
  else
    match round64 (inject_Z m), round64 (inject_Z s) with
    | Some x, Some y =>
        match round64 (x / y) with
        | Some q =>
            match round64 (q + 1) with
            | Some r => Ok (Qtrunc r)
            | None => Raise OverflowError
            end
        | None => Raise OverflowError
        end
    | _, _ => Raise OverflowError
    end.

(** [int(np.ceil(float(a) / float(b)))]: both conversions and the quotient
    are rounded to doubles; the ceiling of a double is exact. *)
Definition ceil_div (a b : Z) : result Z :=
  x ← py_float a;
  y ← py_float b;
  if Qeq_bool y 0 then Raise ZeroDivisionError
  else match round64 (x / y) with
       | Some q => Ok (Qceiling q)
       | None => Raise OverflowError
       end.

(** A [for] loop threading one value through its iterations. *)
Fixpoint result_fold {A B} (f : B -> A -> result B) (l : list A) (b : B) : result B :=
  match l with
  | [] => Ok b
  | a :: l' => b' ← f b a; result_fold f l' b'
  end.

(** ** The portable pooling fallback: _compatibility_pool and its helpers *)

Definition _get_pad_shape (auto_pad : string)
    (input_spatial_shape kernel_spatial_shape strides_spatial output_spatial_shape : list Z)
    : result (list Z) :=
  if bool_decide (auto_pad = "SAME_UPPER") || bool_decide (auto_pad = "SAME_LOWER") then
    result_map (fun i =>
      o ← py_getitem output_spatial_shape i;
      s ← py_getitem strides_spatial i;
      k ← py_getitem kernel_spatial_shape i;
      x ← py_getitem input_spatial_shape i;
      Ok ((o - 1) * s + k - x)) (py_range (zlen input_spatial_shape))
  else Ok (py_repeat 0 (zlen input_spatial_shape)).

Definition _get_output_shape (auto_pad : string)
    (input_spatial_shape kernel_spatial_shape strides_spatial : list Z)
    : result (list Z) :=
  if bool_decide (auto_pad = "SAME_UPPER") || bool_decide (auto_pad = "SAME_LOWER") then
    result_map (fun i =>
      x ← py_getitem input_spatial_shape i;
      s ← py_getitem strides_spatial i;
      ceil_div x s) (py_range (zlen input_spatial_shape))
  else if bool_decide (auto_pad = "VALID") || bool_decide (auto_pad = "") then
    result_map (fun i =>
      x ← py_getitem input_spatial_shape i;
      k ← py_getitem kernel_spatial_shape i;
      s ← py_getitem strides_spatial i;
      ceil_div (x - (k - 1)) s) (py_range (zlen input_spatial_shape))
  else Ok (py_repeat 0 (zlen input_spatial_shape)).

(** The window of the padded tensor read for the output position [pos]
    (batch, channel, spatial position). *)
Definition window_ranges (kernel_shape strides_shape : list Z) (spatial_size : Z)
    (pos : list Z) : result (list (list Z)) :=
  result_map (fun i =>
    s ← py_getitem strides_shape i;
    p ← py_getitem pos (i + 2);
    k ← py_getitem kernel_shape i;
    Ok (py_range2 (s * p) (s * p + k))) (py_range spatial_size).

Definition pool_step (padded : tensor F) (kernel_shape strides_shape : list Z)
    (spatial_size : Z) (pooling_type : string) (y : tensor F) (pos : list Z)
    : result (tensor F) :=
  p0 ← py_getitem pos 0;
  p1 ← py_getitem pos 1;
  ranges ← window_ranges kernel_shape strides_shape spatial_size pos;
  window_vals ← result_map (fun i => np_getitem padded (p0 :: p1 :: i))
                   (itertools_product ranges);
  f ← (if bool_decide (pooling_type = "AVG") then Ok (fun l => Ok (np_average l))
       else if bool_decide (pooling_type = "MAX") then Ok np_max
       else Raise NotImplementedError);
  v ← f (filter (fun v => negb (np_isnan v)) window_vals);
  np_setitem y pos v.

Definition py_pool (x : tensor F)
    (kernel_shape strides_shape pads out_shape pad_shape : list Z)
    (pooling_type : string) : result (tensor F) :=
  let x_shape := shape x in
  let spatial_size := zlen (py_from 2 x_shape) in
  pad_sp ← result_map (fun i =>
              b ← py_getitem pads i;
              e ← py_getitem pads (i + spatial_size);
              Ok (b, e)) (py_range spatial_size);
  padded ← np_pad_nan x ([(0, 0); (0, 0)] ++ pad_sp);
  n ← py_getitem x_shape 0;
  c ← py_getitem x_shape 1;
  y ← np_zeros ([n; c] ++ out_shape);
  counts ← result_map (fun i =>
              d ← py_getitem x_shape (i + 2);
              p ← py_getitem pad_shape i;
              k ← py_getitem kernel_shape i;
              s ← py_getitem strides_shape i;
              int_truediv_plus1 (d + p - k) s) (py_range spatial_size);
  y ← result_fold (pool_step padded kernel_shape strides_shape spatial_size pooling_type)
        (itertools_product (py_range n :: py_range c :: map py_range counts)) y;
  Ok (np_astype_float32 y).

(** The list a local variable names: a list stored in [node.attrs] under a
    key, or a list of the handler's own. *)
Inductive list_ref : Type :=
| attr_list (key : string)
| local_list.

(** [l[i] = v] through such a variable; [cur] is the list's current value. *)
Definition ref_setitem (r : list_ref) (cur : list Z) (i v : Z) : M (list Z) :=
  l' ← lift (py_setitem cur i v);
  _ ← match r with
      | attr_list key => attrs_store key (AInts l')
      | local_list => ret tt
      end;
  mret l'.

(** [node.attrs.get(key, default)] for a list of integers, with the list the
    result names.  An attribute of another type raises [TypeError] here, where
    Python would raise it at the first use as a list. *)
Definition attrs_get_ints (key : string) (dflt : list Z) : M (list_ref * list Z) :=
  v ← attrs_get key;
  match v with
  | None => mret (local_list, dflt)
  | Some (AInts l) => mret (attr_list key, l)
  | Some _ => raise TypeError
  end.

Fixpoint M_fold {A B} (f : B -> A -> M B) (l : list A) (b : B) : M B :=
  match l with
  | [] => mret b
  | a :: l' => b' ← f b a; M_fold f l' b'
  end.

(** The model runs the graph as it builds it: an exception of [py_pool],
    which TensorFlow would report when the [py_func] node is evaluated, is
    raised by the handler. *)
Definition _compatibility_pool (pooling_type : string) : M (list (tensor F)) :=
  i0 ← node_input 0;
  x ← input_dict_getitem i0;
  let x_shape := shape x in
  let spatial_size := zlen (py_from 2 x_shape) in
  kernel_shape ← attrs_getitem "kernel_shape";
  '(_, strides_shape) ← attrs_get_ints "strides" (py_repeat 1 spatial_size);
  '(pads_ref, pads) ← attrs_get_ints "pads" (py_repeat 0 (spatial_size * 2));
  auto_pad ← attrs_get "auto_pad";
  let auto_pad := default (AStr "") auto_pad in
  kernel_shape ← as_ints kernel_shape;
  '(pads, out_shape, pad_shape) ←
    (if attr_eq_str auto_pad "SAME_LOWER" then
       out_shape ← lift (_get_output_shape "SAME_LOWER" (py_from 2 x_shape)
                           kernel_shape strides_shape);
       pad_shape ← lift (_get_pad_shape "SAME_LOWER" (py_from 2 x_shape)
                           kernel_shape strides_shape out_shape);
       pads ← M_fold (fun pads i =>
                 p ← lift (py_getitem pad_shape i);
                 pads ← ref_setitem pads_ref pads (i + spatial_size) (p / 2);
                 p ← lift (py_getitem pad_shape i);
                 e ← lift (py_getitem pads (i + spatial_size));
                 ref_setitem pads_ref pads i (p - e))
               (py_range spatial_size) pads;
       mret (pads, out_shape, pad_shape)
     else if attr_eq_str auto_pad "" then
       pad_shape ← lift (result_map (fun i =>
                      b ← py_getitem pads i;
                      e ← py_getitem pads (i + spatial_size);
                      Ok (b + e)) (py_range spatial_size));
       out_shape ← lift (_get_output_shape ""
                           (zip_with Z.add (py_from 2 x_shape) pad_shape)
                           kernel_shape strides_shape);
       mret (pads, out_shape, pad_shape)
     else raise UnboundLocalError);
  pooled ← lift (py_pool x kernel_shape strides_shape pads out_shape pad_shape pooling_type);
  _ ← (if bool_decide (shape pooled = py_upto 2 x_shape ++ out_shape)
       then ret tt else raise ValueError);
  mret [pooled].

(** ** More TensorFlow primitives *)

Fixpoint index_of (m : Z) (l : list Z) : nat :=
  match l with
  | [] => 0%nat
  | p :: l' => if p =? m then 0%nat else S (index_of m l')
  end.

(** [tf.transpose(x, perm)]: axis [k] of the result is axis [perm[k]] of [x]. *)
Definition tf_transpose (x : tensor F) (perm : list Z) : tensor F :=
  Tensor (dtype_of x)
    (map (fun p => nth (Z.to_nat p) (shape x) 0) perm)
    (fun idx => item x (map (fun m => nth (index_of m perm) idx 0) (py_range (rank x)))).

(** The indices read for one element of a reduction over [axes]. *)
Fixpoint reduce_window (axes : list Z) (keep_dims : bool) (k : Z) (sh idx : list Z)
    : list (list Z) :=
  match sh with
  | [] => []
  | d :: sh' =>
      if bool_decide (k ∈ axes)
      then py_range d :: reduce_window axes keep_dims (k + 1) sh' (if keep_dims then tail idx else idx)
      else [hd 0 idx] :: reduce_window axes keep_dims (k + 1) sh' (tail idx)
  end.

Fixpoint reduce_shape (axes : list Z) (keep_dims : bool) (k : Z) (sh : list Z) : list Z :=
  match sh with
  | [] => []
  | d :: sh' =>
      if bool_decide (k ∈ axes)
      then (if keep_dims then [1] else []) ++ reduce_shape axes keep_dims (k + 1) sh'
      else d :: reduce_shape axes keep_dims (k + 1) sh'
  end.

Definition tf_reduce (f : list F -> F) (x : tensor F) (axes : list Z) (keep_dims : bool)
    : tensor F :=
  Tensor (dtype_of x) (reduce_shape axes keep_dims 0 (shape x))
    (fun idx => f (map (item x)
                     (itertools_product (reduce_window axes keep_dims 0 (shape x) idx)))).

(** [tf.reduce_mean] and [tf.reduce_max] over non-negative axis numbers. *)
Definition tf_reduce_mean : tensor F -> list Z -> bool -> tensor F := tf_reduce np_average.
Definition max_or_lowest (l : list F) : F :=
  match l with
  | [] => f_lowest
  | v :: l' => foldl f_max v l'
  end.
Definition tf_reduce_max : tensor F -> list Z -> bool -> tensor F :=
  tf_reduce max_or_lowest.

(** [_, dim_window = tf.split(dims, [2, tf.size(dims) - 2])]. *)
Definition tf_split_2 (dims : list Z) : result (list Z) :=
  if zlen dims - 2 <? 0 then Raise ValueError else Ok (py_from 2 dims).

(** ** Pooling rules *)

Definition handle_global_average_pool : M (list (tensor F)) :=
  i0 ← node_input 0;
  x ← input_dict_getitem i0;
  let dims := py_range (rank x) in
  dim_window ← lift (tf_split_2 dims);
  mret [tf_reduce_mean x dim_window true].

Definition handle_global_max_pool : M (list (tensor F)) :=
  i0 ← node_input 0;
  x ← input_dict_getitem i0;
  let dims := py_range (rank x) in
  dim_window ← lift (tf_split_2 dims);
  mret [tf_reduce_max x dim_window true].

Definition _pool
    (pool_func : tensor F -> list Z -> string -> list Z -> data_format -> tensor F)
    (pooling_type : string) : M (list (tensor F)) :=
  i0 ← node_input 0;
  x ← input_dict_getitem i0;
  let x_rank := rank x in
  let support_cuda := supports_cuda in
  let '(storage_format, compute_format) := get_data_format x_rank support_cuda in
  kernel_shape ← attrs_getitem "kernel_shape";
  '(_, strides) ← attrs_get_ints "strides" (py_repeat 1 (x_rank - 2));
  (* By default, do not pad *)
  auto_pad ← attrs_get "auto_pad";
  let pad : option string :=
    match auto_pad with
    | Some a =>
        if attr_eq_str a "SAME_UPPER" then Some "SAME"
        else if attr_eq_str a "VALID" then Some "VALID"
        else None
    | None => None
    end in
  match pad with
  | None => _compatibility_pool pooling_type
  | Some pad =>
      kernel_shape ← as_ints kernel_shape;
      if support_cuda then
        mret [pool_func x kernel_shape pad strides compute_format]
      else
        let x := tf_transpose x (get_perm_from_formats storage_format compute_format) in
        let pooled := pool_func x kernel_shape pad strides compute_format in
        mret [tf_transpose pooled (get_perm_from_formats compute_format storage_format)]
  end.

Definition handle_average_pool : M (list (tensor F)) :=
  i0 ← node_input 0;
  x ← input_dict_getitem i0;
  let spatial_dim := py_from 2 (shape x) in
  kernel_shape ← attrs_get "kernel_shape";
  global_pool ← @M_fold Z bool (fun global_pool i =>
      if global_pool then
        d ← lift (py_getitem spatial_dim i);
        kernel_shape ← as_ints (default (AInts []) kernel_shape);
        k ← lift (py_getitem kernel_shape i);
        mret (d <? k)
      else mret false) (py_range (zlen spatial_dim)) true;
  if global_pool : bool then handle_global_average_pool
  else _pool (tf_nn_pool "AVG") "AVG".

Definition handle_max_pool : M (list (tensor F)) :=
  _pool (tf_nn_pool "MAX") "MAX".

(** ** Slice *)

(** [tf.slice(x, begin, size)]: [size[k] = -1] takes everything from
    [begin[k]] to the end of axis [k]; otherwise TensorFlow requires
    [0 <= begin[k] <= begin[k] + size[k] <= shape[k]]. *)
Fixpoint slice_shape (sh begin size : list Z) : option (list Z) :=
  match sh, begin, size with
  | [], [], [] => Some []
  | d :: sh', b :: begin', s :: size' =>
      let s' := if s =? -1 then d - b else s in
      if (0 <=? b) && (0 <=? s') && (b + s' <=? d)
      then match slice_shape sh' begin' size' with
           | Some rest => Some (s' :: rest)
           | None => None
           end
      else None
  | _, _, _ => None
  end.

Definition tf_slice (x : tensor F) (begin size : list Z) : result (tensor F) :=
  match slice_shape (shape x) begin size with
  | Some sh => Ok (Tensor (dtype_of x) sh (fun idx => item x (zip_with Z.add idx begin)))
  | None => Raise ValueError
  end.

(** The variables of the loop of [handle_slice]. *)
Record slice_vars : Type := SliceVars {
  sv_starts : list Z;
  sv_ends : list Z;
  sv_full_begin : list Z;
  sv_full_sizes : list Z
}.

(** One iteration.  [starts] and [ends] are the lists of [node.attrs]
    themselves. *)
Definition slice_step (axes : list Z) (v : slice_vars) (i : Z) : M slice_vars :=
  let '(SliceVars starts ends full_begin full_sizes) := v in
  (* ends[i] = full_sizes[axes[i]] + ends[i] if ends[i] < 0 else ends[i] *)
  e ← lift (py_getitem ends i);
  e' ← (if e <? 0 then
          a ← lift (py_getitem axes i);
          fs ← lift (py_getitem full_sizes a);
          e ← lift (py_getitem ends i);
          mret (fs + e)
        else lift (py_getitem ends i));
  ends ← ref_setitem (attr_list "ends") ends i e';
  (* ends[i] = np.min([full_sizes[axes[i]], ends[i]]) *)
  a ← lift (py_getitem axes i);
  fs ← lift (py_getitem full_sizes a);
  e ← lift (py_getitem ends i);
  ends ← ref_setitem (attr_list "ends") ends i (Z.min fs e);
  (* starts[i] = np.min([full_sizes[axes[i]], starts[i]]) *)
  a ← lift (py_getitem axes i);
  fs ← lift (py_getitem full_sizes a);
  st ← lift (py_getitem starts i);
  starts ← ref_setitem (attr_list "starts") starts i (Z.min fs st);
  (* full_begin[axes[i]] = starts[i] *)
  a ← lift (py_getitem axes i);
  st ← lift (py_getitem starts i);
  full_begin ← lift (py_setitem full_begin a st);
  (* full_sizes[axes[i]] = ends[i] - starts[i] *)
  a ← lift (py_getitem axes i);
  e ← lift (py_getitem ends i);
  st ← lift (py_getitem starts i);
  full_sizes ← lift (py_setitem full_sizes a (e - st));
  mret (SliceVars starts ends full_begin full_sizes).

Definition handle_slice : M (list (tensor F)) :=
  i0 ← node_input 0;
  x ← input_dict_getitem i0;
  let full_sizes := shape x in
  let full_begin := py_repeat 0 (zlen full_sizes) in
  starts ← attrs_get "starts";
  ends ← attrs_get "ends";
  starts ← match starts with Some (AInts l) => mret l | _ => raise TypeError end;
  let slice_len := zlen starts in
  '(_, axes) ← attrs_get_ints "axes" (py_range slice_len);
  v ← (if slice_len =? 0 then mret (SliceVars starts [] full_begin full_sizes)
       else
         ends ← match ends with Some (AInts l) => mret l | _ => raise TypeError end;
         M_fold (slice_step axes) (py_range slice_len)
           (SliceVars starts ends full_begin full_sizes));
  i0 ← node_input 0;
  x ← input_dict_getitem i0;
  sliced ← lift (tf_slice x (sv_full_begin v) (sv_full_sizes v));
  mret [sliced].

(** ** The pooling fallback, as the spec words it

    One record per spatial axis: the input length, the kernel and stride,
    the padding before and after, the total padding and the declared output
    length. *)
Record pool_axis : Type := PoolAxis {
  ax_dim : Z;
  ax_kernel : Z;
  ax_stride : Z;
  ax_pad_begin : Z;
  ax_pad_end : Z;
  ax_pad_total : Z;
  ax_out : Z
}.

(** The arithmetic the loop bounds of [py_pool] rely on: the number of window
    positions [int((d + pad - k) / s + 1)] is the declared output length, and
    the last window ends inside the padded axis.  The count is computed on
    doubles; it is the exact one when [d + pad - k] is not negative (or a
    multiple of the stride) and the sizes stay below [2^52]. *)
Definition axis_ok (a : pool_axis) : Prop :=
  0 <= ax_dim a /\ 0 <= ax_kernel a /\ 0 < ax_stride a /\
  0 <= ax_pad_begin a /\ 0 <= ax_pad_end a /\ 0 <= ax_out a /\
  Z.quot (ax_dim a + ax_pad_total a - ax_kernel a + ax_stride a) (ax_stride a) = ax_out a /\
  (0 < ax_out a ->
   ax_stride a * (ax_out a - 1) + ax_kernel a <= ax_pad_begin a + ax_dim a + ax_pad_end a) /\
  (0 <= ax_dim a + ax_pad_total a - ax_kernel a \/
   (ax_dim a + ax_pad_total a - ax_kernel a) mod ax_stride a = 0) /\
  Z.abs (ax_dim a + ax_pad_total a - ax_kernel a) + 2 * ax_stride a < 2 ^ 52.

(** The input with [ax_pad_begin] sentinels before and [ax_pad_end] sentinels
    after every spatial axis; batch and channel axes are not padded. *)
Definition pad_attr_of (axes : list pool_axis) : list (Z * Z) :=
  [(0, 0); (0, 0)] ++ map (fun a => (ax_pad_begin a, ax_pad_end a)) axes.

Definition sentinel_padded (x : tensor F) (axes : list pool_axis) : tensor F :=
  Tensor (dtype_of x)
    (zip_with (fun d p => p.1 + d + p.2) (shape x) (pad_attr_of axes))
    (fun idx =>
       let src := zip_with (fun i p => i - p.1) idx (pad_attr_of axes) in
       if in_bounds (shape x) src then item x src else np_nan).

(** The kernel window of the output position [pos = n :: c :: o]: the
    elements of the padded tensor at batch [n], channel [c] and spatial
    offsets [stride * o + j] for [0 <= j < kernel]. *)
Definition gather_window (padded : tensor F) (axes : list pool_axis) (pos : list Z) : list F :=
  match pos with
  | p0 :: p1 :: o =>
      map (fun w => item padded (p0 :: p1 :: w))
        (itertools_product
           (zip_with (fun a oi => map (fun j => ax_stride a * oi + j) (py_range (ax_kernel a)))
              axes o))
  | _ => []
  end.

Definition discard_sentinels (l : list F) : list F :=
  filter (fun v => negb (np_isnan v)) l.

(** AVG is the mean, MAX the largest of the entries left. *)
Definition reduction (pooling_type : string) (l : list F) : result F :=
  if bool_decide (pooling_type = "AVG") then Ok (np_average l)
  else if bool_decide (pooling_type = "MAX") then np_max l
  else Raise NotImplementedError.

(** What [py_pool] stores at an output position. *)
Definition pooled_value (ty : string) (x : tensor F) (axes : list pool_axis) (pos : list Z) : F :=
  match reduction ty (discard_sentinels (gather_window (sentinel_padded x axes) axes pos)) with
  | Ok v => v
  | Raise _ => np_nan
  end.




(** ** Batch normalization *)

Definition handle_batch_normalization : M (list (tensor F)) :=
  i0 ← node_input 0;
  x ← input_dict_getitem i0;
  let total_num_dim := rank x in
  i1 ← node_input 1;
  t1 ← input_dict_getitem i1;
  let scale := _explicit_broadcast t1 1 total_num_dim in
  i2 ← node_input 2;
  t2 ← input_dict_getitem i2;
  let bias := _explicit_broadcast t2 1 total_num_dim in
  i3 ← node_input 3;
  t3 ← input_dict_getitem i3;
  let running_mean := _explicit_broadcast t3 1 total_num_dim in
  i4 ← node_input 4;
  t4 ← input_dict_getitem i4;
  let running_variance := _explicit_broadcast t4 1 total_num_dim in
  variance_epsilon ← attrs_get "epsilon";
  let variance_epsilon := default (AFloat (f_of_Q (1 # 100000))) variance_epsilon in
  is_test ← attrs_get "is_test";
  if attr_truthy (default (AInt 0) is_test) then
    variance_epsilon ← as_float variance_epsilon;
    mret [tf_nn_batch_normalization x running_mean running_variance bias scale
            variance_epsilon]
  else
    spatial ← attrs_get "spatial";
    let spatial := attr_eq_int (default (AInt 1) spatial) 1 in
    momentum ← attrs_get "momentum";
    let momentum := default (AFloat (f_of_Q (9 # 10))) momentum in
    let axis := if spatial then [0] else [0] ++ py_range2 2 total_num_dim in
    let '(mean, variance) := tf_nn_moments x axis in
    let mean := _explicit_broadcast mean 1 total_num_dim in
    let variance := _explicit_broadcast variance 1 total_num_dim in
    momentum ← as_float momentum;
    let running_mean :=
      tf_add (tf_scalar_mul running_mean momentum)
             (tf_scalar_mul mean (f_sub (f_of_Z 1) momentum)) in
    let running_variance :=
      tf_add (tf_scalar_mul running_variance momentum)
             (tf_scalar_mul variance (f_sub (f_of_Z 1) momentum)) in
    (* TODO: need to conform to the documentation here *)
    variance_epsilon ← as_float variance_epsilon;
    mret [tf_nn_batch_normalization x running_mean running_variance bias scale
            variance_epsilon].

(** ** Convolution *)

Definition set_at {A} (k : Z) (v : A) (l : list A) : list A := <[Z.to_nat k := v]> l.

(** Slice number [i] of length [size] along axis [a]. *)
Definition channel_slice (x : tensor F) (a size i : Z) : tensor F :=
  Tensor (dtype_of x) (set_at a size (shape x))
    (fun idx => item x (set_at a (nth (Z.to_nat a) idx 0 + i * size) idx)).

(** [tf.split(x, num_or_size_splits=num, axis=axis)] for an integer [num]:
    [num] slices of equal size, in order; the axis length must be a multiple
    of [num]. *)
Definition tf_split (x : tensor F) (num axis : Z) : result (list (tensor F)) :=
  let a := norm_axis (rank x) axis in
  let d := nth (Z.to_nat a) (shape x) 0 in
  if (0 <? num) && (0 <=? a) && (a <? rank x) && (d mod num =? 0)
  then Ok (map (channel_slice x a (d / num)) (py_range num))
  else Raise ValueError.

(** [tf.concat(values, axis)]: the pieces one after the other along [axis]. *)
Fixpoint concat_item (pieces : list (tensor F)) (a : Z) (idx : list Z) : F :=
  match pieces with
  | [] => f_of_Z 0
  | p :: rest =>
      let d := nth (Z.to_nat a) (shape p) 0 in
      let i := nth (Z.to_nat a) idx 0 in
      if i <? d then item p idx else concat_item rest a (set_at a (i - d) idx)
  end.

Definition tf_concat (values : list (tensor F)) (axis : Z) : result (tensor F) :=
  match values with
  | [] => Raise ValueError
  | p :: _ =>
      let a := norm_axis (rank p) axis in
      Ok (Tensor (dtype_of p)
            (set_at a (foldr Z.add 0 (map (fun q => nth (Z.to_nat a) (shape q) 0) values))
               (shape p))
            (concat_item values a))
  end.

(** [v == l] for a list of integers [l]. *)
Definition attr_eq_ints (v : attr) (l : list Z) : bool :=
  match v with
  | AInts l' => bool_decide (l' = l)
  | _ => false
  end.

(** [node.attrs.get(key, None)] handed to a primitive that wants a list of
    integers or [None]. *)
Definition attrs_get_opt_ints (key : string) : M (option (list Z)) :=
  v ← attrs_get key;
  match v with
  | None => mret None
  | Some (AInts l) => mret (Some l)
  | Some _ => raise TypeError
  end.

Definition _conv (transpose : bool) : M (list (tensor F)) :=
  i0 ← node_input 0;
  x ← input_dict_getitem i0;
  let x_rank := rank x in
  let support_cuda := supports_cuda in
  let '(storage_format, compute_format) := get_data_format x_rank support_cuda in
  i1 ← node_input 1;
  in_weights ← input_dict_getitem i1;
  let weights_rank := rank in_weights in
  let perm :=
    if transpose
    then (* Translate weights from (C x M x KH x KW) to (KH x KW X C X M) *)
      py_range2 2 weights_rank ++ [0; 1]
    else (* Translate weights from (M x C x KH x KW) to (KH x KW X C X M) *)
      py_range2 2 weights_rank ++ [1; 0] in
  has_kernel_shape ← attrs_contains "kernel_shape";
  _ ← (if has_kernel_shape : bool then
         kernel_shape ← attrs_getitem "kernel_shape";
         if attr_eq_ints kernel_shape (py_from 2 (shape in_weights))
         then ret tt else raise AssertionError
       else ret tt);
  let weights := tf_transpose in_weights perm in
  dilations ← attrs_get_opt_ints "dilations";
  strides ← attrs_get_opt_ints "strides";
  has_pads ← attrs_contains "pads";
  x ← (if has_pads : bool then
         pads ← attrs_getitem "pads";
         pads ← as_ints pads;
         mret (get_padding_as_op x pads)
       else mret x);
  has_group ← attrs_contains "group";
  if has_group : bool then
    group ← attrs_getitem "group";
    group ← as_int group;
    weight_groups ← lift (tf_split weights group (-1));
    xs ← (if support_cuda then lift (tf_split x group 1)
          else
            let x := tf_transpose x (get_perm_from_formats storage_format compute_format) in
            lift (tf_split x group (-1)));
    let convolved :=
      zip_with (fun x weight =>
                  tf_nn_convolution x weight "VALID" strides dilations compute_format)
        xs weight_groups in
    len ← node_inputs_len;
    if len =? 2 then
      if support_cuda then
        output ← lift (tf_concat convolved 1);
        mret [output]
      else
        output ← lift (tf_concat convolved (-1));
        let output :=
          tf_transpose output (get_perm_from_formats compute_format storage_format) in
        mret [output]
    else
      i2 ← node_input 2;
      bias ← input_dict_getitem i2;
      if support_cuda then
        output ← lift (tf_concat convolved 1);
        let output := tf_nn_bias_add output bias compute_format in
        mret [output]
      else
        output ← lift (tf_concat convolved (-1));
        let output := tf_nn_bias_add output bias compute_format in
        let output :=
          tf_transpose output (get_perm_from_formats compute_format storage_format) in
        mret [output]
  else
    let x :=
      if support_cuda then x
      else tf_transpose x (get_perm_from_formats storage_format compute_format) in
    let convolved :=
      tf_nn_convolution x weights "VALID" strides dilations compute_format in
    let convolved :=
      if support_cuda then convolved
      else tf_transpose convolved (get_perm_from_formats compute_format storage_format) in
    len ← node_inputs_len;
    if len =? 2 then mret [convolved]
    else
      i2 ← node_input 2;
      bias ← input_dict_getitem i2;
      let convolved :=
        if support_cuda then convolved
        else tf_transpose convolved (get_perm_from_formats storage_format compute_format) in
      let output := tf_nn_bias_add convolved bias compute_format in
      let output :=
        if support_cuda then output
        else tf_transpose output (get_perm_from_formats compute_format storage_format) in
      mret [output].

Definition handle_conv : M (list (tensor F)) := _conv false.
Definition handle_conv_transpose : M (list (tensor F)) := _conv true.

(** *** The grouped convolution, as the spec words it *)





(** [tf.split] accepts the tensor: the axis exists and its length is a
    multiple of the number of groups. *)
Definition splittable (x : tensor F) (g axis : Z) : Prop :=
  let a := norm_axis (rank x) axis in
  0 <= a < rank x /\ (nth (Z.to_nat a) (shape x) 0) mod g = 0.


(** ** Softmax *)

(** [l[a:b]] with Python's treatment of negative and oversized bounds. *)
Definition py_clamp (len v : Z) : Z :=
  if v <? 0 then Z.max (v + len) 0 else Z.min v len.
Definition py_slice {A} (l : list A) (a b : Z) : list A :=
  let a' := py_clamp (zlen l) a in
  let b' := py_clamp (zlen l) b in
  take (Z.to_nat (b' - a')) (drop (Z.to_nat a') l).

(** [tf.reduce_prod] of a shape. *)
Definition reduce_prod (l : list Z) : Z := foldr Z.mul 1 l.

(** Position of a multi-index in row-major order, and back. *)
Definition ravel (sh idx : list Z) : Z :=
  foldl (fun acc di => acc * di.1 + di.2) 0 (zip sh idx).
Fixpoint unravel (sh : list Z) (k : Z) : list Z :=
  match sh with
  | [] => []
  | _ :: rest => (k / reduce_prod rest) :: unravel rest (k mod reduce_prod rest)
  end.

(** [tf.reshape(x, sh)] for a shape without -1: the elements in row-major
    order under the new shape; the number of elements must not change. *)
Definition tf_reshape (x : tensor F) (sh : list Z) : result (tensor F) :=
  if reduce_prod sh =? reduce_prod (shape x)
  then Ok (Tensor (dtype_of x) sh (fun idx => item x (unravel (shape x) (ravel sh idx))))
  else Raise ValueError.

(** [tf.reduce_max(x)]: the largest element of the whole tensor. *)
Definition tf_reduce_max_all (x : tensor F) : F :=
  max_or_lowest (map (item x) (indices (shape x))).

(** [x - m] and [x + c] for a scalar. *)
Definition tf_sub_scalar (x : tensor F) (m : F) : tensor F :=
  Tensor (dtype_of x) (shape x) (fun idx => f_sub (item x idx) m).
Definition tf_add_scalar (x : tensor F) (c : F) : tensor F :=
  Tensor (dtype_of x) (shape x) (fun idx => f_add (item x idx) c).

(** [tf.nn.softmax(x)] as TensorFlow's kernel computes it along the last
    axis: the largest element of the row is subtracted from the row, the
    differences are exponentiated and multiplied by the reciprocal of their
    sum. *)
Definition softmax_row (x : tensor F) (idx : list Z) : list (list Z) :=
  map (fun k => set_at (zlen idx - 1) k idx)
    (py_range (nth (Z.to_nat (rank x - 1)) (shape x) 0)).
Definition f_sum (l : list F) : F := foldl f_add (f_of_Z 0) l.
Definition tf_nn_softmax (x : tensor F) : tensor F :=
  Tensor (dtype_of x) (shape x)
    (fun idx =>
       let row := map (item x) (softmax_row x idx) in
       let m := max_or_lowest row in
       f_mul (f_exp (f_sub (item x idx) m))
             (f_div (f_of_Z 1) (f_sum (map (fun v => f_exp (f_sub v m)) row)))).

Definition handle_softmax : M (list (tensor F)) :=
  i0 ← node_input 0;
  x ← input_dict_getitem i0;
  has_axis ← attrs_contains "axis";
  last ← (if has_axis : bool then
            a ← attrs_getitem "axis";
            mret (attr_eq_int a (rank x - 1))
          else mret false);
  if last : bool then mret [tf_nn_softmax x]
  else
    has_axis ← attrs_contains "axis";
    axis ← (if has_axis : bool then
              axis ← attrs_getitem "axis";
              axis ← as_int axis;
              if 0 <=? axis then mret axis
              else
                i0 ← node_input 0;
                x0 ← input_dict_getitem i0;
                mret (rank x0 + axis)
            else mret 1);
    let shape_ := shape x in
    let cal_shape :=
      [reduce_prod (py_slice shape_ 0 axis);
       reduce_prod (py_slice shape_ axis (zlen shape_))] in
    x ← lift (tf_reshape x cal_shape);
    y ← lift (tf_reshape (tf_nn_softmax (tf_sub_scalar x (tf_reduce_max_all x))) shape_);
    mret [y].

(** *** What the rule returns *)

Definition cal_shape (sh : list Z) (axis : Z) : list Z :=
  [reduce_prod (py_slice sh 0 axis); reduce_prod (py_slice sh axis (zlen sh))].

(** The tensor [tf.reshape(x, sh)] is when it is defined. *)
Definition reshaped (x : tensor F) (sh : list Z) : tensor F :=
  Tensor (dtype_of x) sh (fun idx => item x (unravel (shape x) (ravel sh idx))).

(** Softmax of the 2D view of [x] split at [axis], after subtracting the
    largest element, in the shape of [x]. *)
Definition softmax_via_2d (x : tensor F) (axis : Z) : tensor F :=
  let x2 := reshaped x (cal_shape (shape x) axis) in
  reshaped (tf_nn_softmax (tf_sub_scalar x2 (tf_reduce_max_all x2))) (shape x).

Definition softmax_result (n : node) (x : tensor F) : tensor F :=
  match attrs n !! "axis" with
  | Some (AInt a) =>
      if a =? rank x - 1 then tf_nn_softmax x
      else softmax_via_2d x (if 0 <=? a then a else rank x + a)
  | _ => softmax_via_2d x 1
  end.

(** Adding [c] to the elements of [x] changes neither the order nor the
    difference of any two of them.  Exact addition does that; float addition
    does as long as it does not round the sums apart or together. *)
Definition shift_exact (x : tensor F) (c : F) : Prop :=
  forall i j, In i (indices (shape x)) -> In j (indices (shape x)) ->
    f_ltb (f_add (item x i) c) (f_add (item x j) c) = f_ltb (item x i) (item x j) /\
    f_sub (f_add (item x i) c) (f_add (item x j) c) = f_sub (item x i) (item x j).

(** ** Properties stated about several rules *)

(** The rules read their first input before anything else. *)
Definition reads_first_input {A} (h : M A) : Prop :=
  forall (n : node) (d : gmap string (tensor F)),
    (inputs n = [] -> call h n d = (Raise IndexError, PyState n d [])) /\
    (forall i0, inputs n !! 0%nat = Some i0 -> d !! i0 = None ->
                call h n d = (Raise (KeyError i0), PyState n d [])).


(** One spatial axis as the helpers of [_compatibility_pool] see it: input
    length, kernel length, stride. *)
Definition dks_dim (t : Z * Z * Z) : Z := t.1.1.
Definition dks_kernel (t : Z * Z * Z) : Z := t.1.2.
Definition dks_stride (t : Z * Z * Z) : Z := t.2.


(** ** Flatten *)

(** [tf.split(v, [a, b])] of a vector: one size may be -1 and is then what
    the other leaves; otherwise both are non-negative and add up to the
    length of [v].  TensorFlow rejects everything else. *)
Definition tf_split_sizes {A} (v : list A) (a b : Z) : result (list A * list A) :=
  let len := zlen v in
  let sizes :=
    if (a =? -1) && (b =? -1) then None
    else if a =? -1 then Some (len - b, b)
    else if b =? -1 then Some (a, len - a)
    else Some (a, b) in
  match sizes with
  | Some (a', b') =>
      if (0 <=? a') && (0 <=? b') && (a' + b' =? len)
      then Ok (take (Z.to_nat a') v, drop (Z.to_nat a') v)
      else Raise ValueError
  | None => Raise ValueError
  end.

Definition handle_flatten : M (list (tensor F)) :=
  i0 ← node_input 0;
  tensor ← input_dict_getitem i0;
  has_axis ← attrs_contains "axis";
  axis ← (if has_axis : bool then
            axis ← attrs_getitem "axis";
            as_int axis
          else mret 1);
  let shape_ := shape tensor in
  '(split0, split1) ← lift (tf_split_sizes shape_ axis (zlen shape_ - axis));
  let split0 := reduce_prod split0 in
  let split1 := reduce_prod split1 in
  let output_shape := [split0; split1] in
  y ← lift (tf_reshape tensor output_shape);
  mret [y].

(** ** Unsqueeze *)

(** [sorted(l)] on a list of integers: the entries of [l] in ascending
    order. *)
Fixpoint sorted_insert (a : Z) (l : list Z) : list Z :=
  match l with
  | [] => [a]
  | b :: l' => if a <=? b then a :: l else b :: sorted_insert a l'
  end.
Definition sorted (l : list Z) : list Z := foldr sorted_insert [] l.

(** [tf.expand_dims(x, axis)]: a new axis of length 1 at position [axis]; a
    negative [axis] counts from the end of the new shape.  TensorFlow
    requires [-rank - 1 <= axis <= rank]. *)
Definition tf_expand_dims (x : tensor F) (axis : Z) : result (tensor F) :=
  let r := rank x in
  if (- r - 1 <=? axis) && (axis <=? r) then
    let a := if axis <? 0 then axis + r + 1 else axis in
    Ok (Tensor (dtype_of x) (insert_at a 1 (shape x)) (fun idx => item x (remove_at a idx)))
  else Raise ValueError.

Definition handle_unsqueeze : M (list (tensor F)) :=
  i0 ← node_input 0;
  x ← input_dict_getitem i0;
  axes ← attrs_getitem "axes";
  axes ← as_ints axes;
  let axis_list := sorted axes in
  x ← lift (result_fold tf_expand_dims axis_list x);
  mret [x].

(** ** auto_pad SAME_LOWER in the pooling fallback *)



(** The list [node.attrs.get(key, dflt)] evaluates to, for an attribute that
    is absent or a list of integers. *)
Definition ints_or (n : node) (key : string) (dflt : list Z) : list Z :=
  match attrs n !! key with Some (AInts l) => l | _ => dflt end.

Definition ints_or_absent (n : node) (key : string) : Prop :=
  attrs n !! key = None \/ exists l, attrs n !! key = Some (AInts l).

(** The float [node.attrs.get(key, dflt)] evaluates to, for an attribute that
    is absent or a number. *)
Definition float_or (n : node) (key : string) (dflt : F) : F :=
  match attrs n !! key with
  | Some (AFloat f) => f
  | Some (AInt z) => f_of_Z z
  | _ => dflt
  end.

Definition float_or_absent (n : node) (key : string) : Prop :=
  attrs n !! key = None \/ (exists f, attrs n !! key = Some (AFloat f))
  \/ (exists z, attrs n !! key = Some (AInt z)).

End Backend.

Arguments attr : clear implicits.
Arguments node : clear implicits.
Arguments pystate : clear implicits.
Arguments M : clear implicits.

(** ** An instance to run the rules on: exact rational numbers, with [None]
    for NaN *)

Module QFloat.

Definition t : Type := option Q.

Definition lift2 (f : Q -> Q -> Q) (a b : t) : t :=
  match a, b with
  | Some x, Some y => Some (Qred (f x y))
  | _, _ => None
  end.

Definition div (a b : t) : t :=
  match a, b with
  | Some x, Some y => if Qeq_bool y 0 then None else Some (Qred (x / y))
  | _, _ => None
  end.

Definition ltb (a b : t) : bool :=
  match a, b with
  | Some x, Some y => negb (Qle_bool y x)
  | _, _ => false
  end.

Definition eqb (a b : t) : bool :=
  match a, b with
  | Some x, Some y => Qeq_bool x y
  | _, _ => false
  end.

#[global] Instance ops : FloatOps t := {
  f_of_Z z := Some (inject_Z z);
  f_of_Q q := Some (Qred q);
  f_add := lift2 Qplus;
  f_sub := lift2 Qminus;
  f_mul := lift2 Qmult;
  f_div := div;
  f_exp _ := None;
  f_ltb := ltb;
  f_eqb := eqb;
  f_lowest := Some (inject_Z (- 2 ^ 128));
  np_nan := None;
  np_isnan a := match a with None => true | Some _ => false end;
  astype_float32 a := a
}.

(** An environment without CUDA whose primitives hand their first tensor
    back: enough to run the rules, which never look inside them. *)
#[global] Instance env : TFEnv t := {
  supports_cuda := false;
  tf_nn_pool _ x _ _ _ _ := x;
  tf_nn_convolution x _ _ _ _ _ := x;
  tf_nn_bias_add x _ _ := x;
  tf_nn_batch_normalization x _ _ _ _ _ := x;
  tf_nn_moments x _ := (x, x);
  tf_add x _ := x;
  tf_scalar_mul x _ := x;
  _explicit_broadcast x _ _ := x;
  get_padding_as_op x _ := x
}.

(** A tensor with the given shape whose element at a multi-index is the
    number the index spells in base ten. *)
Definition digits (idx : list Z) : Z := foldl (fun acc i => 10 * acc + i) 0 idx.
Definition iota (dt : dtype) (sh : list Z) : tensor t :=
  Tensor dt sh (fun idx => Some (inject_Z (digits idx))).

Definition mk_node (op : string) (a : list (string * attr t)) (ins : list string) : node t :=
  Node op (list_to_map a) ins ["y"] (op +:+ "_0").

(** The slice of the spec's Slice-clamp scenario, on a vector of length 4. *)
Definition slice_node : node t :=
  mk_node "Slice" [("starts", AInts [5]); ("ends", AInts [-1]); ("axes", AInts [0])] ["x"].
Definition slice_dict : gmap string (tensor t) := {[ "x" := iota float32 [4] ]}.

(** Two ArgMax nodes without an axis attribute that differ in their name only. *)
Definition argmax_node_a : node t := Node "ArgMax" ∅ ["x"] ["y"] "argmax_a".
Definition argmax_node_b : node t := Node "ArgMax" ∅ ["x"] ["y"] "argmax_b".
Definition argmax_node : node t := mk_node "ArgMax" [("axis", AInt 1)] ["x"].
Definition image_dict : gmap string (tensor t) := {[ "x" := iota float32 [1; 1; 2; 2] ]}.

(** Pooling nodes on the 1x1x2x2 image. *)
Definition maxpool_no_kernel : node t := mk_node "MaxPool" [] ["x"].
Definition maxpool_same_upper : node t :=
  mk_node "MaxPool" [("kernel_shape", AInts [2; 2]); ("auto_pad", AStr "SAME_UPPER")] ["x"].

(** A MaxPool with auto_pad SAME_LOWER that also carries a pads attribute. *)
Definition maxpool_same_lower : node t :=
  mk_node "MaxPool"
    [("kernel_shape", AInts [2; 2]); ("pads", AInts [0; 0; 0; 0]);
     ("auto_pad", AStr "SAME_LOWER")] ["x"].

(** A 2x2 kernel on the 2x2 image, with one row or column of padding on
    every side. *)
Definition maxpool_padded : node t :=
  mk_node "MaxPool" [("kernel_shape", AInts [2; 2]); ("pads", AInts [1; 1; 1; 1])] ["x"].
Definition avgpool_padded : node t :=
  mk_node "AveragePool" [("kernel_shape", AInts [2; 2]); ("pads", AInts [1; 1; 1; 1])] ["x"].
Definition avgpool_3x3 : node t :=
  mk_node "AveragePool" [("kernel_shape", AInts [3; 3])] ["x"].

Definition image4_dict : gmap string (tensor t) := {[ "x" := iota float32 [1; 3; 4; 4] ]}.

(** A BatchNormalization node in training mode. *)
Definition bn_node : node t :=
  mk_node "BatchNormalization" [("momentum", AFloat (Some (4 # 5)))]
    ["x"; "scale"; "bias"; "mean"; "var"].
Definition bn_dict : gmap string (tensor t) :=
  {[ "x" := iota float32 [2; 3]; "scale" := iota float32 [3]; "bias" := iota float32 [3];
     "mean" := iota float32 [3]; "var" := iota float32 [3] ]}.

Definition conv_dict : gmap string (tensor t) :=
  {[ "x" := iota float32 [1; 4; 2; 2]; "w" := iota float32 [4; 2; 1; 1] ]}.

End QFloat.


(** ** An instance to run the rules on: IEEE binary32, the float32 of numpy
    and TensorFlow, with the operations of the Standard Library's [SpecFloat]
    (round to nearest, ties to even) *)

Module F32.

Definition t : Type := spec_float.
Definition prec : Z := 24.
Definition emax : Z := 128.

Definition of_Z (z : Z) : t := binary_normalize prec emax z 0 false.

(** The number a float stands for; NaN and the infinities have none. *)
Definition value (x : t) : option Q :=
  match x with
  | S754_zero _ => Some 0%Q
  | S754_finite s m e =>
      Some (Qred (inject_Z (if s then Zneg m else Zpos m) * two_power e))
  | _ => None
  end.

(** A rational rounded to the nearest float, ties to even: the quotient is
    cut to some 64 bits and one more bit tells whether anything was cut
    off, which is all that rounding to 24 bits needs. *)
Definition of_Q (q : Q) : t :=
  let n := Qnum q in
  let d := Zpos (Qden q) in
  if n =? 0 then S754_zero false
  else
    let e := Z.log2 (Z.abs n) - Z.log2 d - 64 in
    let a := if 0 <=? e then Z.abs n else Z.abs n * 2 ^ (- e) in
    let b := if 0 <=? e then d * 2 ^ e else d in
    let m := 2 * (a / b) + (if a mod b =? 0 then 0 else 1) in
    binary_normalize prec emax (if n <? 0 then - m else m) (e - 1) false.

(** [e^q] from its series: the argument is halved until it is at most 1/2,
    sixteen terms of the series are summed, and the sum is squared back. *)
Definition exp_series (q : Q) (terms : nat) : Q :=
  foldr (fun k acc => 1 + q * acc / inject_Z (Z.of_nat k))%Q 1%Q (seq 1 terms).
Definition exp_Q (q : Q) : Q :=
  let s := if Qeq_bool q 0 then 0 else Z.max 0 (floor_log2 (Qabs q) + 2) in
  Qred (Qpower (exp_series (Qred (q / two_power s)) 16) (2 ^ s)).

Definition exp (x : t) : t :=
  match x with
  | S754_nan => S754_nan
  | S754_infinity false => S754_infinity false
  | S754_infinity true => S754_zero false
  | S754_zero _ => of_Z 1
  | S754_finite s m e =>
      match value x with
      | Some q =>
          if Qle_bool 89 q then S754_infinity false
          else if Qle_bool q (-104) then S754_zero false
          else of_Q (exp_Q q)
      | None => S754_nan
      end
  end.


#[global] Instance ops : FloatOps t := {
  f_of_Z := of_Z;
  f_of_Q := of_Q;
  f_add := SFadd prec emax;
  f_sub := SFsub prec emax;
  f_mul := SFmul prec emax;
  f_div := SFdiv prec emax;
  f_exp := exp;
  f_ltb := SFltb;
  f_eqb := SFeqb;
  f_lowest := S754_finite true 16777215 104;
  np_nan := S754_nan;
  np_isnan a := match a with S754_nan => true | _ => false end;
  astype_float32 a := a
}.

#[global] Instance env : TFEnv t := {
  supports_cuda := false;
  tf_nn_pool _ x _ _ _ _ := x;
  tf_nn_convolution x _ _ _ _ _ := x;
  tf_nn_bias_add x _ _ := x;
  tf_nn_batch_normalization x _ _ _ _ _ := x;
  tf_nn_moments x _ := (x, x);
  tf_add x _ := x;
  tf_scalar_mul x _ := x;
  _explicit_broadcast x _ _ := x;
  get_padding_as_op x _ := x
}.

(** The float32 matrix with the given integer entries. *)
Definition matrix (rows : list (list Z)) : tensor t :=
  Tensor float32 [zlen rows; zlen (nth 0 rows [])]
    (fun idx => match idx with
                | [i; j] => of_Z (nth (Z.to_nat j) (nth (Z.to_nat i) rows []) 0)
                | _ => of_Z 0
                end).

Definition ramp_2x2 : tensor t := matrix [[0; 1]; [2; 3]].

(** Softmax nodes: without an axis, and on the last axis of a matrix. *)
Definition softmax_node : node t := Node "Softmax" ∅ ["x"] ["y"] "softmax_0".
Definition softmax_last_node : node t :=
  Node "Softmax" {[ "axis" := AInt 1 ]} ["x"] ["y"] "softmax_1".

Definition half : t := of_Q (1 # 2).

End F32.

(** ** More nodes to run the rules on *)

Module Examples.
Import QFloat.

Definition node_without_inputs : node t := mk_node "Slice" [] [].
Definition maxpool_notset : node t :=
  mk_node "MaxPool" [("kernel_shape", AInts [2; 2]); ("auto_pad", AStr "NOTSET")] ["x"].
Definition avgpool_no_kernel : node t := mk_node "AveragePool" [] ["x"].
Definition bn_test_node : node t :=
  mk_node "BatchNormalization" [("is_test", AInt 1)]
    ["x"; "scale"; "bias"; "mean"; "var"].
Definition conv_bad_kernel : node t :=
  mk_node "Conv" [("kernel_shape", AInts [3; 3])] ["x"; "w"].
Definition slice_middle : node t :=
  mk_node "Slice" [("starts", AInts [1]); ("ends", AInts [-1]); ("axes", AInts [0])] ["x"].
Definition slice_from_back : node t :=
  mk_node "Slice" [("starts", AInts [-2]); ("ends", AInts [4])] ["x"].
Definition padded_only_axes : list pool_axis := [PoolAxis 1 1 2 2 0 2 2].
Definition one_window_axes : list pool_axis := [PoolAxis 2 2 1 0 0 0 1].
Definition flatten_at_2 : node t := mk_node "Flatten" [("axis", AInt 2)] ["x"].
Definition flatten_from_back : node t := mk_node "Flatten" [("axis", AInt (-1))] ["x"].
Definition unsqueeze_3_0 : node t := mk_node "Unsqueeze" [("axes", AInts [3; 0])] ["x"].
Definition unsqueeze_far : node t := mk_node "Unsqueeze" [("axes", AInts [0; 6])] ["x"].

End Examples.

(** ** Rounding to doubles *)

Lemma two_power_pos (e : Z) : (0 < two_power e)%Q.
Proof. unfold two_power. apply Qpower_0_lt. reflexivity. Qed.

Lemma two_power_add (a b : Z) : (two_power (a + b) == two_power a * two_power b)%Q.
Proof. unfold two_power. apply Qpower_plus. discriminate. Qed.

Lemma two_power_Z (e : Z) : 0 <= e -> (two_power e == inject_Z (2 ^ e))%Q.
Proof.
  intros He. unfold two_power. rewrite Zpower_Qpower by exact He. reflexivity.
Qed.

Lemma two_power_succ (e : Z) : (two_power (e + 1) == 2 * two_power e)%Q.
Proof. rewrite two_power_add. change (two_power 1) with 2%Q. ring. Qed.

Lemma two_power_pred (e : Z) : (two_power (e - 1) == (1 # 2) * two_power e)%Q.
Proof.
  assert (E : (two_power e == 2 * two_power (e - 1))%Q).
  { rewrite <- two_power_succ. replace (e - 1 + 1) with e by lia. reflexivity. }
  rewrite E. ring.
Qed.

Lemma two_power_le (a b : Z) : a <= b -> (two_power a <= two_power b)%Q.
Proof.
  intros Hab. replace b with (a + (b - a)) by lia. rewrite two_power_add.
  assert (H1 : (1 <= two_power (b - a))%Q).
  { rewrite two_power_Z by lia.
    change 1%Q with (inject_Z 1). rewrite <- Zle_Qle.
    pose proof (Z.pow_pos_nonneg 2 (b - a) ltac:(lia) ltac:(lia)). lia. }
  pose proof (two_power_pos a). nra.
Qed.

Lemma two_power_lt (a b : Z) : a < b -> (two_power a < two_power b)%Q.
Proof.
  intros Hab.
  apply Qlt_le_trans with (two_power (a + 1)); [|apply two_power_le; lia].
  rewrite two_power_succ. pose proof (two_power_pos a). lra.
Qed.

Lemma floor_log2_spec (q : Q) :
  (0 < q)%Q ->
  (two_power (floor_log2 q) <= q /\ q < two_power (floor_log2 q + 1))%Q.
Proof.
  intros Hq. destruct q as [n d].
  assert (Hn : 0 < n).
  { unfold Qlt in Hq. cbn in Hq. lia. }
  unfold floor_log2. cbn [Qnum Qden].
  set (a := Z.log2 n). set (b := Z.log2 (Z.pos d)).
  pose proof (Z.log2_spec n Hn) as [Ha1 Ha2]. fold a in Ha1, Ha2.
  pose proof (Z.log2_spec (Z.pos d) ltac:(lia)) as [Hb1 Hb2]. fold b in Hb1, Hb2.
  pose proof (Z.log2_nonneg n) as Ha0. fold a in Ha0.
  pose proof (Z.log2_nonneg (Z.pos d)) as Hb0. fold b in Hb0.
  assert (Hq_eq : (n # d == inject_Z n / inject_Z (Z.pos d))%Q).
  { rewrite Qmake_Qdiv. reflexivity. }
  assert (Hd_pos : (0 < inject_Z (Z.pos d))%Q).
  { change 0%Q with (inject_Z 0). rewrite <- Zlt_Qlt. lia. }
  assert (Hupper : (n # d < two_power (a - b + 1))%Q).
  { (* n < 2^(a+1), 2^b <= d *)
    replace (a - b + 1) with ((a + 1) + (- b)) by lia.
    rewrite two_power_add.
    assert (E : (two_power (- b) == / two_power b)%Q).
    { unfold two_power. rewrite Qpower_opp. reflexivity. }
    rewrite E, Hq_eq.
    rewrite (two_power_Z (a + 1)) by lia. rewrite (two_power_Z b) by lia.
    assert (H2b : (0 < inject_Z (2 ^ b))%Q).
    { change 0%Q with (inject_Z 0). rewrite <- Zlt_Qlt. lia. }
    apply Qlt_shift_div_r; [exact Hd_pos|].
    assert (H1 : (inject_Z n < inject_Z (2 ^ (a + 1)))%Q).
    { rewrite <- Zlt_Qlt. replace (a + 1) with (Z.succ a) by lia. exact Ha2. }
    assert (H2 : (inject_Z (2 ^ b) <= inject_Z (Z.pos d))%Q).
    { rewrite <- Zle_Qle. exact Hb1. }
    assert (H3 : (0 < inject_Z (2 ^ (a + 1)))%Q) by (change 0%Q with (inject_Z 0); rewrite <- Zlt_Qlt; lia).
    apply Qlt_le_trans with (inject_Z (2 ^ (a + 1))); [exact H1|].
    setoid_replace (inject_Z (2 ^ (a + 1)) * / inject_Z (2 ^ b) * inject_Z (Z.pos d))%Q
      with (inject_Z (2 ^ (a + 1)) * (inject_Z (Z.pos d) / inject_Z (2 ^ b)))%Q
      using relation Qeq by (field; lra).
    assert (H4 : (1 <= inject_Z (Z.pos d) / inject_Z (2 ^ b))%Q).
    { apply Qle_shift_div_l; [exact H2b | lra]. }
    nra. }
  assert (Hlower : (two_power (a - b - 1) < n # d)%Q).
  { replace (a - b - 1) with (a + (- (b + 1))) by lia.
    rewrite two_power_add.
    assert (E : (two_power (- (b + 1)) == / two_power (b + 1))%Q).
    { unfold two_power. rewrite Qpower_opp. reflexivity. }
    rewrite E, Hq_eq.
    rewrite (two_power_Z a) by lia. rewrite (two_power_Z (b + 1)) by lia.
    assert (H2b : (0 < inject_Z (2 ^ (b + 1)))%Q).
    { change 0%Q with (inject_Z 0). rewrite <- Zlt_Qlt. lia. }
    apply Qlt_shift_div_l; [exact Hd_pos|].
    assert (H1 : (inject_Z (2 ^ a) <= inject_Z n)%Q).
    { rewrite <- Zle_Qle. exact Ha1. }
    assert (H2 : (inject_Z (Z.pos d) < inject_Z (2 ^ (b + 1)))%Q).
    { rewrite <- Zlt_Qlt. replace (b + 1) with (Z.succ b) by lia. exact Hb2. }
    assert (H3 : (0 < inject_Z (2 ^ a))%Q) by (change 0%Q with (inject_Z 0); rewrite <- Zlt_Qlt; lia).
    apply Qlt_le_trans with (inject_Z (2 ^ a)); [|exact H1].
    setoid_replace (inject_Z (2 ^ a) * / inject_Z (2 ^ (b + 1)) * inject_Z (Z.pos d))%Q
      with (inject_Z (2 ^ a) * (inject_Z (Z.pos d) / inject_Z (2 ^ (b + 1))))%Q
      using relation Qeq by (field; lra).
    assert (H4 : (inject_Z (Z.pos d) / inject_Z (2 ^ (b + 1)) < 1)%Q).
    { apply Qlt_shift_div_r; [exact H2b | lra]. }
    nra. }
  destruct (Qle_bool (two_power (a - b)) (n # d)) eqn:E.
  - apply Qle_bool_iff in E. split; [exact E | exact Hupper].
  - split.
    + apply Qlt_le_weak. exact Hlower.
    + replace (a - b - 1 + 1) with (a - b) by lia.
      apply Qnot_le_lt. intros Hle. apply Qle_bool_iff in Hle. congruence.
Qed.

Lemma round_half_even_comp (r r' : Q) : (r == r')%Q -> round_half_even r = round_half_even r'.
Proof.
  intros E. unfold round_half_even.
  rewrite (Qfloor_comp _ _ E).
  assert (E2 : (r - inject_Z (Qfloor r') == r' - inject_Z (Qfloor r'))%Q) by (rewrite E; reflexivity).
  rewrite (Qcompare_comp _ _ E2 (1 # 2) (1 # 2) (Qeq_refl _)). reflexivity.
Qed.

Lemma round_half_even_Z (z : Z) : round_half_even (inject_Z z) = z.
Proof.
  unfold round_half_even. rewrite Qfloor_Z.
  assert (E0 : (inject_Z z - inject_Z z == 0)%Q) by ring.
  rewrite (Qcompare_comp _ _ E0 (1 # 2) (1 # 2) (Qeq_refl _)). reflexivity.
Qed.

Lemma round_half_even_error (r : Q) :
  (Qabs (inject_Z (round_half_even r) - r) <= 1 # 2)%Q.
Proof.
  unfold round_half_even.
  pose proof (Qfloor_le r) as H1. pose proof (Qlt_floor r) as H2.
  rewrite inject_Z_plus in H2. change (inject_Z 1) with 1%Q in H2.
  destruct (Qcompare (r - inject_Z (Qfloor r)) (1 # 2)) eqn:E.
  - apply Qeq_alt in E.
    destruct (Z.even (Qfloor r)).
    + apply Qabs_case; intros; lra.
    + rewrite inject_Z_plus. change (inject_Z 1) with 1%Q. apply Qabs_case; intros; lra.
  - apply Qlt_alt in E. apply Qabs_case; intros; lra.
  - apply Qgt_alt in E. rewrite inject_Z_plus. change (inject_Z 1) with 1%Q.
    apply Qabs_case; intros; lra.
Qed.

Lemma round_half_even_nonneg (r : Q) : (0 <= r)%Q -> 0 <= round_half_even r.
Proof.
  intros Hr. unfold round_half_even.
  assert (H0 : 0 <= Qfloor r).
  { change 0 with (Qfloor 0). apply Qfloor_resp_le. exact Hr. }
  destruct (Qcompare _ _); [destruct (Z.even _)| |]; lia.
Qed.

Lemma Qabs_nonzero_pos (q : Q) : ~ (q == 0)%Q -> (0 < Qabs q)%Q.
Proof.
  intros Hq. apply Qabs_case; intros H.
  - destruct (Qle_lt_or_eq _ _ H) as [Hlt | Heq]; [exact Hlt|].
    exfalso. apply Hq. symmetry. exact Heq.
  - destruct (Qle_lt_or_eq _ _ H) as [Hlt | Heq]; [lra|].
    exfalso. apply Hq. exact Heq.
Qed.

(** The value [round_nearest] rounds to, before the sign is put back. *)
Lemma round_nearest_Some (prec emin emax : Z) (q : Q) :
  ~ (q == 0)%Q ->
  let a := Qabs (Qred q) in
  let e := Z.max (floor_log2 a - (prec - 1)) emin in
  let r := (inject_Z (round_half_even (a / two_power e)) * two_power e)%Q in
  (r < two_power emax)%Q ->
  exists v, round_nearest prec emin emax q = Some v /\
            (v == (if Qle_bool 0 q then r else - r))%Q.
Proof.
  intros Hq a e r Hr. unfold round_nearest.
  assert (Hred : (Qred q == q)%Q) by apply Qred_correct.
  destruct (Qeq_bool (Qred q) 0) eqn:E0.
  { apply Qeq_bool_iff in E0. rewrite Hred in E0. contradiction. }
  fold a. fold e. fold r.
  destruct (Qle_bool (two_power emax) r) eqn:E1.
  { apply Qle_bool_iff in E1. lra. }
  eexists. split; [reflexivity|].
  rewrite Qred_correct.
  assert (Eb : Qle_bool 0 (Qred q) = Qle_bool 0 q).
  { destruct (Qle_bool 0 q) eqn:E2.
    - apply Qle_bool_iff. apply Qle_bool_iff in E2. rewrite Hred. exact E2.
    - destruct (Qle_bool 0 (Qred q)) eqn:E3; [|reflexivity].
      apply Qle_bool_iff in E3. rewrite Hred in E3. apply Qle_bool_iff in E3. congruence. }
  rewrite Eb. reflexivity.
Qed.

(** In the normal range the result is within half a unit in the last place:
    a relative error of at most [2^-prec]. *)
Lemma round_nearest_error (prec emin emax : Z) (q : Q) :
  ~ (q == 0)%Q ->
  emin <= floor_log2 (Qabs (Qred q)) - (prec - 1) ->
  (Qabs q * (1 + two_power (- prec)) < two_power emax)%Q ->
  exists v, round_nearest prec emin emax q = Some v /\
            (Qabs (v - q) <= Qabs q * two_power (- prec))%Q.
Proof.
  intros Hq Hnormal Hmax.
  assert (Hred : (Qred q == q)%Q) by apply Qred_correct.
  set (a := Qabs (Qred q)) in *.
  assert (Ha : (a == Qabs q)%Q) by (unfold a; rewrite Hred; reflexivity).
  assert (Ha_pos : (0 < a)%Q).
  { rewrite Ha. apply Qabs_nonzero_pos. exact Hq. }
  set (l := floor_log2 a) in *.
  set (e := Z.max (l - (prec - 1)) emin).
  assert (He : e = l - (prec - 1)) by (unfold e; lia).
  pose proof (floor_log2_spec a Ha_pos) as [Hl1 Hl2]. fold l in Hl1, Hl2.
  pose proof (two_power_pos e) as Pe.
  set (s := (a / two_power e)%Q).
  pose proof (round_half_even_error s) as Herr.
  set (m := round_half_even s) in *.
  set (r := (inject_Z m * two_power e)%Q).
  (* |r - a| <= 2^e / 2 *)
  assert (Hra : (Qabs (r - a) <= (1 # 2) * two_power e)%Q).
  { assert (E : (r - a == (inject_Z m - s) * two_power e)%Q).
    { unfold r, s. field. lra. }
    rewrite E, Qabs_Qmult. rewrite (Qabs_pos (two_power e)) by lra.
    assert (Hm : (Qabs (inject_Z m - s) * two_power e <= (1 # 2) * two_power e)%Q)
      by (apply Qmult_le_compat_r; [exact Herr | lra]).
    lra. }
  (* 2^e / 2 = 2^(l - prec) <= a * 2^-prec *)
  assert (Hulp : ((1 # 2) * two_power e <= a * two_power (- prec))%Q).
  { rewrite <- two_power_pred. rewrite He.
    replace (l - (prec - 1) - 1) with (l + - prec) by lia.
    rewrite two_power_add. pose proof (two_power_pos (- prec)). nra. }
  destruct (round_nearest_Some prec emin emax q Hq) as (v & Hv & Hval).
  { fold a. fold l. fold e. fold s. fold m. fold r.
    apply Qabs_Qle_condition in Hra. rewrite Ha in Hulp, Hra. lra. }
  fold a in Hval. fold l in Hval. fold e in Hval. fold s in Hval. fold m in Hval.
  fold r in Hval.
  exists v. split; [exact Hv|].
  rewrite Hval.
  assert (Hrq : (Qabs (r - a) <= Qabs q * two_power (- prec))%Q) by (rewrite <- Ha; lra).
  destruct (Qle_bool 0 q) eqn:E.
  - apply Qle_bool_iff in E. rewrite (Qabs_pos q E) in Ha.
    assert (E2 : (r - q == r - a)%Q) by (rewrite Ha; reflexivity).
    rewrite E2. exact Hrq.
  - assert (Hneg : (q < 0)%Q).
    { apply Qnot_le_lt. intros Hle. apply Qle_bool_iff in Hle. congruence. }
    rewrite (Qabs_neg q) in Ha by lra.
    assert (E2 : (- r - q == - (r - a))%Q) by (rewrite Ha; ring).
    rewrite E2, Qabs_opp. exact Hrq.
Qed.

Lemma Qred_inject_Z (z : Z) (q : Q) : (q == inject_Z z)%Q -> Qred q = inject_Z z.
Proof.
  intros E. rewrite (Qred_complete _ _ E). unfold inject_Z, Qred.
  pose proof (Z.ggcd_correct_divisors z 1) as D.
  pose proof (Z.ggcd_gcd z 1) as G. rewrite Z.gcd_1_r in G.
  destruct (Z.ggcd z 1) as [g [zz oo]]. cbn [fst snd] in *. subst g.
  destruct D as [D1 D2].
  assert (Hz : zz = z) by lia. assert (Ho : oo = 1) by lia. rewrite Hz, Ho. reflexivity.
Qed.

Lemma inject_Z_lt_two_power (z e : Z) : 0 <= e -> z < 2 ^ e -> (inject_Z z < two_power e)%Q.
Proof. intros He Hz. rewrite two_power_Z by exact He. rewrite <- Zlt_Qlt. exact Hz. Qed.

Lemma round64_int (z : Z) (q : Q) :
  (q == inject_Z z)%Q -> Z.abs z < 2 ^ 53 -> round64 q = Some (inject_Z z).
Proof.
  intros E Hz. unfold round64, round_nearest.
  rewrite (Qred_inject_Z z q E).
  destruct (Z.eq_dec z 0) as [-> | Hnz]; [reflexivity|].
  destruct (Qeq_bool (inject_Z z) 0) eqn:E0.
  { apply Qeq_bool_iff in E0. unfold Qeq in E0. cbn in E0. lia. }
  change (Qabs (inject_Z z)) with (inject_Z (Z.abs z)).
  set (n := Z.abs z) in *.
  assert (Hn : 0 < n) by (unfold n; lia).
  assert (Hl : floor_log2 (inject_Z n) = Z.log2 n).
  { unfold floor_log2. cbn [Qnum Qden inject_Z]. change (Z.log2 1) with 0.
    rewrite Z.sub_0_r.
    pose proof (Z.log2_spec n Hn) as [L1 _]. pose proof (Z.log2_nonneg n) as L0.
    assert (Hb : Qle_bool (two_power (Z.log2 n)) (inject_Z n) = true).
    { apply Qle_bool_iff. rewrite two_power_Z by exact L0.
      rewrite <- Zle_Qle. exact L1. }
    rewrite Hb. reflexivity. }
  rewrite Hl.
  pose proof (Z.log2_nonneg n) as L0.
  assert (L53 : Z.log2 n < 53) by (apply Z.log2_lt_pow2; lia).
  replace (Z.max (Z.log2 n - (53 - 1)) (-1074)) with (Z.log2 n - 52) by lia.
  set (e := Z.log2 n - 52).
  assert (Hinv : (/ two_power e == two_power (- e))%Q).
  { unfold two_power. rewrite Qpower_opp. reflexivity. }
  assert (Hscaled : (inject_Z n / two_power e == inject_Z (n * 2 ^ (- e)))%Q).
  { unfold Qdiv. rewrite Hinv, inject_Z_mult, (two_power_Z (- e)) by (unfold e; lia).
    reflexivity. }
  rewrite (round_half_even_comp _ _ Hscaled), round_half_even_Z.
  assert (Hr : (inject_Z (n * 2 ^ (- e)) * two_power e == inject_Z n)%Q).
  { rewrite inject_Z_mult, <- (two_power_Z (- e)) by (unfold e; lia).
    rewrite <- Hinv. field. pose proof (two_power_pos e). lra. }
  destruct (Qle_bool (two_power 1024) (inject_Z (n * 2 ^ (- e)) * two_power e)) eqn:E1.
  { apply Qle_bool_iff in E1. rewrite Hr in E1.
    pose proof (inject_Z_lt_two_power n 53 ltac:(lia) Hz).
    pose proof (two_power_le 53 1024 ltac:(lia)). lra. }
  f_equal. apply Qred_inject_Z.
  destruct (Qle_bool 0 (inject_Z z)) eqn:E2.
  - apply Qle_bool_iff in E2. rewrite Hr.
    change 0%Q with (inject_Z 0) in E2. rewrite <- Zle_Qle in E2.
    unfold n. rewrite Z.abs_eq by exact E2. reflexivity.
  - assert (Hneg : z < 0).
    { destruct (Z_lt_le_dec z 0) as [Hl0|Hl0]; [exact Hl0|].
      assert (Qle_bool 0 (inject_Z z) = true); [|congruence].
      apply Qle_bool_iff. change 0%Q with (inject_Z 0). rewrite <- Zle_Qle. exact Hl0. }
    rewrite Hr. unfold n. rewrite Z.abs_neq by lia. rewrite inject_Z_opp. ring.
Qed.

Lemma Qceiling_between (v : Q) (n : Z) :
  (inject_Z n < v)%Q -> (v <= inject_Z (n + 1))%Q -> Qceiling v = n + 1.
Proof.
  intros H1 H2.
  pose proof (Qle_ceiling v) as C1. pose proof (Qceiling_lt v) as C2.
  assert (A : n < Qceiling v).
  { rewrite Zlt_Qlt. lra. }
  assert (B : Qceiling v - 1 < n + 1).
  { rewrite Zlt_Qlt. lra. }
  lia.
Qed.

Lemma Qfloor_between (v : Q) (n : Z) :
  (inject_Z n <= v)%Q -> (v < inject_Z (n + 1))%Q -> Qfloor v = n.
Proof.
  intros H1 H2.
  pose proof (Qfloor_le v) as C1. pose proof (Qlt_floor v) as C2.
  assert (A : Qfloor v < n + 1).
  { rewrite Zlt_Qlt. lra. }
  assert (B : n < Qfloor v + 1).
  { rewrite Zlt_Qlt. lra. }
  lia.
Qed.


Lemma round64_near (q : Q) :
  (two_power (-60) <= Qabs q)%Q -> (Qabs q <= two_power 60)%Q ->
  exists v, round64 q = Some v /\ (Qabs (v - q) <= Qabs q * two_power (-53))%Q.
Proof.
  intros Hlo Hhi.
  pose proof (two_power_pos (-60)) as P60.
  apply round_nearest_error.
  - intros E. rewrite E in Hlo. change (Qabs 0) with 0%Q in Hlo. lra.
  - set (a := Qabs (Qred q)).
    assert (Ha : (a == Qabs q)%Q) by (unfold a; rewrite Qred_correct; reflexivity).
    pose proof (floor_log2_spec a ltac:(lra)) as [_ Hl].
    destruct (Z_lt_le_dec (floor_log2 a) (-60)) as [Hlt | Hge]; [|lia].
    pose proof (two_power_le (floor_log2 a + 1) (-60) ltac:(lia)). lra.
  - pose proof (two_power_le (-53) 0 ltac:(lia)) as T. change (two_power 0) with 1%Q in T.
    pose proof (two_power_pos (-53)).
    pose proof (two_power_lt 61 1024 ltac:(lia)) as B.
    assert (E61 : (two_power 61 == 2 * two_power 60)%Q)
      by (rewrite <- two_power_succ; reflexivity).
    pose proof (Qabs_nonneg q). pose proof (two_power_pos 60).
    assert (M : (Qabs q * (1 + two_power (-53)) <= two_power 60 * 2)%Q).
    { apply Qle_trans with (two_power 60 * (1 + two_power (-53)))%Q.
      - apply Qmult_le_compat_r; lra.
      - apply Qmult_le_l; lra. }
    assert (G : (Qabs q * (1 + two_power (-53)) < two_power 1024)%Q) by lra.
    exact G.
Qed.

(** [int(np.ceil(float(a) / float(b)))] for integers below [2^53]: the
    rounding of the quotient does not reach the next integer. *)
Lemma ceil_quotient (a b : Z) :
  Z.abs a < 2 ^ 53 -> 0 < b < 2 ^ 53 ->
  exists v, round64 (inject_Z a / inject_Z b) = Some v /\ Qceiling v = - ((- a) / b).
Proof.
  intros Ha Hb.
  set (A := inject_Z a). set (B := inject_Z b).
  assert (HB : (1 <= B)%Q) by (unfold B; change 1%Q with (inject_Z 1); rewrite <- Zle_Qle; lia).
  destruct (Z.eq_dec (a mod b) 0) as [Hdiv | Hndiv].
  - (* the quotient is an integer *)
    assert (Ea : a = b * (a / b)) by (pose proof (Z.div_mod a b ltac:(lia)); lia).
    assert (Eq : (A / B == inject_Z (a / b))%Q).
    { unfold A, B. rewrite Ea at 1. rewrite inject_Z_mult. field. fold B. lra. }
    exists (inject_Z (a / b)). split.
    + apply round64_int; [exact Eq|].
      assert (Z.abs (a / b) <= Z.abs a); [|lia].
      rewrite Ea at 2. rewrite Z.abs_mul. nia.
    + rewrite Qceiling_Z.
      assert (E2 : - a = (- (a / b)) * b) by lia.
      rewrite E2, Z.div_mul by lia. lia.
  - set (n := a / b). set (r := a mod b).
    pose proof (Z.div_mod a b ltac:(lia)) as Edm. fold n r in Edm.
    pose proof (Z.mod_pos_bound a b ltac:(lia)) as Hr. fold r in Hr.
    assert (Hr1 : 1 <= r <= b - 1) by (unfold r in *; lia).
    assert (EA : (A == inject_Z n * B + inject_Z r)%Q).
    { unfold A, B. rewrite Edm. rewrite inject_Z_plus, inject_Z_mult. ring. }
    assert (HR : (1 <= inject_Z r /\ inject_Z r + 1 <= B)%Q).
    { unfold B. change 1%Q with (inject_Z 1). rewrite <- inject_Z_plus, <- !Zle_Qle. lia. }
    assert (HA53 : (Qabs A < two_power 53)%Q).
    { unfold A. change (Qabs (inject_Z a)) with (inject_Z (Z.abs a)).
      apply inject_Z_lt_two_power; lia. }
    assert (HB53 : (B < two_power 53)%Q) by (unfold B; apply inject_Z_lt_two_power; lia).
    assert (Hanz : a <> 0) by (intros ->; apply Hndiv; apply Z.mod_0_l; lia).
    assert (HA1 : (1 <= Qabs A)%Q).
    { unfold A. change (Qabs (inject_Z a)) with (inject_Z (Z.abs a)).
      change 1%Q with (inject_Z 1). rewrite <- Zle_Qle. lia. }
    set (q := (A / B)%Q).
    assert (EqB : (q * B == A)%Q) by (unfold q; field; lra).
    assert (Habs : (Qabs q * B == Qabs A)%Q).
    { rewrite <- EqB, Qabs_Qmult, (Qabs_pos B) by lra. reflexivity. }
    pose proof (two_power_pos (-53)) as T.
    assert (T53 : (two_power 53 * two_power (-53) == 1)%Q).
    { rewrite <- two_power_add. reflexivity. }
    assert (T60 : (two_power (-60) <= two_power (-53))%Q) by (apply two_power_le; lia).
    assert (T60' : (two_power 53 <= two_power 60)%Q) by (apply two_power_le; lia).
    pose proof (Qabs_nonneg q) as Hq0.
    destruct (round64_near q) as (v & Hv & Herr).
    { (* |q| >= 1/B > 2^-53 *) nra. }
    { nra. }
    exists v. split; [exact Hv|].
    assert (Hd : (Qabs (v - q) * B < 1)%Q) by nra.
    assert (Hd2 : (- 1 < (v - q) * B < 1)%Q).
    { revert Hd. apply Qabs_case; intros; nra. }
    assert (Hlow : (inject_Z n < v)%Q) by nra.
    assert (Hup : (v <= inject_Z (n + 1))%Q).
    { rewrite inject_Z_plus. change (inject_Z 1) with 1%Q. nra. }
    rewrite (Qceiling_between v n Hlow Hup).
    assert (E2 : - a = (- n - 1) * b + (b - r)) by lia.
    rewrite E2. rewrite Z.div_add_l by lia. rewrite Z.div_small by lia. lia.
Qed.

Lemma Qtrunc_Z (z : Z) : Qtrunc (inject_Z z) = z.
Proof. unfold Qtrunc. destruct (Qle_bool 0 (inject_Z z)); [apply Qfloor_Z | apply Qceiling_Z]. Qed.

Lemma scaled_abs_bound (x y B c : Q) :
  (0 < B)%Q -> (Qabs (x - y) * B < c)%Q -> (- c < x * B - y * B < c)%Q.
Proof.
  intros HB. apply Qabs_case; intros H1 H2.
  - assert (E : ((x - y) * B == x * B - y * B)%Q) by ring.
    assert (0 <= (x - y) * B)%Q by (apply Qmult_le_0_compat; lra). lra.
  - assert (E : (- (x - y) * B == y * B - x * B)%Q) by ring.
    assert (0 <= - (x - y) * B)%Q by (apply Qmult_le_0_compat; lra). lra.
Qed.

Lemma scaled_between (x lo hi B : Q) :
  (0 < B)%Q -> (lo * B <= x * B)%Q -> (x * B < hi * B)%Q -> (lo <= x /\ x < hi)%Q.
Proof.
  intros HB H1 H2. split.
  - apply Qmult_le_r with B; assumption.
  - apply Qmult_lt_r with B; assumption.
Qed.

(** [int(m / s + 1)] on doubles: for sizes far below [2^52] neither the
    quotient nor the sum is rounded across an integer. *)
Lemma trunc_quotient_plus1 (m s : Z) :
  0 < s -> 0 <= m \/ m mod s = 0 -> Z.abs m + 2 * s < 2 ^ 52 ->
  exists v w,
    round64 (inject_Z m / inject_Z s) = Some v /\
    round64 (v + 1) = Some w /\
    Qtrunc w = Z.quot (m + s) s.
Proof.
  intros Hs Hm Hbound.
  set (A := inject_Z m). set (B := inject_Z s).
  assert (HB : (1 <= B)%Q) by (unfold B; change 1%Q with (inject_Z 1); rewrite <- Zle_Qle; lia).
  assert (P52 : 2 ^ 53 = 2 * 2 ^ 52) by reflexivity.
  destruct (Z.eq_dec (m mod s) 0) as [Hdiv | Hndiv].
  - set (k := m / s).
    assert (Ea : m = s * k) by (pose proof (Z.div_mod m s ltac:(lia)); unfold k; lia).
    assert (Hk : Z.abs k <= Z.abs m).
    { replace (Z.abs m) with (Z.abs s * Z.abs k) by (rewrite <- Z.abs_mul, <- Ea; reflexivity).
      nia. }
    assert (Eq : (A / B == inject_Z k)%Q).
    { unfold A, B. rewrite Ea at 1. rewrite inject_Z_mult. field. fold B. lra. }
    exists (inject_Z k), (inject_Z (k + 1)).
    split; [apply round64_int; [exact Eq | lia]|].
    split.
    + apply round64_int; [rewrite inject_Z_plus; reflexivity | lia].
    + rewrite Qtrunc_Z. replace (m + s) with ((k + 1) * s) by lia.
      rewrite Z.quot_mul by lia. reflexivity.
  - assert (Hm0 : 0 <= m) by (destruct Hm; [assumption | contradiction]).
    set (n := m / s). set (r := m mod s).
    pose proof (Z.div_mod m s ltac:(lia)) as Edm. fold n r in Edm.
    pose proof (Z.mod_pos_bound m s ltac:(lia)) as Hr. fold r in Hr.
    assert (Hr1 : 1 <= r <= s - 1) by (unfold r in *; lia).
    assert (Hn0 : 0 <= n) by (unfold n; apply Z.div_pos; lia).
    assert (EA : (A == inject_Z n * B + inject_Z r)%Q).
    { unfold A, B. rewrite Edm. rewrite inject_Z_plus, inject_Z_mult. ring. }
    assert (HR : (1 <= inject_Z r /\ inject_Z r + 1 <= B)%Q).
    { unfold B. change 1%Q with (inject_Z 1). rewrite <- inject_Z_plus, <- !Zle_Qle. lia. }
    assert (HN : (0 <= inject_Z n)%Q).
    { change 0%Q with (inject_Z 0). rewrite <- Zle_Qle. exact Hn0. }
    assert (HA0 : (1 <= A)%Q).
    { unfold A. change 1%Q with (inject_Z 1). rewrite <- Zle_Qle. lia. }
    assert (Hsum : (A + 2 * B < two_power 52)%Q).
    { unfold A, B. change 2%Q with (inject_Z 2).
      rewrite <- inject_Z_mult, <- inject_Z_plus.
      apply inject_Z_lt_two_power; lia. }
    pose proof (two_power_pos (-53)) as T.
    assert (T52 : (two_power 52 * two_power (-53) == 1 # 2)%Q).
    { rewrite <- two_power_add. reflexivity. }
    assert (T60 : (two_power (-60) <= two_power (-53))%Q) by (apply two_power_le; lia).
    assert (T60' : (two_power 52 <= two_power 60)%Q) by (apply two_power_le; lia).
    assert (T1 : (two_power (-53) <= 1)%Q).
    { change 1%Q with (two_power 0). apply two_power_le. lia. }
    set (q := (A / B)%Q).
    assert (EqB : (q * B == A)%Q) by (unfold q; field; lra).
    assert (Hq0 : (0 < q)%Q).
    { unfold q. apply Qlt_shift_div_l; lra. }
    assert (HqA : (q <= A)%Q) by nra.
    destruct (round64_near q) as (v & Hv & Herr).
    { rewrite Qabs_pos by lra.
      (* q >= 1/B and B < 2^52 *)
      assert (q * two_power 52 >= 1)%Q by nra.
      assert (two_power 52 * two_power (-60) <= 1)%Q.
      { rewrite <- two_power_add. change 1%Q with (two_power 0). apply two_power_le. lia. }
      pose proof (two_power_pos 52). pose proof (two_power_pos (-60)). nra. }
    { rewrite Qabs_pos by lra. lra. }
    rewrite (Qabs_pos q) in Herr by lra.
    assert (HmT : (A * two_power (-53) < 1 # 2)%Q) by nra.
    assert (Hd : (Qabs (v - q) * B < 1 # 2)%Q).
    { assert (Qabs (v - q) * B <= q * two_power (-53) * B)%Q
        by (apply Qmult_le_compat_r; lra).
      nra. }
    assert (Hd2 : (- (1 # 2) < (v - q) * B < 1 # 2)%Q).
    { revert Hd. apply Qabs_case; intros; nra. }
    assert (Hv1 : (inject_Z n * B + (1 # 2) < v * B)%Q) by nra.
    assert (Hv2 : (v * B < inject_Z n * B + B - (1 # 2))%Q) by nra.
    assert (Hvpos : (0 < v)%Q) by nra.
    set (u := (v + 1)%Q).
    assert (Hu1 : (1 < u)%Q) by (unfold u; lra).
    assert (HuB : (u * B < (inject_Z n + 2) * B - (1 # 2))%Q) by (unfold u; nra).
    assert (HuB' : ((inject_Z n + 1) * B + (1 # 2) < u * B)%Q) by (unfold u; nra).
    assert (Hu52 : (u * B < two_power 52)%Q) by nra.
    assert (Hu_le : (u <= u * B)%Q) by nra.
    destruct (round64_near u) as (w & Hw & Herrw).
    { rewrite Qabs_pos by lra.
      assert (two_power (-60) <= 1)%Q.
      { change 1%Q with (two_power 0). apply two_power_le. lia. }
      lra. }
    { rewrite Qabs_pos by lra. lra. }
    rewrite (Qabs_pos u) in Herrw by lra.
    exists v, w. split; [exact Hv|]. split; [exact Hw|].
    assert (HuT : (u * two_power (-53) * B < 1 # 2)%Q).
    { assert (E : (u * two_power (-53) * B == u * B * two_power (-53))%Q) by ring.
      rewrite E.
      apply Qlt_le_trans with (two_power 52 * two_power (-53))%Q; [|rewrite T52; lra].
      apply Qmult_lt_compat_r; [exact T | exact Hu52]. }
    assert (Hdw : (Qabs (w - u) * B < 1 # 2)%Q).
    { apply Qle_lt_trans with (u * two_power (-53) * B)%Q; [|exact HuT].
      apply Qmult_le_compat_r; lra. }
    pose proof (scaled_abs_bound w u B (1 # 2) ltac:(lra) Hdw) as Hdw2.
    destruct (scaled_between w (inject_Z n + 1) (inject_Z n + 2) B ltac:(lra)) as [Hw1' Hw2'].
    { clear - Hdw2 HuB'. lra. }
    { clear - Hdw2 HuB. lra. }
    assert (Hw1 : (inject_Z (n + 1) <= w)%Q).
    { rewrite inject_Z_plus. change (inject_Z 1) with 1%Q. exact Hw1'. }
    assert (Hw2 : (w < inject_Z (n + 1 + 1))%Q).
    { rewrite !inject_Z_plus. change (inject_Z 1) with 1%Q. clear - Hw2'. lra. }
    unfold Qtrunc.
    assert (Hw0 : Qle_bool 0 w = true).
    { apply Qle_bool_iff. rewrite inject_Z_plus in Hw1. change (inject_Z 1) with 1%Q in Hw1. lra. }
    rewrite Hw0, (Qfloor_between w (n + 1) Hw1 Hw2).
    rewrite Z.quot_div_nonneg by lia.
    replace (m + s) with (1 * s + m) by lia. rewrite Z.div_add_l by lia. unfold n. lia.
Qed.

(** *** The shape arithmetic on doubles is exact at realistic sizes *)

Lemma round_nearest_comp (prec emin emax : Z) (q q' : Q) :
  (q == q')%Q -> round_nearest prec emin emax q = round_nearest prec emin emax q'.
Proof. intros E. unfold round_nearest. rewrite (Qred_complete _ _ E). reflexivity. Qed.

Lemma py_float_exact (a : Z) : Z.abs a < 2 ^ 53 -> py_float a = Ok (inject_Z a).
Proof.
  intros Ha. unfold py_float.
  rewrite (round64_int a (inject_Z a) (Qeq_refl _) Ha). reflexivity.
Qed.

Lemma inject_Z_nonzero (b : Z) : b <> 0 -> Qeq_bool (inject_Z b) 0 = false.
Proof.
  intros Hb. destruct (Qeq_bool (inject_Z b) 0) eqn:E; [|reflexivity].
  apply Qeq_bool_iff in E. unfold Qeq in E. cbn in E. lia.
Qed.

Lemma ceil_div_exact (a b : Z) :
  Z.abs a < 2 ^ 53 -> 0 < b < 2 ^ 53 -> ceil_div a b = Ok (- ((- a) / b)).
Proof.
  intros Ha Hb. unfold ceil_div.
  rewrite (py_float_exact a Ha), (py_float_exact b) by lia.
  cbn [mbind result_bind].
  rewrite inject_Z_nonzero by lia.
  destruct (ceil_quotient a b Ha Hb) as (v & Hv & Hc).
  rewrite Hv, Hc. reflexivity.
Qed.

Lemma ceil_div_zero (a : Z) : Z.abs a < 2 ^ 53 -> ceil_div a 0 = Raise ZeroDivisionError.
Proof.
  intros Ha. unfold ceil_div. rewrite (py_float_exact a Ha). reflexivity.
Qed.

(** Below [2^53] the only exception of [ceil_div] is the zero divisor. *)
Lemma ceil_div_value (a b : Z) :
  Z.abs a < 2 ^ 53 -> Z.abs b < 2 ^ 53 -> b <> 0 -> exists v, ceil_div a b = Ok v.
Proof.
  intros Ha Hb Hnz.
  destruct (Z_lt_le_dec 0 b) as [Hpos | Hneg].
  - eexists. apply ceil_div_exact; lia.
  - unfold ceil_div.
    rewrite (py_float_exact a Ha), (py_float_exact b Hb).
    cbn [mbind result_bind].
    rewrite inject_Z_nonzero by exact Hnz.
    destruct (ceil_quotient (- a) (- b) ltac:(lia) ltac:(lia)) as (v & Hv & _).
    assert (E : (inject_Z a / inject_Z b == inject_Z (- a) / inject_Z (- b))%Q).
    { rewrite !inject_Z_opp. field. intros E0.
      assert (Hb0 : Qeq_bool (inject_Z b) 0 = true) by (apply Qeq_bool_iff; exact E0).
      rewrite inject_Z_nonzero in Hb0 by exact Hnz. discriminate. }
    unfold round64 in *. rewrite (round_nearest_comp _ _ _ _ _ E), Hv.
    eexists. reflexivity.
Qed.

Lemma int_truediv_plus1_exact (m s : Z) :
  0 < s -> 0 <= m \/ m mod s = 0 -> Z.abs m + 2 * s < 2 ^ 52 ->
  int_truediv_plus1 m s = Ok (Z.quot (m + s) s).
Proof.
  intros Hs Hm Hb. unfold int_truediv_plus1.
  replace (s =? 0) with false by (symmetry; apply Z.eqb_neq; lia).
  assert (P : 2 ^ 53 = 2 * 2 ^ 52) by reflexivity.
  rewrite (round64_int m (inject_Z m) (Qeq_refl _)) by lia.
  rewrite (round64_int s (inject_Z s) (Qeq_refl _)) by lia.
  destruct (trunc_quotient_plus1 m s Hs Hm Hb) as (v & w & Hv & Hw & Ht).
  rewrite Hv, Hw, Ht. reflexivity.
Qed.

(** * Facts *)

(** ** Python lists *)

Lemma py_getitem_lookup {A} (l : list A) (k : nat) (v : A) :
  l !! k = Some v -> py_getitem l (Z.of_nat k) = Ok v.
Proof.
  intros Hl. unfold py_getitem, py_norm_index, zlen.
  pose proof (lookup_lt_Some _ _ _ Hl) as Hlt.
  replace (0 <=? Z.of_nat k) with true by (symmetry; apply Z.leb_le; lia).
  replace (Z.of_nat k <? Z.of_nat (length l)) with true by (symmetry; apply Z.ltb_lt; lia).
  cbn. rewrite Nat2Z.id, Hl. reflexivity.
Qed.

Lemma length_py_upto {A} (k : Z) (l : list A) :
  0 <= k <= zlen l -> zlen (py_upto k l) = k.
Proof.
  unfold py_upto, zlen. intros Hk. rewrite length_take. lia.
Qed.

Lemma length_py_from {A} (k : Z) (l : list A) :
  0 <= k <= zlen l -> zlen (py_from k l) = zlen l - k.
Proof.
  unfold py_from, zlen. intros Hk. rewrite length_drop. lia.
Qed.

Lemma length_remove_at {A} (k : Z) (l : list A) :
  0 <= k < zlen l -> zlen (remove_at k l) = zlen l - 1.
Proof.
  intros Hk. unfold remove_at.
  pose proof (length_py_upto k l) as H1. pose proof (length_py_from (k + 1) l) as H2.
  unfold zlen in *. rewrite length_app. lia.
Qed.

Section BackendFacts.
Context {F : Type} `{FloatOps F} `{TFEnv F}.

(** ** The handler monad *)

Lemma bind_Ok {A B} (m : M F A) (k : A -> M F B) s a s' :
  m s = (Ok a, s') -> (m ≫= k) s = k a s'.
Proof. intros Hm. unfold mbind, M_bind, bind. rewrite Hm. reflexivity. Qed.

Lemma bind_Raise {A B} (m : M F A) (k : A -> M F B) s e s' :
  m s = (Raise e, s') -> (m ≫= k) s = (Raise e, s').
Proof. intros Hm. unfold mbind, M_bind, bind. rewrite Hm. reflexivity. Qed.

Lemma node_input_0 (s : pystate F) (i0 : string) :
  inputs (st_node s) !! 0%nat = Some i0 -> node_input 0 s = (Ok i0, s).
Proof.
  intros Hi. unfold node_input.
  pose proof (py_getitem_lookup _ 0%nat i0 Hi) as E.
  change (Z.of_nat 0) with 0 in E. rewrite E. reflexivity.
Qed.

Lemma input_dict_getitem_Some (s : pystate F) key x :
  st_input_dict s !! key = Some x -> input_dict_getitem key s = (Ok x, s).
Proof. intros Hx. unfold input_dict_getitem. rewrite Hx. reflexivity. Qed.

Lemma attrs_getitem_Some (s : pystate F) key v :
  attrs (st_node s) !! key = Some v -> attrs_getitem key s = (Ok v, s).
Proof. intros Hx. unfold attrs_getitem. rewrite Hx. reflexivity. Qed.

Lemma attrs_getitem_None (s : pystate F) key :
  attrs (st_node s) !! key = None -> attrs_getitem key s = (Raise (KeyError key), s).
Proof. intros Hx. unfold attrs_getitem. rewrite Hx. reflexivity. Qed.

Lemma rank_tf_arg lt (x : tensor F) (axis : Z) :
  - rank x <= axis < rank x -> rank (tf_arg lt x axis) = rank x - 1.
Proof.
  intros Hax. unfold tf_arg, rank. cbn [shape].
  apply length_remove_at. unfold norm_axis, rank in *.
  destruct (axis <? 0) eqn:E; [apply Z.ltb_lt in E | apply Z.ltb_ge in E]; lia.
Qed.

(** C10: for keepdims absent, 0 or 1, [handle_arg_max] and [handle_arg_min]
    return the single tensor [tf.argmax(data, axis)] (resp. [tf.argmin]),
    whose rank is the rank of the input minus one; the output does not depend
    on keepdims, which only decides whether the incompatibility warning is
    emitted: it is, except when keepdims is 0.  Nothing else changes. *)
Theorem arg_max_min_drop_axis (n : node F) (d : gmap string (tensor F))
    (i0 : string) (x : tensor F) (axis : Z) :
  inputs n !! 0%nat = Some i0 ->
  d !! i0 = Some x ->
  attrs n !! "axis" = Some (AInt axis) ->
  - rank x <= axis < rank x ->
  (attrs n !! "keepdims" = None \/
   attrs n !! "keepdims" = Some (AInt 0) \/
   attrs n !! "keepdims" = Some (AInt 1)) ->
  let emitted (msg : string) :=
    match attrs n !! "keepdims" with Some (AInt 0) => [] | _ => [msg] end in
  call handle_arg_max n d = (Ok [tf_argmax x axis], PyState n d (emitted argmax_warning)) /\
  call handle_arg_min n d = (Ok [tf_argmin x axis], PyState n d (emitted argmin_warning)) /\
  rank (tf_argmax x axis) = rank x - 1 /\
  rank (tf_argmin x axis) = rank x - 1.
Proof.
  intros Hi Hx Hax Hrange Hkd emitted.
  assert (Hrun : forall (w : string) (op : tensor F -> Z -> tensor Z),
    (i0 ← node_input 0;
     data ← input_dict_getitem i0;
     axis ← attrs_getitem "axis";
     keepdims ← attrs_get "keepdims";
     let keepdims := default (AInt 1) keepdims in
     _ ← (if attr_eq_int keepdims 1 then warn w else ret tt);
     axis ← as_int axis;
     mret [op data axis]) (PyState n d []) = (Ok [op x axis], PyState n d (emitted w))).
  { intros w op.
    erewrite bind_Ok by (apply node_input_0; exact Hi).
    erewrite bind_Ok by (apply input_dict_getitem_Some; exact Hx).
    erewrite bind_Ok by (apply attrs_getitem_Some; exact Hax).
    unfold emitted.
    destruct Hkd as [Hk | [Hk | Hk]];
      (erewrite bind_Ok by (unfold attrs_get; cbn [st_node]; rewrite Hk; reflexivity));
      rewrite Hk; reflexivity. }
  repeat split.
  - apply Hrun.
  - apply Hrun.
  - apply rank_tf_arg, Hrange.
  - apply rank_tf_arg, Hrange.
Qed.

Lemma attrs_get_ints_Some (s : pystate F) key dflt l :
  attrs (st_node s) !! key = Some (AInts l) ->
  attrs_get_ints key dflt s = (Ok (attr_list key, l), s).
Proof.
  intros Hk. unfold attrs_get_ints.
  erewrite bind_Ok by (unfold attrs_get; rewrite Hk; reflexivity).
  reflexivity.
Qed.

Lemma attrs_get_ints_None (s : pystate F) key dflt :
  attrs (st_node s) !! key = None ->
  attrs_get_ints key dflt s = (Ok (local_list, dflt), s).
Proof.
  intros Hk. unfold attrs_get_ints.
  erewrite bind_Ok by (unfold attrs_get; rewrite Hk; reflexivity).
  reflexivity.
Qed.

Lemma attrs_get_ints_ok (s : pystate F) key dflt :
  ints_or_absent (st_node s) key ->
  exists r, attrs_get_ints key dflt s = (Ok (r, ints_or (st_node s) key dflt), s).
Proof.
  intros [Hk | [l Hk]]; unfold ints_or; rewrite Hk.
  - eexists. apply attrs_get_ints_None, Hk.
  - eexists. apply attrs_get_ints_Some, Hk.
Qed.

(** C4: [_pool] sends auto_pad "SAME_UPPER" and "VALID" to the native pooling
    primitive, with padding "SAME" resp. "VALID" (between two transpositions
    when CUDA is not available), and sends auto_pad "SAME_LOWER" and a node
    without an auto_pad attribute to [_compatibility_pool]. *)
Theorem pool_routing
    (pool_func : tensor F -> list Z -> string -> list Z -> data_format -> tensor F)
    (pooling_type : string) (n : node F) (d : gmap string (tensor F))
    (i0 : string) (x : tensor F) (ks : list Z) :
  inputs n !! 0%nat = Some i0 ->
  d !! i0 = Some x ->
  attrs n !! "kernel_shape" = Some (AInts ks) ->
  ints_or_absent n "strides" ->
  let strides := ints_or n "strides" (py_repeat 1 (rank x - 2)) in
  let native (pad : string) :=
    if supports_cuda
    then [pool_func x ks pad strides (channel_first (rank x))]
    else [tf_transpose
            (pool_func
               (tf_transpose x
                  (get_perm_from_formats (channel_first (rank x)) (channel_last (rank x))))
               ks pad strides (channel_last (rank x)))
            (get_perm_from_formats (channel_last (rank x)) (channel_first (rank x)))] in
  (attrs n !! "auto_pad" = Some (AStr "SAME_UPPER") ->
   call (_pool pool_func pooling_type) n d = (Ok (native "SAME"), PyState n d [])) /\
  (attrs n !! "auto_pad" = Some (AStr "VALID") ->
   call (_pool pool_func pooling_type) n d = (Ok (native "VALID"), PyState n d [])) /\
  (attrs n !! "auto_pad" = Some (AStr "SAME_LOWER") \/ attrs n !! "auto_pad" = None ->
   call (_pool pool_func pooling_type) n d = call (_compatibility_pool pooling_type) n d).
Proof.
  intros Hi Hx Hks Hst strides native.
  assert (Hhead :
    call (_pool pool_func pooling_type) n d =
    (let pad := match attrs n !! "auto_pad" with
                | Some a => if attr_eq_str a "SAME_UPPER" then Some "SAME"
                            else if attr_eq_str a "VALID" then Some "VALID" else None
                | None => None
                end in
     match pad with
     | None => _compatibility_pool pooling_type
     | Some pad =>
         kernel_shape ← as_ints (AInts ks);
         if supports_cuda
         then mret [pool_func x kernel_shape pad strides (channel_first (rank x))]
         else mret (native pad)
     end) (PyState n d [])).
  { unfold call, _pool.
    erewrite bind_Ok by (apply node_input_0; exact Hi).
    erewrite bind_Ok by (apply input_dict_getitem_Some; exact Hx).
    unfold get_data_format.
    erewrite bind_Ok by (apply attrs_getitem_Some; exact Hks).
    destruct (attrs_get_ints_ok (PyState n d []) "strides" (py_repeat 1 (rank x - 2)) Hst)
      as [r Hr].
    erewrite bind_Ok by exact Hr. cbv beta iota.
    erewrite bind_Ok by (unfold attrs_get; reflexivity).
    cbn [st_node]. unfold native.
    destruct (attrs n !! "auto_pad") as [a|]; [|reflexivity].
    destruct (attr_eq_str a "SAME_UPPER"); [destruct supports_cuda; reflexivity|].
    destruct (attr_eq_str a "VALID"); [destruct supports_cuda; reflexivity|].
    reflexivity. }
  split; [|split].
  - intros Ha. rewrite Hhead, Ha. cbn. unfold native. destruct supports_cuda; reflexivity.
  - intros Ha. rewrite Hhead, Ha. cbn. unfold native. destruct supports_cuda; reflexivity.
  - intros [Ha | Ha]; rewrite Hhead, Ha; reflexivity.
Qed.

(** C8, as the code has it: a rule that reads an attribute by subscript
    fails on a node without it: [handle_arg_max] and [handle_arg_min]
    without "axis", [_pool] and [handle_max_pool] without "kernel_shape".
    The exception is Python's [KeyError] for that key: it carries the name of
    the attribute and nothing of the node.  The node, the symbol table and
    the warnings are as before the call. *)
Theorem missing_attribute_raises_KeyError (n : node F) (d : gmap string (tensor F))
    (i0 : string) (x : tensor F) :
  inputs n !! 0%nat = Some i0 ->
  d !! i0 = Some x ->
  (attrs n !! "axis" = None ->
   call handle_arg_max n d = (Raise (KeyError "axis"), PyState n d []) /\
   call handle_arg_min n d = (Raise (KeyError "axis"), PyState n d [])) /\
  (attrs n !! "kernel_shape" = None ->
   (forall pool_func pooling_type,
      call (_pool pool_func pooling_type) n d
      = (Raise (KeyError "kernel_shape"), PyState n d [])) /\
   call handle_max_pool n d = (Raise (KeyError "kernel_shape"), PyState n d [])).
Proof.
  intros Hi Hx. split.
  - intros Hax. split; unfold call, handle_arg_max, handle_arg_min;
      (erewrite bind_Ok by (apply node_input_0; exact Hi));
      (erewrite bind_Ok by (apply input_dict_getitem_Some; exact Hx));
      (erewrite bind_Raise by (apply attrs_getitem_None; exact Hax));
      reflexivity.
  - intros Hks.
    assert (Hp : forall pool_func pooling_type,
               call (_pool pool_func pooling_type) n d
               = (Raise (KeyError "kernel_shape"), PyState n d [])).
    { intros pool_func pooling_type. unfold call, _pool.
      erewrite bind_Ok by (apply node_input_0; exact Hi).
      erewrite bind_Ok by (apply input_dict_getitem_Some; exact Hx).
      unfold get_data_format.
      erewrite bind_Raise by (apply attrs_getitem_None; exact Hks).
      reflexivity. }
    split; [exact Hp | apply Hp].
Qed.

(** ** Slice *)

Lemma py_repeat_zlen {A B} (v : A) (l : list B) :
  py_repeat v (zlen l) = repeat v (length l).
Proof. unfold py_repeat, zlen. rewrite Nat2Z.id. reflexivity. Qed.

Lemma slice_shape_whole (sh : list Z) :
  Forall (fun d => 0 <= d) sh ->
  slice_shape sh (repeat 0 (length sh)) sh = Some sh.
Proof.
  induction 1 as [|d sh Hd _ IH]; [reflexivity|].
  cbn [length repeat slice_shape].
  destruct (d =? -1) eqn:E; [apply Z.eqb_eq in E; lia|].
  replace (0 <=? 0) with true by reflexivity.
  replace (0 <=? d) with true by (symmetry; apply Z.leb_le; lia).
  replace (0 + d <=? d) with true by (symmetry; apply Z.leb_le; lia).
  cbn. rewrite IH. reflexivity.
Qed.

(** C1, as the code has it: for starts=[5], ends=[-1], axes=[0] and a tensor
    whose axis 0 has length 4, [handle_slice] turns the end into 4 + (-1) = 3
    (which the bound 4 leaves alone) and clamps the start to 4; both values
    are written into the lists of [node.attrs].  It passes begin 4 and size
    3 - 4 = -1 for axis 0 to [tf.slice], which reads a size of -1 as "up to
    the end of the axis": the returned tensor has size 0 on axis 0. *)
Theorem slice_clamp (n : node F) (d : gmap string (tensor F)) (i0 : string)
    (x : tensor F) (rest : list Z) :
  inputs n !! 0%nat = Some i0 ->
  d !! i0 = Some x ->
  shape x = 4 :: rest ->
  Forall (fun k => 0 <= k) rest ->
  attrs n !! "starts" = Some (AInts [5]) ->
  attrs n !! "ends" = Some (AInts [-1]) ->
  attrs n !! "axes" = Some (AInts [0]) ->
  exists y,
    tf_slice x (4 :: repeat 0 (length rest)) (-1 :: rest) = Ok y /\
    shape y = 0 :: rest /\
    call handle_slice n d
    = (Ok [y],
       PyState (Node (op_type n)
                  (<["starts" := AInts [4]]> (<["ends" := AInts [3]]> (attrs n)))
                  (inputs n) (outputs n) (name n)) d []).
Proof.
  intros Hi Hx Hsh Hrest Hst Hen Hax.
  assert (Hy : tf_slice x (4 :: repeat 0 (length rest)) (-1 :: rest)
               = Ok (Tensor (dtype_of x) (0 :: rest)
                       (fun idx => item x (zip_with Z.add idx (4 :: repeat 0 (length rest)))))).
  { unfold tf_slice. rewrite Hsh. cbn [slice_shape].
    rewrite (slice_shape_whole rest Hrest). reflexivity. }
  eexists. split; [exact Hy|]. split; [reflexivity|].
  unfold call, handle_slice.
  erewrite bind_Ok by (apply node_input_0; exact Hi).
  erewrite bind_Ok by (apply input_dict_getitem_Some; exact Hx).
  erewrite bind_Ok by (unfold attrs_get; reflexivity).
  erewrite bind_Ok by (unfold attrs_get; reflexivity).
  cbn [st_node]. rewrite Hst, Hen.
  erewrite bind_Ok by reflexivity.
  erewrite bind_Ok by (apply attrs_get_ints_Some; exact Hax).
  cbv beta iota.
  rewrite Hsh, py_repeat_zlen.
  (* the single iteration of the loop *)
  assert (Hloop : forall s : pystate F,
    M_fold (slice_step [0]) (py_range (zlen [5]))
      (SliceVars [5] [-1] (repeat 0 (length (4 :: rest))) (4 :: rest)) s
    = (Ok (SliceVars [4] [3] (4 :: repeat 0 (length rest)) (-1 :: rest)),
       PyState (Node (op_type (st_node s))
                  (<["starts" := AInts [4]]>
                     (<["ends" := AInts [3]]> (<["ends" := AInts [3]]> (attrs (st_node s)))))
                  (inputs (st_node s)) (outputs (st_node s)) (name (st_node s)))
               (st_input_dict s) (st_warnings s))).
  { intros s. reflexivity. }
  change (zlen [5] =? 0) with false. cbv iota.
  erewrite bind_Ok; cycle 1.
  { erewrite bind_Ok by reflexivity. apply Hloop. }
  cbn [st_node st_input_dict st_warnings attrs inputs outputs name op_type].
  erewrite bind_Ok by (apply node_input_0; exact Hi).
  erewrite bind_Ok by (apply input_dict_getitem_Some; exact Hx).
  cbn [sv_full_begin sv_full_sizes].
  erewrite bind_Ok by (unfold lift; rewrite Hy; reflexivity).
  rewrite insert_insert_eq. reflexivity.
Qed.

(** ** Ranges and loops *)

Lemma length_py_range (n : Z) : length (py_range n) = Z.to_nat n.
Proof. unfold py_range. rewrite length_map, length_seq. reflexivity. Qed.

Lemma lookup_py_range (n : Z) (i : nat) :
  (i < Z.to_nat n)%nat -> py_range n !! i = Some (Z.of_nat i).
Proof.
  intros Hi. unfold py_range. rewrite list_lookup_fmap.
  rewrite lookup_seq_lt by exact Hi. reflexivity.
Qed.

Lemma In_py_range (n k : Z) : In k (py_range n) <-> 0 <= k < n.
Proof.
  unfold py_range. rewrite in_map_iff. split.
  - intros (i & <- & Hi). apply in_seq in Hi. lia.
  - intros Hk. exists (Z.to_nat k). split; [lia|]. apply in_seq. lia.
Qed.

Lemma In_py_from_range (n k : Z) : In k (py_from 2 (py_range n)) <-> 2 <= k < n.
Proof.
  unfold py_from. change (Z.to_nat 2) with 2%nat. split.
  - intros Hk. apply list_elem_of_In, list_elem_of_lookup in Hk as [i Hk].
    rewrite lookup_drop in Hk.
    destruct (decide (2 + i < Z.to_nat n)%nat) as [Hlt|Hge].
    + rewrite lookup_py_range in Hk by exact Hlt. inversion Hk. lia.
    + rewrite lookup_ge_None_2 in Hk; [discriminate|]. rewrite length_py_range. lia.
  - intros Hk. apply list_elem_of_In, list_elem_of_lookup.
    exists (Z.to_nat k - 2)%nat. rewrite lookup_drop.
    rewrite lookup_py_range by lia. f_equal. lia.
Qed.

Lemma M_fold_const {A B} (f : B -> A -> M F B) (l : list A) (b : B) (s : pystate F) :
  (forall a, In a l -> f b a s = (Ok b, s)) -> M_fold f l b s = (Ok b, s).
Proof.
  induction l as [|a l IH]; intros Hf; [reflexivity|].
  cbn [M_fold]. erewrite bind_Ok by (apply Hf; left; reflexivity).
  apply IH. intros a' Ha'. apply Hf. right. exact Ha'.
Qed.

(** ** Global pooling *)

Lemma reduce_shape_all (axes : list Z) (sh : list Z) (k : Z) :
  (forall j, k <= j < k + zlen sh -> j ∈ axes) ->
  reduce_shape axes true k sh = repeat 1 (length sh).
Proof.
  revert k. induction sh as [|d sh IH]; intros k Hk; [reflexivity|].
  cbn [reduce_shape length repeat].
  rewrite bool_decide_eq_true_2 by (apply Hk; unfold zlen; cbn [length]; lia).
  cbn [app]. f_equal. apply IH. intros j Hj. apply Hk.
  unfold zlen in *. cbn [length]. lia.
Qed.

Lemma reduce_shape_spatial (sh : list Z) :
  2 <= zlen sh ->
  reduce_shape (py_from 2 (py_range (zlen sh))) true 0 sh
  = py_upto 2 sh ++ repeat 1 (length (py_from 2 sh)).
Proof.
  intros Hr. destruct sh as [|a [|b sh]]; [unfold zlen in Hr; cbn in Hr; lia ..|].
  set (axes := py_from 2 (py_range (zlen (a :: b :: sh)))).
  assert (Hin : forall j, j ∈ axes <-> 2 <= j < zlen (a :: b :: sh)).
  { intros j. unfold axes. rewrite list_elem_of_In. apply In_py_from_range. }
  cbn [reduce_shape].
  rewrite bool_decide_eq_false_2 by (rewrite Hin; lia).
  rewrite bool_decide_eq_false_2 by (rewrite Hin; lia).
  change (py_upto 2 (a :: b :: sh)) with [a; b].
  change (py_from 2 (a :: b :: sh)) with sh.
  cbn [app]. do 2 f_equal.
  apply reduce_shape_all. intros j Hj. apply Hin.
  unfold zlen in *. cbn [length] in *. lia.
Qed.

(** C2, as the code has it: when the kernel is strictly larger than every
    spatial dimension of the input, [handle_average_pool] returns what
    [handle_global_average_pool] returns: the mean over all spatial axes with
    keep_dims true, a tensor with a 1 for every spatial dimension. *)
Theorem average_pool_global_case (n : node F) (d : gmap string (tensor F))
    (i0 : string) (x : tensor F) (ks : list Z) :
  inputs n !! 0%nat = Some i0 ->
  d !! i0 = Some x ->
  2 <= rank x ->
  attrs n !! "kernel_shape" = Some (AInts ks) ->
  (forall (i : nat) (dim : Z),
     py_from 2 (shape x) !! i = Some dim -> exists k, ks !! i = Some k /\ dim < k) ->
  let y := tf_reduce_mean x (py_from 2 (py_range (rank x))) true in
  call handle_average_pool n d = (Ok [y], PyState n d []) /\
  call handle_average_pool n d = call handle_global_average_pool n d /\
  shape y = py_upto 2 (shape x) ++ repeat 1 (length (py_from 2 (shape x))).
Proof.
  intros Hi Hx Hrank Hks Hbig y.
  assert (Hglobal : call handle_global_average_pool n d = (Ok [y], PyState n d [])).
  { unfold call, handle_global_average_pool.
    erewrite bind_Ok by (apply node_input_0; exact Hi).
    erewrite bind_Ok by (apply input_dict_getitem_Some; exact Hx).
    erewrite bind_Ok; [reflexivity|].
    unfold lift, tf_split_2, zlen. rewrite length_py_range.
    replace (Z.of_nat (Z.to_nat (rank x)) - 2 <? 0) with false; [reflexivity|].
    symmetry. apply Z.ltb_ge. lia. }
  assert (Hrun : call handle_average_pool n d = (Ok [y], PyState n d [])).
  { rewrite <- Hglobal. unfold call at 1. unfold handle_average_pool.
    erewrite bind_Ok by (apply node_input_0; exact Hi).
    erewrite bind_Ok by (apply input_dict_getitem_Some; exact Hx).
    erewrite bind_Ok by (unfold attrs_get; reflexivity).
    cbn [st_node]. rewrite Hks.
    erewrite bind_Ok; cycle 1.
    apply M_fold_const. intros i Hin. apply In_py_range in Hin.
    assert (Hlt : (Z.to_nat i < length (py_from 2 (shape x)))%nat) by (unfold zlen in Hin; lia).
    destruct (lookup_lt_is_Some_2 _ _ Hlt) as [dim Hdim].
    destruct (Hbig _ _ Hdim) as (k & Hk & Hdk).
    pose proof (py_getitem_lookup _ _ _ Hdim) as E1.
    pose proof (py_getitem_lookup _ _ _ Hk) as E2.
    rewrite Z2Nat.id in E1, E2 by lia.
    erewrite bind_Ok by (unfold lift; rewrite E1; reflexivity).
    erewrite bind_Ok by reflexivity.
    erewrite bind_Ok by (unfold lift; rewrite E2; reflexivity).
    replace (dim <? k) with true by (symmetry; apply Z.ltb_lt; exact Hdk).
    reflexivity.
    reflexivity. }
  split; [exact Hrun|]. split; [rewrite Hrun, Hglobal; reflexivity|].
  unfold y, tf_reduce_mean, tf_reduce. cbn [shape]. unfold rank.
  apply reduce_shape_spatial. exact Hrank.
Qed.

(** ** The portable pooling fallback *)

Lemma result_map_ok {A B} (f : A -> result B) (g : A -> B) (l : list A) :
  (forall a, In a l -> f a = Ok (g a)) -> result_map f l = Ok (map g l).
Proof.
  induction l as [|a l IH]; intros Hf; [reflexivity|].
  cbn [result_map map]. rewrite (Hf a) by (left; reflexivity).
  cbn. rewrite IH by (intros a' Ha'; apply Hf; right; exact Ha').
  reflexivity.
Qed.

Lemma result_map_seq {A B} (f : Z -> result B) (g : A -> B) (l : list A) (k : nat) :
  (forall i a, l !! i = Some a -> f (Z.of_nat (k + i)) = Ok (g a)) ->
  result_map f (map Z.of_nat (seq k (length l))) = Ok (map g l).
Proof.
  revert k. induction l as [|a l IH]; intros k Hf; [reflexivity|].
  cbn [length seq map result_map].
  pose proof (Hf 0%nat a eq_refl) as E. rewrite Nat.add_0_r in E. rewrite E.
  cbn. rewrite (IH (S k)).
  - reflexivity.
  - intros i a' Hi. replace (S k + i)%nat with (k + S i)%nat by lia. apply Hf. exact Hi.
Qed.

Lemma result_map_range {A B} (f : Z -> result B) (g : A -> B) (l : list A) :
  (forall i a, l !! i = Some a -> f (Z.of_nat i) = Ok (g a)) ->
  result_map f (py_range (zlen l)) = Ok (map g l).
Proof.
  intros Hf. unfold py_range, zlen. rewrite Nat2Z.id.
  apply result_map_seq. exact Hf.
Qed.

Lemma py_getitem_map {A B} (f : A -> B) (l : list A) (i : nat) (a : A) :
  l !! i = Some a -> py_getitem (map f l) (Z.of_nat i) = Ok (f a).
Proof.
  intros Hl. apply py_getitem_lookup. rewrite list_lookup_fmap, Hl. reflexivity.
Qed.

Lemma py_getitem_app_r {A} (l1 l2 : list A) (i : nat) (a : A) :
  l2 !! i = Some a -> py_getitem (l1 ++ l2) (Z.of_nat i + zlen l1) = Ok a.
Proof.
  intros Hl. unfold zlen. rewrite <- Nat2Z.inj_add. apply py_getitem_lookup.
  rewrite lookup_app_r by lia. replace (i + length l1 - length l1)%nat with i by lia.
  exact Hl.
Qed.

Lemma in_itertools_product {A} (ls : list (list A)) (p : list A) :
  In p (itertools_product ls) <-> Forall2 (fun x l => In x l) p ls.
Proof.
  revert p. induction ls as [|l ls IH]; intros p; cbn [itertools_product].
  - split.
    + intros [<-|[]]. constructor.
    + intros Hp. inversion Hp. left. reflexivity.
  - rewrite in_flat_map. split.
    + intros (a & Ha & Hp). apply in_map_iff in Hp as (q & <- & Hq).
      constructor; [exact Ha | apply IH, Hq].
    + intros Hp. inversion Hp as [|a l' q ls' Ha Hq]; subst.
      exists a. split; [exact Ha|]. apply in_map_iff. exists q.
      split; [reflexivity | apply IH, Hq].
Qed.

Lemma np_index_id (sh idx : list Z) :
  Forall2 (fun i d => 0 <= i < d) idx sh -> np_index sh idx = Some idx.
Proof.
  induction 1 as [|i d idx sh Hi _ IH]; [reflexivity|].
  cbn [np_index]. unfold py_norm_index.
  replace (0 <=? i) with true by (symmetry; apply Z.leb_le; lia).
  replace (i <? d) with true by (symmetry; apply Z.ltb_lt; lia).
  cbn. rewrite IH, Z2Nat.id by lia. reflexivity.
Qed.

Lemma In_indices (sh idx : list Z) :
  In idx (indices sh) <-> Forall2 (fun i d => 0 <= i < d) idx sh.
Proof.
  unfold indices. rewrite in_itertools_product. rewrite Forall2_fmap_r.
  split; intros Hf; (eapply Forall2_impl; [exact Hf|]); intros i d Hi; cbn in *;
    apply In_py_range; exact Hi.
Qed.

Lemma result_fold_setitem (step : tensor F -> list Z -> result (tensor F))
    (g : list Z -> F) (positions : list (list Z)) (y : tensor F) :
  (forall y' pos, In pos positions -> dtype_of y' = dtype_of y -> shape y' = shape y ->
                  step y' pos = np_setitem y' pos (g pos)) ->
  (forall pos, In pos positions -> np_index (shape y) pos = Some pos) ->
  exists y',
    result_fold step positions y = Ok y' /\
    dtype_of y' = dtype_of y /\ shape y' = shape y /\
    (forall j, In j positions -> item y' j = g j) /\
    (forall j, ~ In j positions -> item y' j = item y j).
Proof.
  revert y. induction positions as [|pos positions IH]; intros y Hstep Hidx.
  - exists y. repeat split. intros j [].
  - cbn [result_fold].
    rewrite Hstep by (try reflexivity; left; reflexivity).
    unfold np_setitem at 1. rewrite (Hidx pos) by (left; reflexivity).
    cbn.
    set (y1 := Tensor (dtype_of y) (shape y)
                 (fun i => if bool_decide (i = pos) then g pos else item y i)).
    destruct (IH y1) as (y' & Hfold & Hdt & Hsh & Hin & Hout).
    + intros y' p Hp Hdt Hsh. apply Hstep; [right; exact Hp | exact Hdt | exact Hsh].
    + intros p Hp. apply Hidx. right. exact Hp.
    + exists y'. split; [exact Hfold|]. split; [exact Hdt|]. split; [exact Hsh|]. split.
      * intros j Hj.
        destruct (in_dec (fun a b : list Z => decide (a = b)) j positions) as [Hjp|Hjp].
        -- apply Hin, Hjp.
        -- destruct Hj as [->|Hj]; [|contradiction].
           rewrite Hout by exact Hjp. unfold y1. cbn [item].
           rewrite bool_decide_eq_true_2 by reflexivity. reflexivity.
      * intros j Hj. rewrite Hout by (intros Hjp; apply Hj; right; exact Hjp).
        unfold y1. cbn [item].
        rewrite bool_decide_eq_false_2; [reflexivity|].
        intros ->. apply Hj. left. reflexivity.
Qed.

Lemma zlen_spatial {A} (n c : Z) (f : A -> Z) (l : list A) :
  zlen (py_from 2 (n :: c :: map f l)) = zlen l.
Proof.
  change (py_from 2 (n :: c :: map f l)) with (map f l).
  unfold zlen. rewrite length_map. reflexivity.
Qed.

Lemma forallb_nonneg (l : list Z) :
  Forall (fun d => 0 <= d) l -> forallb (fun d => 0 <=? d) l = true.
Proof.
  intros Hl. apply forallb_forall. intros d Hd.
  rewrite List.Forall_forall in Hl. apply Z.leb_le, Hl, Hd.
Qed.

(** The windows [py_pool] reads lie inside the padded tensor. *)
Lemma window_in_bounds (axes : list pool_axis) (o w : list Z) :
  Forall axis_ok axes ->
  Forall2 (fun oi a => 0 <= oi < ax_out a) o axes ->
  Forall2 (fun wi l => In wi l) w
    (zip_with (fun a oi => map (fun j => ax_stride a * oi + j) (py_range (ax_kernel a)))
       axes o) ->
  Forall2 (fun wi d => 0 <= wi < d) w
    (map (fun a => ax_pad_begin a + ax_dim a + ax_pad_end a) axes).
Proof.
  intros Hok Ho. revert w. induction Ho as [|oi a o axes Hoi Ho IH]; intros w Hw.
  - inversion Hw. constructor.
  - cbn [zip_with] in Hw. inversion Hw as [|wi l w' ls Hwi Hw']; subst.
    inversion Hok as [|? ? Ha Hoks]; subst.
    cbn [map]. constructor; [|apply IH; assumption].
    apply in_map_iff in Hwi as (j & <- & Hj). apply In_py_range in Hj.
    destruct Ha as (Hd & Hk & Hs & Hpb & Hpe & Hout & Hq & Hlast & _).
    specialize (Hlast ltac:(lia)). nia.
Qed.

Lemma reduction_bind {B} (ty : string) (l : list F) (k : F -> result B) :
  ((if bool_decide (ty = "AVG") then Ok (fun l => Ok (np_average l))
    else if bool_decide (ty = "MAX") then Ok np_max
    else Raise NotImplementedError) ≫= fun f => f l ≫= k)
  = (reduction ty l ≫= k).
Proof.
  unfold reduction. destruct (bool_decide (ty = "AVG")); [reflexivity|].
  destruct (bool_decide (ty = "MAX")); reflexivity.
Qed.

Lemma py_getitem_lookup_Z {A} (l : list A) (z : Z) (v : A) :
  0 <= z -> l !! Z.to_nat z = Some v -> py_getitem l z = Ok v.
Proof.
  intros Hz Hl. rewrite <- (Z2Nat.id z) by exact Hz. apply py_getitem_lookup, Hl.
Qed.

Lemma map_zip {A B C} (f : A -> B -> C) (l : list A) (k : list B) :
  map (fun ab => f ab.1 ab.2) (zip l k) = zip_with f l k.
Proof.
  revert k. induction l as [|a l IH]; intros [|b k]; cbn; [reflexivity ..|].
  f_equal. apply IH.
Qed.

Lemma pool_step_value (x : tensor F) (n c : Z) (axes : list pool_axis) (ty : string)
    (y : tensor F) (pos : list Z) (v : F) :
  shape x = n :: c :: map ax_dim axes ->
  Forall axis_ok axes ->
  In pos (indices (n :: c :: map ax_out axes)) ->
  reduction ty (discard_sentinels (gather_window (sentinel_padded x axes) axes pos)) = Ok v ->
  pool_step (sentinel_padded x axes) (map ax_kernel axes) (map ax_stride axes)
    (zlen axes) ty y pos
  = np_setitem y pos v.
Proof.
  intros Hsh Hok Hpos Hred.
  apply In_indices in Hpos.
  inversion Hpos as [|p0 d0 pos1 sh1 Hp0 Hpos1]; subst.
  inversion Hpos1 as [|p1 d1 o sh2 Hp1 Ho]; subst.
  apply Forall2_fmap_r in Ho.
  unfold pool_step.
  rewrite (py_getitem_lookup_Z (p0 :: p1 :: o) 0 p0) by (reflexivity || lia).
  rewrite (py_getitem_lookup_Z (p0 :: p1 :: o) 1 p1) by (reflexivity || lia).
  cbn [mbind result_bind].
  set (ranges := zip_with (fun a oi => map (fun j => ax_stride a * oi + j)
                                         (py_range (ax_kernel a))) axes o).
  assert (Hlen : length o = length axes) by (eapply Forall2_length; exact Ho).
  assert (Hranges : window_ranges (map ax_kernel axes) (map ax_stride axes) (zlen axes)
                      (p0 :: p1 :: o) = Ok ranges).
  { unfold window_ranges.
    replace (zlen axes) with (zlen (zip axes o))
      by (unfold zlen; rewrite length_zip; lia).
    rewrite (result_map_range _
               (fun ao => map (fun j => ax_stride ao.1 * ao.2 + j) (py_range (ax_kernel ao.1)))).
    - unfold ranges. f_equal.
      apply (map_zip (fun a oi => map (fun j => ax_stride a * oi + j) (py_range (ax_kernel a)))).
    - intros i [a oi] Hi. apply lookup_zip_with_Some in Hi as (a' & oi' & E & Ha & Hoi).
      inversion E; subst a' oi'.
      rewrite (py_getitem_map ax_stride axes i a Ha). cbn [mbind result_bind].
      rewrite (py_getitem_lookup_Z (p0 :: p1 :: o) (Z.of_nat i + 2) oi)
        by (try lia; replace (Z.to_nat (Z.of_nat i + 2)) with (S (S i)) by lia; exact Hoi).
      cbn [mbind result_bind].
      rewrite (py_getitem_map ax_kernel axes i a Ha). cbn [mbind result_bind fst snd].
      unfold py_range2.
      replace (ax_stride a * oi + ax_kernel a - ax_stride a * oi) with (ax_kernel a) by lia.
      reflexivity. }
  rewrite Hranges. cbn [mbind result_bind].
  rewrite (result_map_ok _ (fun w => item (sentinel_padded x axes) (p0 :: p1 :: w))).
  - cbn [mbind result_bind].
    pose proof (reduction_bind ty
      (filter (fun v => negb (np_isnan v))
         (map (fun w => item (sentinel_padded x axes) (p0 :: p1 :: w))
            (itertools_product ranges)))
      (fun v => np_setitem y (p0 :: p1 :: o) v)) as E.
    cbn [mbind result_bind] in E. rewrite E.
    unfold discard_sentinels, gather_window in Hred. fold ranges in Hred.
    rewrite Hred. reflexivity.
  - intros w Hw. apply in_itertools_product in Hw.
    unfold np_getitem. rewrite np_index_id; [reflexivity|].
    unfold sentinel_padded, pad_attr_of. cbn [shape]. rewrite Hsh.
    cbn [app zip_with fst snd].
    constructor; [lia|]. constructor; [lia|].
    rewrite zip_with_fmap_l, zip_with_fmap_r, zip_with_diag. cbn [fst snd].
    apply (window_in_bounds axes o w Hok Ho Hw).
Qed.

Lemma py_pool_correct (x : tensor F) (n c : Z) (axes : list pool_axis) (ty : string) :
  shape x = n :: c :: map ax_dim axes ->
  dtype_of x = float32 \/ dtype_of x = float64 ->
  0 <= n -> 0 <= c ->
  Forall axis_ok axes ->
  (ty = "AVG" \/
   ty = "MAX" /\
   forall pos, In pos (indices (n :: c :: map ax_out axes)) ->
               discard_sentinels (gather_window (sentinel_padded x axes) axes pos) <> []) ->
  exists y,
    py_pool x (map ax_kernel axes) (map ax_stride axes)
      (map ax_pad_begin axes ++ map ax_pad_end axes)
      (map ax_out axes) (map ax_pad_total axes) ty = Ok y /\
    dtype_of y = float32 /\
    shape y = n :: c :: map ax_out axes /\
    forall pos, In pos (indices (shape y)) ->
      exists v,
        reduction ty (discard_sentinels (gather_window (sentinel_padded x axes) axes pos))
        = Ok v /\
        item y pos = astype_float32 v.
Proof.
  intros Hsh Hfl Hn Hc Hok Hty.
  assert (Hred : forall pos, In pos (indices (n :: c :: map ax_out axes)) ->
            reduction ty (discard_sentinels (gather_window (sentinel_padded x axes) axes pos))
            = Ok (pooled_value ty x axes pos)).
  { intros pos Hpos. unfold pooled_value.
    destruct Hty as [-> | [-> Hne]].
    - reflexivity.
    - specialize (Hne pos Hpos). unfold reduction.
      rewrite bool_decide_eq_false_2 by discriminate.
      rewrite bool_decide_eq_true_2 by reflexivity.
      destruct (discard_sentinels _); [contradiction | reflexivity]. }
  unfold py_pool. rewrite Hsh, zlen_spatial.
  (* pad_attr *)
  rewrite (result_map_range _ (fun a => (ax_pad_begin a, ax_pad_end a))); cycle 1.
  { intros i a Ha.
    rewrite (py_getitem_lookup _ i (ax_pad_begin a)); cycle 1.
    { rewrite lookup_app_l by (rewrite length_map; eapply lookup_lt_Some; exact Ha).
      rewrite list_lookup_fmap, Ha. reflexivity. }
    cbn [mbind result_bind].
    replace (zlen axes) with (zlen (map ax_pad_begin axes))
      by (unfold zlen; rewrite length_map; reflexivity).
    rewrite (py_getitem_app_r _ _ i (ax_pad_end a))
      by (rewrite list_lookup_fmap, Ha; reflexivity).
    reflexivity. }
  cbn [mbind result_bind].
  (* np.pad *)
  assert (Hpad : np_pad_nan x ([(0, 0); (0, 0)] ++ map (fun a => (ax_pad_begin a, ax_pad_end a)) axes)
                 = Ok (sentinel_padded x axes)).
  { unfold np_pad_nan. fold (pad_attr_of axes).
    rewrite bool_decide_eq_true_2; cycle 1.
    { unfold rank, pad_attr_of, zlen. rewrite Hsh. cbn [length app].
      rewrite !length_map. reflexivity. }
    replace (forallb _ (pad_attr_of axes)) with true;
      [unfold sentinel_padded; destruct Hfl as [E | E]; rewrite E; reflexivity|].
    symmetry. apply forallb_forall. intros p Hp.
    unfold pad_attr_of in Hp. cbn [app] in Hp.
    destruct Hp as [<-|[<-|Hp]]; [reflexivity | reflexivity |].
    apply in_map_iff in Hp as (a & <- & Ha).
    rewrite List.Forall_forall in Hok. destruct (Hok a Ha) as (_ & _ & _ & Hb & He & _).
    cbn [fst snd]. apply andb_true_iff. split; apply Z.leb_le; assumption. }
  rewrite Hpad. cbn [mbind result_bind].
  rewrite (py_getitem_lookup_Z _ 0 n) by (reflexivity || lia).
  rewrite (py_getitem_lookup_Z _ 1 c) by (reflexivity || lia).
  cbn [mbind result_bind].
  (* np.zeros *)
  assert (Hzeros : np_zeros ([n; c] ++ map ax_out axes)
                   = Ok (Tensor float64 (n :: c :: map ax_out axes) (fun _ => f_of_Z 0))).
  { unfold np_zeros. rewrite forallb_nonneg; [reflexivity|].
    cbn [app]. constructor; [exact Hn|]. constructor; [exact Hc|].
    apply List.Forall_forall. intros o Ho. apply in_map_iff in Ho as (a & <- & Ha).
    rewrite List.Forall_forall in Hok. destruct (Hok a Ha) as (_ & _ & _ & _ & _ & Ho & _).
    exact Ho. }
  rewrite Hzeros. cbn [mbind result_bind].
  (* loop bounds *)
  rewrite (result_map_range _ ax_out); cycle 1.
  { intros i a Ha.
    rewrite (py_getitem_lookup_Z (n :: c :: map ax_dim axes) (Z.of_nat i + 2) (ax_dim a));
      [|lia|].
    2:{ replace (Z.to_nat (Z.of_nat i + 2)) with (S (S i)) by lia.
        change ((n :: c :: map ax_dim axes) !! S (S i)) with (map ax_dim axes !! i).
        rewrite list_lookup_fmap, Ha. reflexivity. }
    cbn [mbind result_bind].
    rewrite (py_getitem_map ax_pad_total axes i a Ha). cbn [mbind result_bind].
    rewrite (py_getitem_map ax_kernel axes i a Ha). cbn [mbind result_bind].
    rewrite (py_getitem_map ax_stride axes i a Ha). cbn [mbind result_bind].
    rewrite List.Forall_forall in Hok.
    pose proof (lookup_lt_Some _ _ _ Ha) as Hlt.
    assert (Hin : In a axes) by (apply list_elem_of_In, list_elem_of_lookup; eauto).
    destruct (Hok a Hin) as (_ & _ & Hs & _ & _ & _ & Hq & _ & Hsign & Hsize).
    rewrite (int_truediv_plus1_exact _ _ Hs Hsign Hsize), Hq. reflexivity. }
  cbn [mbind result_bind].
  (* the loop *)
  change (itertools_product (py_range n :: py_range c :: map py_range (map ax_out axes)))
    with (indices (n :: c :: map ax_out axes)).
  destruct (result_fold_setitem
              (pool_step (sentinel_padded x axes) (map ax_kernel axes) (map ax_stride axes)
                 (zlen axes) ty)
              (pooled_value ty x axes)
              (indices (n :: c :: map ax_out axes))
              (Tensor float64 (n :: c :: map ax_out axes) (fun _ => f_of_Z 0)))
    as (y & Hfold & Hdt & Hshy & Hin & _).
  { intros y' pos Hpos _ _.
    apply (pool_step_value x n c axes ty y' pos _ Hsh Hok Hpos (Hred pos Hpos)). }
  { intros pos Hpos. cbn [shape]. apply np_index_id, In_indices, Hpos. }
  rewrite Hfold. cbn [mbind result_bind].
  eexists. split; [reflexivity|]. cbn [np_astype_float32 dtype_of shape item].
  split; [reflexivity|]. split; [exact Hshy|].
  intros pos Hpos. rewrite Hshy in Hpos. cbn [shape] in Hpos.
  exists (pooled_value ty x axes pos). split; [apply Hred, Hpos|].
  rewrite (Hin pos Hpos). reflexivity.
Qed.



(** ** Batch normalization *)

Lemma py_getitem_lookup_nat {A} (l : list A) (z : Z) (k : nat) (v : A) :
  Z.to_nat z = k -> 0 <= z -> l !! k = Some v -> py_getitem l z = Ok v.
Proof. intros <- Hz Hl. apply py_getitem_lookup_Z; assumption. Qed.

Lemma node_input_nat (s : pystate F) (z : Z) (k : nat) (i : string) :
  Z.to_nat z = k -> 0 <= z ->
  inputs (st_node s) !! k = Some i -> node_input z s = (Ok i, s).
Proof.
  intros Hk Hz Hi. unfold node_input.
  rewrite (py_getitem_lookup_nat _ z k i Hk Hz Hi). reflexivity.
Qed.

Lemma as_float_float_or (n : node F) (d : gmap string (tensor F)) (w : list string)
    (key : string) (dflt : F) :
  float_or_absent n key ->
  as_float (default (AFloat dflt) (attrs n !! key)) (PyState n d w)
  = (Ok (float_or n key dflt), PyState n d w).
Proof.
  unfold float_or.
  intros [Hk | [[f Hk] | [z Hk]]]; rewrite Hk; reflexivity.
Qed.

(** C9: in training mode (is_test absent or 0) [handle_batch_normalization]
    blends the batch statistics of [tf.nn.moments] into the running
    statistics with the momentum attribute (0.9 when absent),
    [running * momentum + batch * (1 - momentum)], and hands the blended
    values to [tf.nn.batch_normalization].  The normalized tensor is the
    only output; the node, the symbol table and the warnings are what they
    were before the call, so the blended statistics are stored nowhere. *)
Theorem batch_normalization_training (n : node F) (d : gmap string (tensor F))
    (i0 i1 i2 i3 i4 : string) (x t1 t2 t3 t4 : tensor F) :
  inputs n !! 0%nat = Some i0 -> d !! i0 = Some x ->
  inputs n !! 1%nat = Some i1 -> d !! i1 = Some t1 ->
  inputs n !! 2%nat = Some i2 -> d !! i2 = Some t2 ->
  inputs n !! 3%nat = Some i3 -> d !! i3 = Some t3 ->
  inputs n !! 4%nat = Some i4 -> d !! i4 = Some t4 ->
  attrs n !! "is_test" = None \/ attrs n !! "is_test" = Some (AInt 0) ->
  float_or_absent n "epsilon" ->
  float_or_absent n "momentum" ->
  let r := rank x in
  let scale := _explicit_broadcast t1 1 r in
  let bias := _explicit_broadcast t2 1 r in
  let running_mean := _explicit_broadcast t3 1 r in
  let running_variance := _explicit_broadcast t4 1 r in
  let epsilon := float_or n "epsilon" (f_of_Q (1 # 100000)) in
  let momentum := float_or n "momentum" (f_of_Q (9 # 10)) in
  let axis :=
    if attr_eq_int (default (AInt 1) (attrs n !! "spatial")) 1
    then [0] else [0] ++ py_range2 2 r in
  let mean := _explicit_broadcast (tf_nn_moments x axis).1 1 r in
  let variance := _explicit_broadcast (tf_nn_moments x axis).2 1 r in
  let blend running batch :=
    tf_add (tf_scalar_mul running momentum)
           (tf_scalar_mul batch (f_sub (f_of_Z 1) momentum)) in
  call handle_batch_normalization n d
  = (Ok [tf_nn_batch_normalization x (blend running_mean mean)
           (blend running_variance variance) bias scale epsilon],
     PyState n d []).
Proof.
  intros Hi0 Hx0 Hi1 Hx1 Hi2 Hx2 Hi3 Hx3 Hi4 Hx4 Htest Heps Hmom.
  cbv zeta. unfold call, handle_batch_normalization.
  erewrite bind_Ok by (apply (node_input_nat _ 0 0%nat i0); [reflexivity | lia | exact Hi0]).
  erewrite bind_Ok by (apply input_dict_getitem_Some; exact Hx0).
  erewrite bind_Ok by (apply (node_input_nat _ 1 1%nat i1); [reflexivity | lia | exact Hi1]).
  erewrite bind_Ok by (apply input_dict_getitem_Some; exact Hx1).
  erewrite bind_Ok by (apply (node_input_nat _ 2 2%nat i2); [reflexivity | lia | exact Hi2]).
  erewrite bind_Ok by (apply input_dict_getitem_Some; exact Hx2).
  erewrite bind_Ok by (apply (node_input_nat _ 3 3%nat i3); [reflexivity | lia | exact Hi3]).
  erewrite bind_Ok by (apply input_dict_getitem_Some; exact Hx3).
  erewrite bind_Ok by (apply (node_input_nat _ 4 4%nat i4); [reflexivity | lia | exact Hi4]).
  erewrite bind_Ok by (apply input_dict_getitem_Some; exact Hx4).
  erewrite bind_Ok by (unfold attrs_get; reflexivity).
  erewrite bind_Ok by (unfold attrs_get; reflexivity).
  cbn [st_node].
  replace (attr_truthy (default (AInt 0) (attrs n !! "is_test"))) with false
    by (destruct Htest as [-> | ->]; reflexivity).
  erewrite bind_Ok by (unfold attrs_get; reflexivity).
  erewrite bind_Ok by (unfold attrs_get; reflexivity).
  cbn [st_node].
  destruct (tf_nn_moments x _) as [mean variance] eqn:Em. cbn [fst snd].
  erewrite bind_Ok by (apply as_float_float_or; exact Hmom).
  erewrite bind_Ok by (apply as_float_float_or; exact Heps).
  reflexivity.
Qed.

(** ** Grouped convolution *)

Lemma tf_split_Ok (x : tensor F) (g axis : Z) :
  0 < g -> splittable x g axis ->
  tf_split x g axis
  = Ok (map (channel_slice x (norm_axis (rank x) axis)
               (nth (Z.to_nat (norm_axis (rank x) axis)) (shape x) 0 / g)) (py_range g)).
Proof.
  intros Hg [Ha Hd]. unfold tf_split.
  replace (0 <? g) with true by (symmetry; apply Z.ltb_lt; lia).
  replace (0 <=? norm_axis (rank x) axis) with true by (symmetry; apply Z.leb_le; lia).
  replace (norm_axis (rank x) axis <? rank x) with true by (symmetry; apply Z.ltb_lt; lia).
  rewrite Hd. reflexivity.
Qed.


Lemma attrs_contains_eq (s : pystate F) (key : string) :
  attrs_contains key s = (Ok (match attrs (st_node s) !! key with Some _ => true | None => false end), s).
Proof.
  unfold attrs_contains. destruct (attrs (st_node s) !! key) eqn:E.
  - rewrite bool_decide_eq_true_2 by eauto. reflexivity.
  - rewrite bool_decide_eq_false_2 by (intros [? ?]; discriminate). reflexivity.
Qed.



Lemma nth_set_at {A} (a : Z) (v dflt : A) (l : list A) :
  (Z.to_nat a < length l)%nat -> nth (Z.to_nat a) (set_at a v l) dflt = v.
Proof.
  intros Ha. unfold set_at. apply nth_lookup_Some with (d := dflt).
  apply list_lookup_insert_eq. exact Ha.
Qed.

Lemma set_at_set_at {A} (a : Z) (v v' : A) (l : list A) :
  set_at a v (set_at a v' l) = set_at a v l.
Proof. unfold set_at. apply list_insert_insert_eq. Qed.

Lemma set_at_nth {A} (a : Z) (dflt : A) (l : list A) :
  (Z.to_nat a < length l)%nat -> set_at a (nth (Z.to_nat a) l dflt) l = l.
Proof.
  intros Ha. unfold set_at. apply list_insert_id.
  destruct (lookup_lt_is_Some_2 l _ Ha) as [v Hv].
  rewrite (nth_lookup_Some _ _ dflt _ Hv). exact Hv.
Qed.

Lemma length_set_at {A} (a : Z) (v : A) (l : list A) : length (set_at a v l) = length l.
Proof. unfold set_at. apply length_insert. Qed.

Lemma concat_item_slices (x : tensor F) (a size : Z) (m j : nat) (idx : list Z) :
  (Z.to_nat a < length (shape x))%nat ->
  (Z.to_nat a < length idx)%nat ->
  0 <= nth (Z.to_nat a) idx 0 < Z.of_nat m * size ->
  concat_item (map (channel_slice x a size) (map Z.of_nat (seq j m))) a idx
  = item x (set_at a (nth (Z.to_nat a) idx 0 + Z.of_nat j * size) idx).
Proof.
  intros Hsh. revert j idx. induction m as [|m IH]; intros j idx Hidx Hi; [lia|].
  cbn [seq map concat_item channel_slice shape item].
  rewrite nth_set_at by exact Hsh.
  destruct (nth (Z.to_nat a) idx 0 <? size) eqn:E.
  - reflexivity.
  - apply Z.ltb_ge in E.
    rewrite IH.
    + rewrite nth_set_at by exact Hidx. rewrite set_at_set_at. f_equal. f_equal. lia.
    + rewrite length_set_at. exact Hidx.
    + rewrite nth_set_at by exact Hidx. lia.
Qed.

Lemma foldr_add_const (size : Z) (l : list Z) :
  Forall (fun v => v = size) l -> foldr Z.add 0 l = Z.of_nat (length l) * size.
Proof.
  induction 1 as [|v l -> _ IH]; [reflexivity|].
  cbn [foldr length]. rewrite IH. lia.
Qed.

(** Splitting into [g] slices and concatenating them gives the tensor back:
    [tf.concat] puts the slices in the order [tf.split] cut them. *)
Lemma concat_split (x : tensor F) (g axis : Z) :
  0 < g -> splittable x g axis ->
  0 <= nth (Z.to_nat (norm_axis (rank x) axis)) (shape x) 0 ->
  exists pieces y,
    tf_split x g axis = Ok pieces /\
    tf_concat pieces (norm_axis (rank x) axis) = Ok y /\
    tensor_eq y x.
Proof.
  intros Hg Hs Hd.
  set (a := norm_axis (rank x) axis) in *.
  set (dim := nth (Z.to_nat a) (shape x) 0) in *.
  destruct Hs as [Ha Hmod]. fold a in Ha, Hmod. fold dim in Hmod.
  assert (Hal : (Z.to_nat a < length (shape x))%nat) by (unfold rank, zlen in Ha; lia).
  assert (Hdim : g * (dim / g) = dim).
  { pose proof (Z.div_mod dim g ltac:(lia)). lia. }
  exists (map (channel_slice x a (dim / g)) (py_range g)).
  rewrite (tf_split_Ok x g axis Hg) by (split; assumption). fold a. fold dim.
  destruct (py_range g) as [|i0 rest] eqn:Er.
  { apply (f_equal (@length Z)) in Er. rewrite length_py_range in Er. cbn in Er. lia. }
  change (map (channel_slice x a (dim / g)) (i0 :: rest))
    with (channel_slice x a (dim / g) i0 :: map (channel_slice x a (dim / g)) rest).
  unfold tf_concat. eexists. split; [reflexivity|]. split; [reflexivity|].
  assert (Hrank : rank (channel_slice x a (dim / g) i0) = rank x).
  { unfold rank, zlen, channel_slice. cbn [shape]. rewrite length_set_at. reflexivity. }
  assert (Hna : norm_axis (rank (channel_slice x a (dim / g) i0)) a = a).
  { rewrite Hrank. unfold norm_axis.
    replace (a <? 0) with false by (symmetry; apply Z.ltb_ge; lia). reflexivity. }
  rewrite Hna.
  unfold tensor_eq. cbn [dtype_of shape item channel_slice].
  change (channel_slice x a (dim / g) i0 :: map (channel_slice x a (dim / g)) rest)
    with (map (channel_slice x a (dim / g)) (i0 :: rest)).
  rewrite <- Er.
  assert (Hshape :
    set_at a
      (foldr Z.add 0
         (map (fun q : tensor F => nth (Z.to_nat a) (shape q) 0)
            (map (channel_slice x a (dim / g)) (py_range g))))
      (set_at a (dim / g) (shape x)) = shape x).
  { rewrite set_at_set_at. rewrite (foldr_add_const (dim / g)).
    - rewrite !length_map, length_py_range. rewrite Z2Nat.id by lia. rewrite Hdim.
      apply set_at_nth. exact Hal.
    - apply List.Forall_forall. intros v Hv.
      apply in_map_iff in Hv as (q & <- & Hq).
      apply in_map_iff in Hq as (i & <- & _).
      cbn [channel_slice shape]. apply nth_set_at. exact Hal. }
  split; [reflexivity|]. split; [exact Hshape|].
  rewrite Hshape. intros idx Hidx.
  apply In_indices in Hidx.
  assert (Hlen : length idx = length (shape x)) by (eapply Forall2_length; exact Hidx).
  assert (Hi : 0 <= nth (Z.to_nat a) idx 0 < dim).
  { destruct (lookup_lt_is_Some_2 idx (Z.to_nat a) ltac:(lia)) as [i Hi].
    destruct (lookup_lt_is_Some_2 (shape x) (Z.to_nat a) Hal) as [dd Hdd].
    pose proof (Forall2_lookup_lr _ _ _ _ _ _ Hidx Hi Hdd) as Hb.
    rewrite (nth_lookup_Some _ _ 0 _ Hi). unfold dim.
    rewrite (nth_lookup_Some _ _ 0 _ Hdd). exact Hb. }
  unfold py_range.
  rewrite (concat_item_slices x a (dim / g) (Z.to_nat g) 0 idx Hal).
  - replace (nth (Z.to_nat a) idx 0 + Z.of_nat 0 * (dim / g)) with (nth (Z.to_nat a) idx 0)
      by lia.
    rewrite set_at_nth by lia. reflexivity.
  - lia.
  - rewrite Z2Nat.id by lia. lia.
Qed.

(** ** Softmax: the shape arithmetic and what the rule returns *)

Lemma reduce_prod_app (l1 l2 : list Z) :
  reduce_prod (l1 ++ l2) = reduce_prod l1 * reduce_prod l2.
Proof.
  unfold reduce_prod. induction l1 as [|d l1 IH]; cbn [app foldr]; [lia|].
  rewrite IH. lia.
Qed.

Lemma py_clamp_range (len v : Z) : 0 <= len -> 0 <= py_clamp len v <= len.
Proof.
  unfold py_clamp. intros Hl.
  destruct (v <? 0) eqn:E; [apply Z.ltb_lt in E | apply Z.ltb_ge in E]; lia.
Qed.

Lemma py_slice_prefix {A} (l : list A) (axis : Z) :
  py_slice l 0 axis = take (Z.to_nat (py_clamp (zlen l) axis)) l.
Proof.
  unfold py_slice.
  assert (E : py_clamp (zlen l) 0 = 0) by (unfold py_clamp, zlen; cbn; lia).
  rewrite E. cbn [Z.to_nat drop]. rewrite Z.sub_0_r. reflexivity.
Qed.

Lemma py_slice_suffix {A} (l : list A) (axis : Z) :
  py_slice l axis (zlen l) = drop (Z.to_nat (py_clamp (zlen l) axis)) l.
Proof.
  unfold py_slice.
  pose proof (py_clamp_range (zlen l) axis ltac:(unfold zlen; lia)) as Hc.
  assert (E : py_clamp (zlen l) (zlen l) = zlen l).
  { unfold py_clamp. replace (zlen l <? 0) with false; [lia|].
    symmetry. apply Z.ltb_ge. unfold zlen. lia. }
  rewrite E. apply take_ge. rewrite length_drop. unfold zlen in *. lia.
Qed.

Lemma reduce_prod_cal_shape (sh : list Z) (axis : Z) :
  reduce_prod (cal_shape sh axis) = reduce_prod sh.
Proof.
  unfold cal_shape. rewrite py_slice_prefix, py_slice_suffix.
  set (k := Z.to_nat (py_clamp (zlen sh) axis)).
  transitivity (reduce_prod (take k sh ++ drop k sh)); [|rewrite take_drop; reflexivity].
  rewrite reduce_prod_app. unfold reduce_prod at 1. cbn [foldr].
  fold (reduce_prod (take k sh)). fold (reduce_prod (drop k sh)). lia.
Qed.

Lemma reduce_prod_pos (l : list Z) : Forall (fun d => 0 < d) l -> 0 < reduce_prod l.
Proof.
  unfold reduce_prod. induction 1 as [|d l Hd _ IH]; cbn [foldr]; [lia|nia].
Qed.

Lemma indices_positive (sh idx : list Z) :
  In idx (indices sh) -> Forall (fun d => 0 < d) sh.
Proof.
  intros Hidx. apply In_indices in Hidx.
  induction Hidx as [|i d idx sh Hi _ IH]; constructor; [lia | exact IH].
Qed.

Lemma indices_cal_shape_nonempty (sh idx : list Z) (axis : Z) :
  In idx (indices sh) -> indices (cal_shape sh axis) <> [].
Proof.
  intros Hidx. apply indices_positive in Hidx.
  assert (Hin : In [0; 0] (indices (cal_shape sh axis))).
  { apply In_indices. unfold cal_shape. rewrite py_slice_prefix, py_slice_suffix.
    constructor.
    - split; [lia|]. apply reduce_prod_pos. apply Forall_take. exact Hidx.
    - constructor; [|constructor].
      split; [lia|]. apply reduce_prod_pos. apply Forall_drop. exact Hidx. }
  intros E. rewrite E in Hin. destruct Hin.
Qed.

Lemma tf_reshape_cal_shape (x : tensor F) (axis : Z) :
  tf_reshape x (cal_shape (shape x) axis) = Ok (reshaped x (cal_shape (shape x) axis)).
Proof.
  unfold tf_reshape. rewrite reduce_prod_cal_shape, Z.eqb_refl. reflexivity.
Qed.

Lemma handle_softmax_run (n : node F) (d : gmap string (tensor F))
    (i0 : string) (x : tensor F) :
  inputs n !! 0%nat = Some i0 ->
  d !! i0 = Some x ->
  attrs n !! "axis" = None \/ (exists a, attrs n !! "axis" = Some (AInt a)) ->
  call handle_softmax n d = (Ok [softmax_result n x], PyState n d []).
Proof.
  intros Hi Hx Hax.
  assert (Hvia : forall axis (s : pystate F),
    (x2 ← lift (tf_reshape x (cal_shape (shape x) axis));
     y ← lift (tf_reshape (tf_nn_softmax (tf_sub_scalar x2 (tf_reduce_max_all x2))) (shape x));
     mret [y]) s = (Ok [softmax_via_2d x axis], s)).
  { intros axis s.
    erewrite bind_Ok by (unfold lift; rewrite tf_reshape_cal_shape; reflexivity).
    erewrite bind_Ok; [reflexivity|].
    unfold lift, tf_reshape. cbn [shape tf_nn_softmax tf_sub_scalar reshaped].
    rewrite reduce_prod_cal_shape, Z.eqb_refl. reflexivity. }
  unfold call, handle_softmax, softmax_result.
  erewrite bind_Ok by (apply node_input_0; exact Hi).
  erewrite bind_Ok by (apply input_dict_getitem_Some; exact Hx).
  erewrite bind_Ok by (apply attrs_contains_eq).
  cbn [st_node].
  destruct Hax as [Hax | [a Hax]]; rewrite Hax.
  - erewrite bind_Ok by reflexivity. cbv beta iota.
    erewrite bind_Ok by (apply attrs_contains_eq).
    cbn [st_node]. rewrite Hax.
    erewrite bind_Ok by reflexivity.
    apply Hvia.
  - erewrite bind_Ok; cycle 1.
    { erewrite bind_Ok by (apply attrs_getitem_Some; exact Hax). reflexivity. }
    cbn [attr_eq_int].
    destruct (a =? rank x - 1); [reflexivity|]. cbv beta iota.
    erewrite bind_Ok by (apply attrs_contains_eq).
    cbn [st_node]. rewrite Hax.
    erewrite (bind_Ok _ _ _ (if 0 <=? a then a else rank x + a)); cycle 1.
    { erewrite bind_Ok by (apply attrs_getitem_Some; exact Hax).
      erewrite bind_Ok by reflexivity.
      destruct (0 <=? a); [reflexivity|].
      erewrite bind_Ok by (apply node_input_0; exact Hi).
      erewrite bind_Ok by (apply input_dict_getitem_Some; exact Hx).
      reflexivity. }
    apply Hvia.
Qed.


(** ** Further properties of the rules: missing inputs and edge cases *)

Lemma node_input_empty (s : pystate F) (z : Z) :
  inputs (st_node s) = [] -> node_input z s = (Raise IndexError, s).
Proof.
  intros Hn. unfold node_input, py_getitem, py_norm_index, zlen. rewrite Hn. cbn [length].
  change (Z.of_nat 0) with 0. rewrite Z.add_0_r.
  destruct (0 <=? z) eqn:E1, (z <? 0) eqn:E2; try reflexivity;
    apply Z.leb_le in E1; apply Z.ltb_lt in E2; lia.
Qed.

Lemma input_dict_getitem_None (s : pystate F) key :
  st_input_dict s !! key = None -> input_dict_getitem key s = (Raise (KeyError key), s).
Proof. intros Hx. unfold input_dict_getitem. rewrite Hx. reflexivity. Qed.

Lemma reads_first_input_bind {A} (k : tensor F -> M F A) :
  reads_first_input (F:=F) (i0 ← node_input 0; x ← input_dict_getitem i0; k x).
Proof.
  intros n d. split.
  - intros Hn. unfold call. erewrite bind_Raise by (apply node_input_empty; exact Hn).
    reflexivity.
  - intros i0 Hi Hx. unfold call.
    erewrite bind_Ok by (apply node_input_0; exact Hi).
    erewrite bind_Raise by (apply input_dict_getitem_None; exact Hx).
    reflexivity.
Qed.

(** X1: every rule modelled here looks up its first input before anything
    else: on a node without inputs it raises [IndexError], and when the name
    in [node.inputs[0]] is not in the symbol table it raises [KeyError] for
    that name, whatever the attributes are; nothing is changed and no warning
    is emitted. *)
Theorem rules_need_first_input :
  reads_first_input (F:=F) handle_arg_max /\ reads_first_input (F:=F) handle_arg_min /\
  (forall pool_func ty, reads_first_input (F:=F) (_pool pool_func ty)) /\
  (forall ty, reads_first_input (F:=F) (_compatibility_pool ty)) /\
  reads_first_input (F:=F) handle_average_pool /\ reads_first_input (F:=F) handle_max_pool /\
  reads_first_input (F:=F) handle_global_average_pool /\
  reads_first_input (F:=F) handle_global_max_pool /\
  reads_first_input (F:=F) handle_batch_normalization /\
  (forall tr, reads_first_input (F:=F) (_conv tr)) /\
  reads_first_input (F:=F) handle_slice /\ reads_first_input (F:=F) handle_softmax.
Proof.
  repeat apply conj; intros; apply reads_first_input_bind.
Qed.

(** *** Pooling: edge cases *)

(** X2: an auto_pad attribute that is none of "SAME_UPPER", "VALID",
    "SAME_LOWER" and the empty string (ONNX's "NOTSET", say) sends [_pool] to
    [_compatibility_pool], which assigns [out_shape] in neither of its two
    branches and fails with [UnboundLocalError] when it builds the [py_func]
    node. *)
Theorem pool_unknown_auto_pad
    (pool_func : tensor F -> list Z -> string -> list Z -> data_format -> tensor F)
    (pooling_type : string) (n : node F) (d : gmap string (tensor F))
    (i0 : string) (x : tensor F) (ks : list Z) (a : string) :
  inputs n !! 0%nat = Some i0 ->
  d !! i0 = Some x ->
  attrs n !! "kernel_shape" = Some (AInts ks) ->
  ints_or_absent n "strides" ->
  ints_or_absent n "pads" ->
  attrs n !! "auto_pad" = Some (AStr a) ->
  a <> "SAME_UPPER" -> a <> "VALID" -> a <> "SAME_LOWER" -> a <> "" ->
  call (_pool pool_func pooling_type) n d = (Raise UnboundLocalError, PyState n d []).
Proof.
  intros Hi Hx Hks Hst Hpads Hauto H1 H2 H3 H4.
  assert (Hcompat : call (_compatibility_pool pooling_type) n d
                    = (Raise UnboundLocalError, PyState n d [])).
  { unfold call, _compatibility_pool.
    erewrite bind_Ok by (apply node_input_0; exact Hi).
    erewrite bind_Ok by (apply input_dict_getitem_Some; exact Hx).
    erewrite bind_Ok by (apply attrs_getitem_Some; exact Hks).
    destruct (attrs_get_ints_ok (PyState n d []) "strides"
                (py_repeat 1 (zlen (py_from 2 (shape x)))) Hst) as [r1 Hr1].
    erewrite bind_Ok by exact Hr1. cbv beta iota.
    destruct (attrs_get_ints_ok (PyState n d []) "pads"
                (py_repeat 0 (zlen (py_from 2 (shape x)) * 2)) Hpads) as [r2 Hr2].
    erewrite bind_Ok by exact Hr2. cbv beta iota.
    erewrite bind_Ok by (unfold attrs_get; reflexivity).
    cbn [st_node]. rewrite Hauto.
    change (default (AStr "") (Some (AStr a))) with (@AStr F a).
    erewrite bind_Ok by reflexivity.
    unfold attr_eq_str.
    rewrite !bool_decide_eq_false_2 by assumption.
    reflexivity. }
  rewrite <- Hcompat. unfold call at 1. unfold _pool.
  erewrite bind_Ok by (apply node_input_0; exact Hi).
  erewrite bind_Ok by (apply input_dict_getitem_Some; exact Hx).
  unfold get_data_format.
  erewrite bind_Ok by (apply attrs_getitem_Some; exact Hks).
  destruct (attrs_get_ints_ok (PyState n d []) "strides" (py_repeat 1 (rank x - 2)) Hst)
    as [r Hr].
  erewrite bind_Ok by exact Hr. cbv beta iota.
  erewrite bind_Ok by (unfold attrs_get; reflexivity).
  cbn [st_node]. rewrite Hauto. unfold attr_eq_str.
  rewrite !bool_decide_eq_false_2 by assumption.
  reflexivity.
Qed.

(** X3: [handle_average_pool] reads kernel_shape with a default of the empty
    list, so on an input with at least one spatial dimension a node without
    kernel_shape fails with [IndexError] (from [kernel_shape[0]]), not with
    the [KeyError] that [_pool] would raise. *)
Theorem average_pool_without_kernel_shape (n : node F) (d : gmap string (tensor F))
    (i0 : string) (x : tensor F) (n0 c dim : Z) (rest : list Z) :
  inputs n !! 0%nat = Some i0 ->
  d !! i0 = Some x ->
  shape x = n0 :: c :: dim :: rest ->
  attrs n !! "kernel_shape" = None ->
  call handle_average_pool n d = (Raise IndexError, PyState n d []).
Proof.
  intros Hi Hx Hsh Hks. unfold call, handle_average_pool.
  erewrite bind_Ok by (apply node_input_0; exact Hi).
  erewrite bind_Ok by (apply input_dict_getitem_Some; exact Hx).
  erewrite bind_Ok by (unfold attrs_get; reflexivity).
  cbn [st_node]. rewrite Hks, Hsh.
  change (py_from 2 (n0 :: c :: dim :: rest)) with (dim :: rest).
  assert (Hr : py_range (zlen (dim :: rest)) = 0 :: map Z.of_nat (seq 1 (length rest))).
  { unfold py_range, zlen. rewrite Nat2Z.id. reflexivity. }
  rewrite Hr. cbn [M_fold].
  erewrite bind_Raise; [reflexivity|].
  erewrite bind_Raise; [reflexivity|].
  erewrite bind_Ok by reflexivity.
  erewrite bind_Ok by reflexivity.
  erewrite bind_Raise by reflexivity.
  reflexivity.
Qed.

Lemma M_fold_app {A B} (f : B -> A -> M F B) (l1 l2 : list A) (b : B) (s : pystate F) :
  M_fold f (l1 ++ l2) b s
  = (b' ← M_fold f l1 b; M_fold f l2 b') s.
Proof.
  revert b s. induction l1 as [|a l1 IH]; intros b s.
  - reflexivity.
  - cbn [app M_fold]. unfold mbind, M_bind, bind in *.
    destruct (f b a s) as [[b1|e] s1]; [|reflexivity].
    rewrite IH. reflexivity.
Qed.

Lemma py_range_split (len : Z) (j : nat) :
  (j < Z.to_nat len)%nat ->
  py_range len
  = py_range (Z.of_nat j) ++ Z.of_nat j :: map Z.of_nat (seq (S j) (Z.to_nat len - S j)).
Proof.
  intros Hj. unfold py_range. rewrite Nat2Z.id.
  replace (Z.to_nat len) with (j + S (Z.to_nat len - S j))%nat at 1 by lia.
  rewrite seq_app, map_app. reflexivity.
Qed.

(** X4: as soon as one spatial dimension is at least as long as the kernel
    (and the kernel is longer on all dimensions before it), the loop of
    [handle_average_pool] settles on False without reading further kernel
    entries, and the rule returns what [_pool] returns for average pooling. *)
Theorem average_pool_not_global (n : node F) (d : gmap string (tensor F))
    (i0 : string) (x : tensor F) (ks : list Z) (j : nat) (dim k : Z) :
  inputs n !! 0%nat = Some i0 ->
  d !! i0 = Some x ->
  attrs n !! "kernel_shape" = Some (AInts ks) ->
  (forall (i : nat) (di : Z), (i < j)%nat -> py_from 2 (shape x) !! i = Some di ->
     exists ki, ks !! i = Some ki /\ di < ki) ->
  py_from 2 (shape x) !! j = Some dim ->
  ks !! j = Some k ->
  k <= dim ->
  call handle_average_pool n d = call (_pool (tf_nn_pool "AVG") "AVG") n d.
Proof.
  intros Hi Hx Hks Hbefore Hdim Hk Hle.
  unfold call at 1. unfold handle_average_pool.
  erewrite bind_Ok by (apply node_input_0; exact Hi).
  erewrite bind_Ok by (apply input_dict_getitem_Some; exact Hx).
  erewrite bind_Ok by (unfold attrs_get; reflexivity).
  cbn [st_node]. rewrite Hks. cbn [default].
  pose proof (lookup_lt_Some _ _ _ Hdim) as Hj.
  erewrite (bind_Ok _ _ _ false); [reflexivity|].
  rewrite (py_range_split (zlen (py_from 2 (shape x))) j)
    by (unfold zlen; rewrite Nat2Z.id; exact Hj).
  rewrite M_fold_app.
  erewrite (bind_Ok _ _ _ true); cycle 1.
  { apply M_fold_const. intros i Hin. apply In_py_range in Hin.
    assert (Hlt : (Z.to_nat i < length (py_from 2 (shape x)))%nat) by lia.
    destruct (lookup_lt_is_Some_2 _ _ Hlt) as [di Hdi].
    destruct (Hbefore (Z.to_nat i) di ltac:(lia) Hdi) as (ki & Hki & Hdk).
    pose proof (py_getitem_lookup _ _ _ Hdi) as E1.
    pose proof (py_getitem_lookup _ _ _ Hki) as E2.
    rewrite Z2Nat.id in E1, E2 by lia.
    erewrite bind_Ok by (unfold lift; rewrite E1; reflexivity).
    erewrite bind_Ok by reflexivity.
    erewrite bind_Ok by (unfold lift; rewrite E2; reflexivity).
    replace (di <? ki) with true by (symmetry; apply Z.ltb_lt; exact Hdk).
    reflexivity. }
  cbn [M_fold].
  erewrite (bind_Ok _ _ _ false); cycle 1.
  { erewrite bind_Ok by (unfold lift; rewrite (py_getitem_lookup _ _ _ Hdim); reflexivity).
    erewrite bind_Ok by reflexivity.
    erewrite bind_Ok by (unfold lift; rewrite (py_getitem_lookup _ _ _ Hk); reflexivity).
    replace (dim <? k) with false by (symmetry; apply Z.ltb_ge; exact Hle).
    reflexivity. }
  apply M_fold_const. intros. reflexivity.
Qed.

(** *** Global pooling *)

(** X5: the global pooling rules need a batch and a channel axis: on a tensor
    of rank below 2 the split of the axis list fails with [ValueError]; from
    rank 2 on they return one tensor that keeps batch and channel lengths and
    has length 1 on every spatial axis. *)
Theorem global_pool_rank (n : node F) (d : gmap string (tensor F))
    (i0 : string) (x : tensor F) :
  inputs n !! 0%nat = Some i0 ->
  d !! i0 = Some x ->
  (rank x < 2 ->
   call handle_global_average_pool n d = (Raise ValueError, PyState n d []) /\
   call handle_global_max_pool n d = (Raise ValueError, PyState n d [])) /\
  (2 <= rank x ->
   exists y_avg y_max,
     call handle_global_average_pool n d = (Ok [y_avg], PyState n d []) /\
     call handle_global_max_pool n d = (Ok [y_max], PyState n d []) /\
     shape y_avg = py_upto 2 (shape x) ++ repeat 1 (length (py_from 2 (shape x))) /\
     shape y_max = py_upto 2 (shape x) ++ repeat 1 (length (py_from 2 (shape x)))).
Proof.
  intros Hi Hx.
  assert (Hlen : zlen (py_range (rank x)) = rank x).
  { unfold zlen. rewrite length_py_range. unfold rank, zlen. lia. }
  split.
  - intros Hr. split; unfold call, handle_global_average_pool, handle_global_max_pool;
      (erewrite bind_Ok by (apply node_input_0; exact Hi));
      (erewrite bind_Ok by (apply input_dict_getitem_Some; exact Hx));
      (erewrite bind_Raise; [reflexivity|]);
      unfold lift, tf_split_2; rewrite Hlen;
      (replace (rank x - 2 <? 0) with true by (symmetry; apply Z.ltb_lt; lia));
      reflexivity.
  - intros Hr.
    exists (tf_reduce_mean x (py_from 2 (py_range (rank x))) true),
           (tf_reduce_max x (py_from 2 (py_range (rank x))) true).
    split; [|split; [|split]].
    + unfold call, handle_global_average_pool.
      erewrite bind_Ok by (apply node_input_0; exact Hi).
      erewrite bind_Ok by (apply input_dict_getitem_Some; exact Hx).
      erewrite bind_Ok; [reflexivity|].
      unfold lift, tf_split_2. rewrite Hlen.
      replace (rank x - 2 <? 0) with false by (symmetry; apply Z.ltb_ge; lia).
      reflexivity.
    + unfold call, handle_global_max_pool.
      erewrite bind_Ok by (apply node_input_0; exact Hi).
      erewrite bind_Ok by (apply input_dict_getitem_Some; exact Hx).
      erewrite bind_Ok; [reflexivity|].
      unfold lift, tf_split_2. rewrite Hlen.
      replace (rank x - 2 <? 0) with false by (symmetry; apply Z.ltb_ge; lia).
      reflexivity.
    + unfold tf_reduce_mean, tf_reduce. cbn [shape]. unfold rank.
      apply reduce_shape_spatial. exact Hr.
    + unfold tf_reduce_max, tf_reduce. cbn [shape]. unfold rank.
      apply reduce_shape_spatial. exact Hr.
Qed.


(** *** Batch normalization in inference mode *)

(** X6: with a true is_test attribute [handle_batch_normalization] normalizes
    with the running mean and variance it was given: [tf.nn.moments] is not
    called and momentum and spatial play no part. *)
Theorem batch_normalization_inference (n : node F) (d : gmap string (tensor F))
    (i0 i1 i2 i3 i4 : string) (x t1 t2 t3 t4 : tensor F) (v : attr F) :
  inputs n !! 0%nat = Some i0 -> d !! i0 = Some x ->
  inputs n !! 1%nat = Some i1 -> d !! i1 = Some t1 ->
  inputs n !! 2%nat = Some i2 -> d !! i2 = Some t2 ->
  inputs n !! 3%nat = Some i3 -> d !! i3 = Some t3 ->
  inputs n !! 4%nat = Some i4 -> d !! i4 = Some t4 ->
  attrs n !! "is_test" = Some v -> attr_truthy v = true ->
  float_or_absent n "epsilon" ->
  let r := rank x in
  call handle_batch_normalization n d
  = (Ok [tf_nn_batch_normalization x
           (_explicit_broadcast t3 1 r) (_explicit_broadcast t4 1 r)
           (_explicit_broadcast t2 1 r) (_explicit_broadcast t1 1 r)
           (float_or n "epsilon" (f_of_Q (1 # 100000)))],
     PyState n d []).
Proof.
  intros Hi0 Hx0 Hi1 Hx1 Hi2 Hx2 Hi3 Hx3 Hi4 Hx4 Htest Htrue Heps.
  cbv zeta. unfold call, handle_batch_normalization.
  erewrite bind_Ok by (apply (node_input_nat _ 0 0%nat i0); [reflexivity | lia | exact Hi0]).
  erewrite bind_Ok by (apply input_dict_getitem_Some; exact Hx0).
  erewrite bind_Ok by (apply (node_input_nat _ 1 1%nat i1); [reflexivity | lia | exact Hi1]).
  erewrite bind_Ok by (apply input_dict_getitem_Some; exact Hx1).
  erewrite bind_Ok by (apply (node_input_nat _ 2 2%nat i2); [reflexivity | lia | exact Hi2]).
  erewrite bind_Ok by (apply input_dict_getitem_Some; exact Hx2).
  erewrite bind_Ok by (apply (node_input_nat _ 3 3%nat i3); [reflexivity | lia | exact Hi3]).
  erewrite bind_Ok by (apply input_dict_getitem_Some; exact Hx3).
  erewrite bind_Ok by (apply (node_input_nat _ 4 4%nat i4); [reflexivity | lia | exact Hi4]).
  erewrite bind_Ok by (apply input_dict_getitem_Some; exact Hx4).
  erewrite bind_Ok by (unfold attrs_get; reflexivity).
  erewrite bind_Ok by (unfold attrs_get; reflexivity).
  cbn [st_node]. rewrite Htest.
  change (default (AInt 0) (Some v)) with v. rewrite Htrue.
  erewrite bind_Ok by (apply as_float_float_or; exact Heps).
  reflexivity.
Qed.

(** *** Convolution: the kernel_shape assertion *)

(** X7: when the node has a kernel_shape attribute that is not the list of
    spatial lengths of the weight tensor ([shape[2:]]), [_conv] stops at its
    assertion with [AssertionError], for convolution and transposed
    convolution alike, before any attribute is used. *)
Theorem conv_kernel_shape_mismatch (tr : bool) (n : node F) (d : gmap string (tensor F))
    (i0 i1 : string) (x w : tensor F) (v : attr F) :
  inputs n !! 0%nat = Some i0 -> d !! i0 = Some x ->
  inputs n !! 1%nat = Some i1 -> d !! i1 = Some w ->
  attrs n !! "kernel_shape" = Some v ->
  v <> AInts (py_from 2 (shape w)) ->
  call (_conv tr) n d = (Raise AssertionError, PyState n d []).
Proof.
  intros Hi0 Hx0 Hi1 Hx1 Hks Hne. unfold call, _conv.
  erewrite bind_Ok by (apply node_input_0; exact Hi0).
  erewrite bind_Ok by (apply input_dict_getitem_Some; exact Hx0).
  unfold get_data_format.
  erewrite bind_Ok by (apply (node_input_nat _ 1 1%nat i1); [reflexivity | lia | exact Hi1]).
  erewrite bind_Ok by (apply input_dict_getitem_Some; exact Hx1).
  erewrite bind_Ok by (apply attrs_contains_eq).
  cbn [st_node]. rewrite Hks.
  erewrite bind_Raise; [reflexivity|].
  erewrite bind_Ok by (apply attrs_getitem_Some; exact Hks).
  replace (attr_eq_ints v (py_from 2 (shape w))) with false; [reflexivity|].
  symmetry. destruct v; try reflexivity. cbn [attr_eq_ints].
  apply bool_decide_eq_false_2. intros ->. apply Hne. reflexivity.
Qed.


(** ** Further facts about Slice *)

Lemma py_setitem_Z {A} (l : list A) (z : Z) (v : A) :
  0 <= z < zlen l -> py_setitem l z v = Ok (<[Z.to_nat z := v]> l).
Proof.
  intros Hz. unfold py_setitem, py_norm_index.
  replace (0 <=? z) with true by (symmetry; apply Z.leb_le; lia).
  replace (z <? zlen l) with true by (symmetry; apply Z.ltb_lt; lia).
  reflexivity.
Qed.

Lemma slice_shape_one_axis (sh : list Z) (a : nat) (dim b sz : Z) :
  Forall (fun d => 0 <= d) sh ->
  sh !! a = Some dim ->
  0 <= b -> 0 <= sz -> b + sz <= dim ->
  slice_shape sh (<[a := b]> (repeat 0 (length sh))) (<[a := sz]> sh)
  = Some (<[a := sz]> sh).
Proof.
  intros Hsh. revert a. induction Hsh as [|d sh Hd Hsh IH]; intros a Ha Hb Hsz Hle.
  - discriminate.
  - destruct a as [|a]; cbn [length repeat].
    + cbn in Ha. inversion Ha; subst d.
      change (<[0%nat := b]> (0 :: repeat 0 (length sh))) with (b :: repeat 0 (length sh)).
      change (<[0%nat := sz]> (dim :: sh)) with (sz :: sh).
      cbn [slice_shape].
      destruct (sz =? -1) eqn:E; [apply Z.eqb_eq in E; lia|].
      replace (0 <=? b) with true by (symmetry; apply Z.leb_le; lia).
      replace (0 <=? sz) with true by (symmetry; apply Z.leb_le; lia).
      replace (b + sz <=? dim) with true by (symmetry; apply Z.leb_le; lia).
      cbn [andb]. rewrite (slice_shape_whole sh Hsh). reflexivity.
    + cbn in Ha.
      change (<[S a := b]> (0 :: repeat 0 (length sh)))
        with (0 :: <[a := b]> (repeat 0 (length sh))).
      change (<[S a := sz]> (d :: sh)) with (d :: <[a := sz]> sh).
      cbn [slice_shape].
      destruct (d =? -1) eqn:E; [apply Z.eqb_eq in E; lia|].
      replace (0 <=? 0) with true by reflexivity.
      replace (0 <=? d) with true by (symmetry; apply Z.leb_le; lia).
      replace (0 + d <=? d) with true by (symmetry; apply Z.leb_le; lia).
      cbn [andb].
      rewrite (IH a Ha Hb Hsz Hle). reflexivity.
Qed.

(** X8: slicing one axis.  With one non-negative start [s], one end [e] and
    one axis [a] of length [dim], [handle_slice] counts a negative end from
    the back of the axis, clamps both bounds to [dim], returns the entries
    [s' <= k < e'] of that axis (all other axes whole), and leaves the
    clamped bounds in the node's own [starts] and [ends] lists. *)
Theorem slice_single_axis (n : node F) (d : gmap string (tensor F)) (i0 : string)
    (x : tensor F) (s e a dim : Z) :
  inputs n !! 0%nat = Some i0 ->
  d !! i0 = Some x ->
  attrs n !! "starts" = Some (AInts [s]) ->
  attrs n !! "ends" = Some (AInts [e]) ->
  attrs n !! "axes" = Some (AInts [a]) \/ (attrs n !! "axes" = None /\ a = 0) ->
  Forall (fun k => 0 <= k) (shape x) ->
  0 <= a ->
  shape x !! Z.to_nat a = Some dim ->
  let e' := Z.min dim (if e <? 0 then dim + e else e) in
  let s' := Z.min dim s in
  0 <= s -> s' <= e' ->
  exists y,
    call handle_slice n d
    = (Ok [y],
       PyState (Node (op_type n)
                  (<["starts" := AInts [s']]> (<["ends" := AInts [e']]> (attrs n)))
                  (inputs n) (outputs n) (name n)) d []) /\
    shape y = <[Z.to_nat a := e' - s']> (shape x) /\
    forall idx,
      item y idx
      = item x (zip_with Z.add idx (<[Z.to_nat a := s']> (repeat 0 (length (shape x))))).
Proof.
  intros Hi Hx Hst Hen Hax Hsh Ha Hdim e' s' Hs Hse.
  pose proof (lookup_lt_Some _ _ _ Hdim) as Hlt.
  assert (Hdim0 : 0 <= dim).
  { rewrite List.Forall_forall in Hsh. apply Hsh.
    apply list_elem_of_In, list_elem_of_lookup. eauto. }
  assert (Hy : tf_slice x (<[Z.to_nat a := s']> (repeat 0 (length (shape x))))
                 (<[Z.to_nat a := e' - s']> (shape x))
               = Ok (Tensor (dtype_of x) (<[Z.to_nat a := e' - s']> (shape x))
                       (fun idx => item x (zip_with Z.add idx
                          (<[Z.to_nat a := s']> (repeat 0 (length (shape x)))))))).
  { unfold tf_slice.
    rewrite (slice_shape_one_axis (shape x) (Z.to_nat a) dim s' (e' - s') Hsh Hdim)
      by (unfold s', e' in *; lia).
    reflexivity. }
  exists (Tensor (dtype_of x) (<[Z.to_nat a := e' - s']> (shape x))
            (fun idx => item x (zip_with Z.add idx
               (<[Z.to_nat a := s']> (repeat 0 (length (shape x))))))).
  split; [|split; [reflexivity | intros idx; reflexivity]].
  unfold call, handle_slice.
  erewrite bind_Ok by (apply node_input_0; exact Hi).
  erewrite bind_Ok by (apply input_dict_getitem_Some; exact Hx).
  erewrite bind_Ok by (unfold attrs_get; reflexivity).
  erewrite bind_Ok by (unfold attrs_get; reflexivity).
  cbn [st_node]. rewrite Hst, Hen.
  erewrite bind_Ok by reflexivity.
  assert (Haxes : exists r, attrs_get_ints "axes" (py_range (zlen [s])) (PyState n d [])
                            = (Ok (r, [a]), PyState n d [])).
  { destruct Hax as [Hax | [Hax Ha0]].
    - eexists. apply attrs_get_ints_Some. exact Hax.
    - eexists. rewrite Ha0. apply attrs_get_ints_None. exact Hax. }
  destruct Haxes as [r Hr].
  erewrite bind_Ok by exact Hr.
  cbv beta iota.
  rewrite py_repeat_zlen.
  change (zlen [s] =? 0) with false. cbv iota.
  assert (Hfs : py_getitem (shape x) a = Ok dim)
    by (apply py_getitem_lookup_Z; assumption).
  assert (Ha_lt : 0 <= a < zlen (shape x)) by (unfold zlen; lia).
  erewrite bind_Ok; cycle 1.
  { erewrite bind_Ok by reflexivity.
    change (py_range (zlen [s])) with [0]. cbn [M_fold].
    erewrite bind_Ok; [reflexivity|].
    unfold slice_step.
    erewrite bind_Ok by reflexivity.
    erewrite (bind_Ok _ _ _ (if e <? 0 then dim + e else e)); cycle 1.
    { destruct (e <? 0).
      - erewrite bind_Ok by reflexivity.
        erewrite bind_Ok by (unfold lift; rewrite Hfs; reflexivity).
        erewrite bind_Ok by reflexivity. reflexivity.
      - reflexivity. }
    erewrite bind_Ok by (unfold ref_setitem; erewrite bind_Ok by reflexivity;
                         erewrite bind_Ok by reflexivity; reflexivity).
    erewrite bind_Ok by reflexivity.
    erewrite bind_Ok by (unfold lift; rewrite Hfs; reflexivity).
    erewrite bind_Ok by reflexivity.
    erewrite bind_Ok by (unfold ref_setitem; erewrite bind_Ok by reflexivity;
                         erewrite bind_Ok by reflexivity; reflexivity).
    erewrite bind_Ok by reflexivity.
    erewrite bind_Ok by (unfold lift; rewrite Hfs; reflexivity).
    erewrite bind_Ok by reflexivity.
    erewrite bind_Ok by (unfold ref_setitem; erewrite bind_Ok by reflexivity;
                         erewrite bind_Ok by reflexivity; reflexivity).
    erewrite bind_Ok by reflexivity.
    erewrite bind_Ok by reflexivity.
    erewrite bind_Ok by (unfold lift; rewrite py_setitem_Z
                           by (unfold zlen; rewrite repeat_length; unfold zlen in Ha_lt; lia);
                         reflexivity).
    erewrite bind_Ok by reflexivity.
    erewrite bind_Ok by reflexivity.
    erewrite bind_Ok by reflexivity.
    erewrite bind_Ok by (unfold lift; rewrite py_setitem_Z by exact Ha_lt; reflexivity).
    reflexivity. }
  cbn [st_node st_input_dict st_warnings attrs inputs outputs name op_type].
  erewrite bind_Ok by (apply node_input_0; exact Hi).
  erewrite bind_Ok by (apply input_dict_getitem_Some; exact Hx).
  cbn [sv_full_begin sv_full_sizes].
  unfold s', e' in *.
  erewrite bind_Ok by (unfold lift; rewrite Hy; reflexivity).
  rewrite insert_insert_eq. reflexivity.
Qed.

Lemma slice_shape_negative_begin (sh begin size : list Z) (a : nat) (b : Z) :
  begin !! a = Some b -> b < 0 -> slice_shape sh begin size = None.
Proof.
  revert sh size a. induction begin as [|b0 begin IH]; intros sh size a Hb Hneg.
  - discriminate.
  - destruct sh as [|d sh]; [reflexivity|].
    destruct size as [|s size]; [reflexivity|].
    cbn [slice_shape].
    destruct a as [|a].
    + cbn in Hb. inversion Hb; subst b0.
      replace (0 <=? b) with false by (symmetry; apply Z.leb_gt; lia).
      reflexivity.
    + cbn in Hb. rewrite (IH sh size a Hb Hneg).
      destruct (_ && _); reflexivity.
Qed.

(** X9: a negative start.  Unlike a negative end, a negative start is not
    counted from the back of the axis: the loop of [handle_slice] leaves it
    as it is, so [tf.slice] is handed a negative begin and rejects it.  By
    then the clamped end has been written into the node's [ends] list. *)
Theorem slice_negative_start (n : node F) (d : gmap string (tensor F)) (i0 : string)
    (x : tensor F) (s e a dim : Z) :
  inputs n !! 0%nat = Some i0 ->
  d !! i0 = Some x ->
  attrs n !! "starts" = Some (AInts [s]) ->
  attrs n !! "ends" = Some (AInts [e]) ->
  attrs n !! "axes" = Some (AInts [a]) \/ (attrs n !! "axes" = None /\ a = 0) ->
  0 <= a ->
  shape x !! Z.to_nat a = Some dim ->
  0 <= dim ->
  s < 0 ->
  let e' := Z.min dim (if e <? 0 then dim + e else e) in
  let after := PyState (Node (op_type n)
                          (<["starts" := AInts [s]]> (<["ends" := AInts [e']]> (attrs n)))
                          (inputs n) (outputs n) (name n)) d [] in
  M_fold (slice_step [a]) [0]
    (SliceVars [s] [e] (repeat 0 (length (shape x))) (shape x)) (PyState n d [])
  = (Ok (SliceVars [s] [e'] (<[Z.to_nat a := s]> (repeat 0 (length (shape x))))
           (<[Z.to_nat a := e' - s]> (shape x))), after) /\
  call handle_slice n d = (Raise ValueError, after).
Proof.
  intros Hi Hx Hst Hen Hax Ha Hdim Hdim0 Hs e' after.
  pose proof (lookup_lt_Some _ _ _ Hdim) as Hlt.
  assert (Hmin : Z.min dim s = s) by lia.
  assert (Hfs : py_getitem (shape x) a = Ok dim)
    by (apply py_getitem_lookup_Z; assumption).
  assert (Ha_lt : 0 <= a < zlen (shape x)) by (unfold zlen; lia).
  assert (Hloop : M_fold (slice_step [a]) [0]
            (SliceVars [s] [e] (repeat 0 (length (shape x))) (shape x)) (PyState n d [])
          = (Ok (SliceVars [s] [e'] (<[Z.to_nat a := s]> (repeat 0 (length (shape x))))
                   (<[Z.to_nat a := e' - s]> (shape x))), after)).
  { cbn [M_fold].
    erewrite bind_Ok; cycle 1.
    { unfold slice_step.
      erewrite bind_Ok by reflexivity.
      erewrite (bind_Ok _ _ _ (if e <? 0 then dim + e else e)); cycle 1.
      { destruct (e <? 0).
        - erewrite bind_Ok by reflexivity.
          erewrite bind_Ok by (unfold lift; rewrite Hfs; reflexivity).
          erewrite bind_Ok by reflexivity. reflexivity.
        - reflexivity. }
      erewrite bind_Ok by (unfold ref_setitem; erewrite bind_Ok by reflexivity;
                           erewrite bind_Ok by reflexivity; reflexivity).
      erewrite bind_Ok by reflexivity.
      erewrite bind_Ok by (unfold lift; rewrite Hfs; reflexivity).
      erewrite bind_Ok by reflexivity.
      erewrite bind_Ok by (unfold ref_setitem; erewrite bind_Ok by reflexivity;
                           erewrite bind_Ok by reflexivity; reflexivity).
      erewrite bind_Ok by reflexivity.
      erewrite bind_Ok by (unfold lift; rewrite Hfs; reflexivity).
      erewrite bind_Ok by reflexivity.
      erewrite bind_Ok by (unfold ref_setitem; erewrite bind_Ok by reflexivity;
                           erewrite bind_Ok by reflexivity; reflexivity).
      erewrite bind_Ok by reflexivity.
      erewrite bind_Ok by reflexivity.
      erewrite bind_Ok by (unfold lift; rewrite py_setitem_Z
                             by (unfold zlen; rewrite repeat_length; unfold zlen in Ha_lt; lia);
                           reflexivity).
      erewrite bind_Ok by reflexivity.
      erewrite bind_Ok by reflexivity.
      erewrite bind_Ok by reflexivity.
      erewrite bind_Ok by (unfold lift; rewrite py_setitem_Z by exact Ha_lt; reflexivity).
      reflexivity. }
    cbn [st_node st_input_dict st_warnings attrs inputs outputs name op_type].
    rewrite Hmin, insert_insert_eq. reflexivity. }
  split; [exact Hloop|].
  unfold call, handle_slice.
  erewrite bind_Ok by (apply node_input_0; exact Hi).
  erewrite bind_Ok by (apply input_dict_getitem_Some; exact Hx).
  erewrite bind_Ok by (unfold attrs_get; reflexivity).
  erewrite bind_Ok by (unfold attrs_get; reflexivity).
  cbn [st_node]. rewrite Hst, Hen.
  erewrite bind_Ok by reflexivity.
  assert (Haxes : exists r, attrs_get_ints "axes" (py_range (zlen [s])) (PyState n d [])
                            = (Ok (r, [a]), PyState n d [])).
  { destruct Hax as [Hax | [Hax Ha0]].
    - eexists. apply attrs_get_ints_Some. exact Hax.
    - eexists. rewrite Ha0. apply attrs_get_ints_None. exact Hax. }
  destruct Haxes as [r Hr].
  erewrite bind_Ok by exact Hr.
  cbv beta iota.
  rewrite py_repeat_zlen.
  change (zlen [s] =? 0) with false. cbv iota.
  erewrite bind_Ok; cycle 1.
  { erewrite bind_Ok by reflexivity.
    change (py_range (zlen [s])) with [0]. exact Hloop. }
  unfold after.
  erewrite bind_Ok by (apply node_input_0; exact Hi).
  erewrite bind_Ok by (apply input_dict_getitem_Some; exact Hx).
  cbn [sv_full_begin sv_full_sizes].
  erewrite bind_Raise; [reflexivity|].
  unfold lift, tf_slice.
  rewrite (slice_shape_negative_begin _ _ _ (Z.to_nat a) s); [reflexivity | | exact Hs].
  apply list_lookup_insert_eq. rewrite repeat_length. exact Hlt.
Qed.

(** ** Further facts about the pooling fallback *)

Lemma pool_step_reduction (x : tensor F) (n c : Z) (axes : list pool_axis) (ty : string)
    (y : tensor F) (pos : list Z) :
  shape x = n :: c :: map ax_dim axes ->
  Forall axis_ok axes ->
  In pos (indices (n :: c :: map ax_out axes)) ->
  pool_step (sentinel_padded x axes) (map ax_kernel axes) (map ax_stride axes)
    (zlen axes) ty y pos
  = (reduction ty (discard_sentinels (gather_window (sentinel_padded x axes) axes pos))
     ≫= np_setitem y pos).
Proof.
  intros Hsh Hok Hpos.
  apply In_indices in Hpos.
  inversion Hpos as [|p0 d0 pos1 sh1 Hp0 Hpos1]; subst.
  inversion Hpos1 as [|p1 d1 o sh2 Hp1 Ho]; subst.
  apply Forall2_fmap_r in Ho.
  unfold pool_step.
  rewrite (py_getitem_lookup_Z (p0 :: p1 :: o) 0 p0) by (reflexivity || lia).
  rewrite (py_getitem_lookup_Z (p0 :: p1 :: o) 1 p1) by (reflexivity || lia).
  cbn [mbind result_bind].
  set (ranges := zip_with (fun a oi => map (fun j => ax_stride a * oi + j)
                                         (py_range (ax_kernel a))) axes o).
  assert (Hlen : length o = length axes) by (eapply Forall2_length; exact Ho).
  assert (Hranges : window_ranges (map ax_kernel axes) (map ax_stride axes) (zlen axes)
                      (p0 :: p1 :: o) = Ok ranges).
  { unfold window_ranges.
    replace (zlen axes) with (zlen (zip axes o))
      by (unfold zlen; rewrite length_zip; lia).
    rewrite (result_map_range _
               (fun ao => map (fun j => ax_stride ao.1 * ao.2 + j) (py_range (ax_kernel ao.1)))).
    - unfold ranges. f_equal.
      apply (map_zip (fun a oi => map (fun j => ax_stride a * oi + j) (py_range (ax_kernel a)))).
    - intros i [a oi] Hi. apply lookup_zip_with_Some in Hi as (a' & oi' & E & Ha & Hoi).
      inversion E; subst a' oi'.
      rewrite (py_getitem_map ax_stride axes i a Ha). cbn [mbind result_bind].
      rewrite (py_getitem_lookup_Z (p0 :: p1 :: o) (Z.of_nat i + 2) oi)
        by (try lia; replace (Z.to_nat (Z.of_nat i + 2)) with (S (S i)) by lia; exact Hoi).
      cbn [mbind result_bind].
      rewrite (py_getitem_map ax_kernel axes i a Ha). cbn [mbind result_bind fst snd].
      unfold py_range2.
      replace (ax_stride a * oi + ax_kernel a - ax_stride a * oi) with (ax_kernel a) by lia.
      reflexivity. }
  rewrite Hranges. cbn [mbind result_bind].
  rewrite (result_map_ok _ (fun w => item (sentinel_padded x axes) (p0 :: p1 :: w))).
  - cbn [mbind result_bind].
    pose proof (reduction_bind ty
      (filter (fun v => negb (np_isnan v))
         (map (fun w => item (sentinel_padded x axes) (p0 :: p1 :: w))
            (itertools_product ranges)))
      (fun v => np_setitem y (p0 :: p1 :: o) v)) as E.
    cbn [mbind result_bind] in E. rewrite E.
    unfold discard_sentinels, gather_window. fold ranges. reflexivity.
  - intros w Hw. apply in_itertools_product in Hw.
    unfold np_getitem. rewrite np_index_id; [reflexivity|].
    unfold sentinel_padded, pad_attr_of. cbn [shape]. rewrite Hsh.
    cbn [app zip_with fst snd].
    constructor; [lia|]. constructor; [lia|].
    rewrite zip_with_fmap_l, zip_with_fmap_r, zip_with_diag. cbn [fst snd].
    apply (window_in_bounds axes o w Hok Ho Hw).
Qed.


Lemma result_fold_raise (step : tensor F -> list Z -> result (tensor F)) (e : exn)
    (positions : list (list Z)) (y : tensor F) :
  (forall y' pos, In pos positions -> shape y' = shape y ->
     (exists v, step y' pos = np_setitem y' pos v) \/ step y' pos = Raise e) ->
  (forall pos, In pos positions -> np_index (shape y) pos = Some pos) ->
  (exists pos, In pos positions /\ forall y', step y' pos = Raise e) ->
  result_fold step positions y = Raise e.
Proof.
  revert y. induction positions as [|pos positions IH]; intros y Hstep Hidx (p & Hp & Hfail).
  - destruct Hp.
  - cbn [result_fold].
    destruct (Hstep y pos ltac:(left; reflexivity) eq_refl) as [[v Hv] | Hr].
    + rewrite Hv. unfold np_setitem. rewrite (Hidx pos) by (left; reflexivity).
      cbn [mbind result_bind].
      apply IH.
      * intros y' q Hq Hsh. apply Hstep; [right; exact Hq | exact Hsh].
      * intros q Hq. cbn [shape]. apply Hidx. right. exact Hq.
      * destruct Hp as [<- | Hp].
        -- rewrite Hfail in Hv. unfold np_setitem in Hv.
           rewrite (Hidx pos) in Hv by (left; reflexivity). discriminate.
        -- exists p. split; assumption.
    + rewrite Hr. reflexivity.
Qed.

Lemma np_max_raises (l : list F) : np_max l = Raise ValueError <-> l = [].
Proof. destruct l; cbn; split; intros E; try reflexivity; discriminate. Qed.

(** X10: max pooling over a window without values.  On a float tensor
    [py_pool] drops the NaN entries of each window before reducing it; with
    "MAX" it fails with ValueError as soon as some window keeps no entry (it
    lies in the padding, or holds NaN only), and returns a tensor when every
    window keeps one. *)
Theorem py_pool_max_window (x : tensor F) (n c : Z) (axes : list pool_axis) :
  shape x = n :: c :: map ax_dim axes ->
  dtype_of x = float32 \/ dtype_of x = float64 ->
  0 <= n -> 0 <= c ->
  Forall axis_ok axes ->
  let windows pos := discard_sentinels (gather_window (sentinel_padded x axes) axes pos) in
  let run := py_pool x (map ax_kernel axes) (map ax_stride axes)
               (map ax_pad_begin axes ++ map ax_pad_end axes)
               (map ax_out axes) (map ax_pad_total axes) "MAX" in
  ((exists pos, In pos (indices (n :: c :: map ax_out axes)) /\ windows pos = []) ->
   run = Raise ValueError) /\
  ((forall pos, In pos (indices (n :: c :: map ax_out axes)) -> windows pos <> []) ->
   exists y, run = Ok y).
Proof.
  intros Hsh Hfl Hn Hc Hok windows run. split.
  - intros (p & Hp & Hempty). unfold run, py_pool. rewrite Hsh, zlen_spatial.
    rewrite (result_map_range _ (fun a => (ax_pad_begin a, ax_pad_end a))); cycle 1.
    { intros i a Ha.
      rewrite (py_getitem_lookup _ i (ax_pad_begin a)); cycle 1.
      { rewrite lookup_app_l by (rewrite length_map; eapply lookup_lt_Some; exact Ha).
        rewrite list_lookup_fmap, Ha. reflexivity. }
      cbn [mbind result_bind].
      replace (zlen axes) with (zlen (map ax_pad_begin axes))
        by (unfold zlen; rewrite length_map; reflexivity).
      rewrite (py_getitem_app_r _ _ i (ax_pad_end a))
        by (rewrite list_lookup_fmap, Ha; reflexivity).
      reflexivity. }
    cbn [mbind result_bind].
    assert (Hpad : np_pad_nan x ([(0, 0); (0, 0)]
                     ++ map (fun a => (ax_pad_begin a, ax_pad_end a)) axes)
                   = Ok (sentinel_padded x axes)).
    { unfold np_pad_nan. fold (pad_attr_of axes).
      rewrite bool_decide_eq_true_2; cycle 1.
      { unfold rank, pad_attr_of, zlen. rewrite Hsh. cbn [length app].
        rewrite !length_map. reflexivity. }
      replace (forallb _ (pad_attr_of axes)) with true;
      [unfold sentinel_padded; destruct Hfl as [E | E]; rewrite E; reflexivity|].
      symmetry. apply forallb_forall. intros q Hq.
      unfold pad_attr_of in Hq. cbn [app] in Hq.
      destruct Hq as [<-|[<-|Hq]]; [reflexivity | reflexivity |].
      apply in_map_iff in Hq as (a & <- & Ha).
      rewrite List.Forall_forall in Hok. destruct (Hok a Ha) as (_ & _ & _ & Hb & He & _).
      cbn [fst snd]. apply andb_true_iff. split; apply Z.leb_le; assumption. }
    rewrite Hpad. cbn [mbind result_bind].
    rewrite (py_getitem_lookup_Z _ 0 n) by (reflexivity || lia).
    rewrite (py_getitem_lookup_Z _ 1 c) by (reflexivity || lia).
    cbn [mbind result_bind].
    assert (Hzeros : np_zeros ([n; c] ++ map ax_out axes)
                     = Ok (Tensor float64 (n :: c :: map ax_out axes) (fun _ => f_of_Z 0))).
    { unfold np_zeros. rewrite forallb_nonneg; [reflexivity|].
      cbn [app]. constructor; [exact Hn|]. constructor; [exact Hc|].
      apply List.Forall_forall. intros o Ho. apply in_map_iff in Ho as (a & <- & Ha).
      rewrite List.Forall_forall in Hok. destruct (Hok a Ha) as (_ & _ & _ & _ & _ & Ho & _).
      exact Ho. }
    rewrite Hzeros. cbn [mbind result_bind].
    rewrite (result_map_range _ ax_out); cycle 1.
    { intros i a Ha.
      rewrite (py_getitem_lookup_Z (n :: c :: map ax_dim axes) (Z.of_nat i + 2) (ax_dim a));
        [|lia|].
      2:{ replace (Z.to_nat (Z.of_nat i + 2)) with (S (S i)) by lia.
          change ((n :: c :: map ax_dim axes) !! S (S i)) with (map ax_dim axes !! i).
          rewrite list_lookup_fmap, Ha. reflexivity. }
      cbn [mbind result_bind].
      rewrite (py_getitem_map ax_pad_total axes i a Ha). cbn [mbind result_bind].
      rewrite (py_getitem_map ax_kernel axes i a Ha). cbn [mbind result_bind].
      rewrite (py_getitem_map ax_stride axes i a Ha). cbn [mbind result_bind].
      rewrite List.Forall_forall in Hok.
      assert (Hin : In a axes) by (apply list_elem_of_In, list_elem_of_lookup; eauto).
      destruct (Hok a Hin) as (_ & _ & Hs & _ & _ & _ & Hq & _ & Hsign & Hsize).
      rewrite (int_truediv_plus1_exact _ _ Hs Hsign Hsize), Hq. reflexivity. }
    cbn [mbind result_bind].
    change (itertools_product (py_range n :: py_range c :: map py_range (map ax_out axes)))
      with (indices (n :: c :: map ax_out axes)).
    rewrite (result_fold_raise _ ValueError); [reflexivity | | |].
    + intros y' pos Hpos _.
      rewrite (pool_step_reduction x n c axes "MAX" y' pos Hsh Hok Hpos).
      unfold reduction.
      rewrite bool_decide_eq_false_2 by discriminate.
      rewrite bool_decide_eq_true_2 by reflexivity.
      destruct (discard_sentinels _) as [|v l]; [right; reflexivity|].
      left. eexists. reflexivity.
    + intros pos Hpos. cbn [shape]. apply np_index_id, In_indices, Hpos.
    + exists p. split; [exact Hp|]. intros y'.
      rewrite (pool_step_reduction x n c axes "MAX" y' p Hsh Hok Hp).
      fold (windows p). rewrite Hempty. reflexivity.
  - intros Hne.
    destruct (py_pool_correct x n c axes "MAX" Hsh Hfl Hn Hc Hok) as (y & Hy & _).
    + right. split; [reflexivity | exact Hne].
    + exists y. exact Hy.
Qed.

(** ** The output lengths of the pooling fallback *)

Lemma result_map_raise {A B} (f : A -> result B) (e : exn) (l : list A) :
  (forall a, In a l -> (exists b, f a = Ok b) \/ f a = Raise e) ->
  (exists a, In a l /\ f a = Raise e) ->
  result_map f l = Raise e.
Proof.
  induction l as [|a l IH]; intros Hall (a0 & Ha0 & Hf).
  - destruct Ha0.
  - cbn [result_map].
    destruct (Hall a ltac:(left; reflexivity)) as [[b Hb] | Hr].
    + rewrite Hb. cbn [mbind result_bind]. rewrite IH; [reflexivity| |].
      * intros a' Ha'. apply Hall. right. exact Ha'.
      * destruct Ha0 as [<- | Ha0]; [rewrite Hf in Hb; discriminate|].
        exists a0. split; assumption.
    + rewrite Hr. reflexivity.
Qed.

Lemma ceil_div_bounds (a s : Z) :
  0 < s -> (- ((- a) / s) - 1) * s < a <= - ((- a) / s) * s.
Proof.
  intros Hs.
  pose proof (Z.div_mod (- a) s ltac:(lia)) as E.
  pose proof (Z.mod_pos_bound (- a) s Hs) as B. nia.
Qed.

(** X11: what [_get_output_shape] computes.  With positive strides and all
    sizes below [2^53], where the doubles it computes with are exact, the
    explicit modes ("" and "VALID") give on each axis the number of window
    positions [p >= 0] whose window [stride * p, stride * p + kernel) fits
    into the axis; the SAME modes give the ceiling of length / stride,
    whatever the kernel is. *)
Theorem get_output_shape_counts_windows (l : list (Z * Z * Z)) :
  Forall (fun t => 0 < dks_stride t < 2 ^ 53 /\ Z.abs (dks_dim t) < 2 ^ 53 /\
                   Z.abs (dks_dim t - (dks_kernel t - 1)) < 2 ^ 53) l ->
  exists valid same,
    _get_output_shape "" (map dks_dim l) (map dks_kernel l) (map dks_stride l) = Ok valid /\
    _get_output_shape "VALID" (map dks_dim l) (map dks_kernel l) (map dks_stride l)
    = Ok valid /\
    _get_output_shape "SAME_UPPER" (map dks_dim l) (map dks_kernel l) (map dks_stride l)
    = Ok same /\
    _get_output_shape "SAME_LOWER" (map dks_dim l) (map dks_kernel l) (map dks_stride l)
    = Ok same /\
    Forall2 (fun t o => forall p, 0 <= p ->
               (p < o <-> dks_stride t * p + dks_kernel t <= dks_dim t)) l valid /\
    Forall2 (fun t o => (o - 1) * dks_stride t < dks_dim t <= o * dks_stride t) l same.
Proof.
  intros Hs.
  exists (map (fun t => - ((- (dks_dim t - (dks_kernel t - 1))) / dks_stride t)) l),
         (map (fun t => - ((- dks_dim t) / dks_stride t)) l).
  assert (Hlen : zlen (map dks_dim l) = zlen l) by (unfold zlen; rewrite length_map; reflexivity).
  assert (Hvalid : forall i t, l !! i = Some t ->
            (py_getitem (map dks_dim l) (Z.of_nat i) ≫= fun x =>
             py_getitem (map dks_kernel l) (Z.of_nat i) ≫= fun k =>
             py_getitem (map dks_stride l) (Z.of_nat i) ≫= fun s =>
             ceil_div (x - (k - 1)) s)
            = Ok (- ((- (dks_dim t - (dks_kernel t - 1))) / dks_stride t))).
  { intros i t Ht.
    rewrite (py_getitem_map dks_dim l i t Ht). cbn [mbind result_bind].
    rewrite (py_getitem_map dks_kernel l i t Ht). cbn [mbind result_bind].
    rewrite (py_getitem_map dks_stride l i t Ht). cbn [mbind result_bind].
    rewrite List.Forall_forall in Hs.
    assert (Hin : In t l) by (apply list_elem_of_In, list_elem_of_lookup; eauto).
    destruct (Hs t Hin) as (Hst & Hd & Hdk).
    apply ceil_div_exact; assumption. }
  assert (Hsame : forall i t, l !! i = Some t ->
            (py_getitem (map dks_dim l) (Z.of_nat i) ≫= fun x =>
             py_getitem (map dks_stride l) (Z.of_nat i) ≫= fun s =>
             ceil_div x s)
            = Ok (- ((- dks_dim t) / dks_stride t))).
  { intros i t Ht.
    rewrite (py_getitem_map dks_dim l i t Ht). cbn [mbind result_bind].
    rewrite (py_getitem_map dks_stride l i t Ht). cbn [mbind result_bind].
    rewrite List.Forall_forall in Hs.
    assert (Hin : In t l) by (apply list_elem_of_In, list_elem_of_lookup; eauto).
    destruct (Hs t Hin) as (Hst & Hd & Hdk).
    apply ceil_div_exact; assumption. }
  repeat apply conj.
  - unfold _get_output_shape. cbn [bool_decide orb]. rewrite Hlen.
    change (bool_decide ("" = "SAME_UPPER") || bool_decide ("" = "SAME_LOWER")) with false.
    change (bool_decide ("" = "VALID") || bool_decide ("" = "")) with true.
    cbv iota. apply result_map_range. exact Hvalid.
  - unfold _get_output_shape. rewrite Hlen.
    change (bool_decide ("VALID" = "SAME_UPPER") || bool_decide ("VALID" = "SAME_LOWER"))
      with false.
    change (bool_decide ("VALID" = "VALID") || bool_decide ("VALID" = "")) with true.
    cbv iota. apply result_map_range. exact Hvalid.
  - unfold _get_output_shape. rewrite Hlen.
    change (bool_decide ("SAME_UPPER" = "SAME_UPPER")
            || bool_decide ("SAME_UPPER" = "SAME_LOWER")) with true.
    cbv iota. apply result_map_range. exact Hsame.
  - unfold _get_output_shape. rewrite Hlen.
    change (bool_decide ("SAME_LOWER" = "SAME_UPPER")
            || bool_decide ("SAME_LOWER" = "SAME_LOWER")) with true.
    cbv iota. apply result_map_range. exact Hsame.
  - apply Forall2_fmap_r, Forall_Forall2_diag.
    eapply List.Forall_impl; [|exact Hs]. intros t [Ht _] p Hp. cbn beta.
    pose proof (ceil_div_bounds (dks_dim t - (dks_kernel t - 1)) (dks_stride t)
                  ltac:(lia)) as B.
    split; intros Hlt; nia.
  - apply Forall2_fmap_r, Forall_Forall2_diag.
    eapply List.Forall_impl; [|exact Hs]. intros t [Ht _]. cbn beta.
    apply (ceil_div_bounds (dks_dim t) (dks_stride t)). lia.
Qed.

Lemma result_map_raises {A B} (f : A -> result B) (P : exn -> Prop) (l : list A) :
  (forall a, In a l -> (exists b, f a = Ok b) \/ (exists e, f a = Raise e /\ P e)) ->
  (exists a, In a l /\ exists e, f a = Raise e /\ P e) ->
  exists e, result_map f l = Raise e /\ P e.
Proof.
  induction l as [|a l IH]; intros Hall (a0 & Ha0 & Hf).
  - destruct Ha0.
  - cbn [result_map].
    destruct (Hall a ltac:(left; reflexivity)) as [[b Hb] | (e & Hr & He)].
    + rewrite Hb. cbn [mbind result_bind].
      destruct IH as (e & Hr & He).
      * intros a' Ha'. apply Hall. right. exact Ha'.
      * destruct Ha0 as [<- | Ha0].
        -- destruct Hf as (e & Hr & _). rewrite Hr in Hb. discriminate.
        -- exists a0. split; assumption.
      * exists e. rewrite Hr. split; [reflexivity | exact He].
    + exists e. rewrite Hr. split; [reflexivity | exact He].
Qed.

(** [ceil_div] raises nothing but ZeroDivisionError and OverflowError, and
    one of them when the divisor is zero. *)
Lemma ceil_div_outcome (a b : Z) :
  (exists v, ceil_div a b = Ok v) \/
  (exists e, ceil_div a b = Raise e /\ (e = ZeroDivisionError \/ e = OverflowError)).
Proof.
  unfold ceil_div, py_float.
  destruct (round64 (inject_Z a)) as [x|]; cbn [mbind result_bind];
    [|right; eexists; split; [reflexivity | right; reflexivity]].
  destruct (round64 (inject_Z b)) as [y|]; cbn [mbind result_bind];
    [|right; eexists; split; [reflexivity | right; reflexivity]].
  destruct (Qeq_bool y 0); [right; eexists; split; [reflexivity | left; reflexivity]|].
  destruct (round64 (x / y)); [left; eexists; reflexivity|].
  right. eexists. split; [reflexivity | right; reflexivity].
Qed.

Lemma ceil_div_by_zero (a : Z) :
  exists e, ceil_div a 0 = Raise e /\ (e = ZeroDivisionError \/ e = OverflowError).
Proof.
  unfold ceil_div, py_float.
  destruct (round64 (inject_Z a)) as [x|]; cbn [mbind result_bind];
    [|eexists; split; [reflexivity | right; reflexivity]].
  change (round64 (inject_Z 0)) with (Some 0%Q). cbn [mbind result_bind].
  change (Qeq_bool 0 0) with true. cbv iota.
  eexists. split; [reflexivity | left; reflexivity].
Qed.

(** For sizes that convert to doubles exactly (below [2^53]) the failure of
    a zero stride is the division's. *)
Lemma get_output_shape_zero_stride_small (auto_pad : string) (l : list (Z * Z * Z)) :
  Forall (fun t => Z.abs (dks_stride t) < 2 ^ 53 /\ Z.abs (dks_dim t) < 2 ^ 53 /\
                   Z.abs (dks_dim t - (dks_kernel t - 1)) < 2 ^ 53) l ->
  (exists t, In t l /\ dks_stride t = 0) ->
  auto_pad = "" \/ auto_pad = "VALID" \/ auto_pad = "SAME_UPPER" \/ auto_pad = "SAME_LOWER" ->
  _get_output_shape auto_pad (map dks_dim l) (map dks_kernel l) (map dks_stride l)
  = Raise ZeroDivisionError.
Proof.
  intros Hsize (t0 & Ht0 & Hz) Hmode.
  rewrite List.Forall_forall in Hsize.
  assert (Hlen : zlen (map dks_dim l) = zlen l) by (unfold zlen; rewrite length_map; reflexivity).
  assert (Ht0' := Ht0).
  apply list_elem_of_In, list_elem_of_lookup in Ht0 as [i0 Hi0].
  pose proof (lookup_lt_Some _ _ _ Hi0) as Hlt0.
  assert (Hin0 : In (Z.of_nat i0) (py_range (zlen l))).
  { apply In_py_range. unfold zlen. lia. }
  assert (Hget : forall i, In i (py_range (zlen l)) ->
            exists t, l !! Z.to_nat i = Some t /\ Z.of_nat (Z.to_nat i) = i).
  { intros i Hi. apply In_py_range in Hi. unfold zlen in Hi.
    destruct (lookup_lt_is_Some_2 l (Z.to_nat i) ltac:(lia)) as [t Ht].
    exists t. split; [exact Ht | lia]. }
  assert (Hstep : forall t x, In t l -> Z.abs x < 2 ^ 53 ->
            (exists b, ceil_div x (dks_stride t) = Ok b) \/
            ceil_div x (dks_stride t) = Raise ZeroDivisionError).
  { intros t x Ht Hx. destruct (Hsize t Ht) as (Hs & _).
    destruct (Z.eq_dec (dks_stride t) 0) as [E | E].
    - right. rewrite E. apply ceil_div_zero. exact Hx.
    - left. apply ceil_div_value; assumption. }
  unfold _get_output_shape. rewrite Hlen.
  destruct Hmode as [-> | [-> | [-> | ->]]].
  all: match goal with
       | |- context [bool_decide (?a = "SAME_UPPER") || bool_decide (?a = "SAME_LOWER")] =>
           let b := eval vm_compute in
             (bool_decide (a = "SAME_UPPER") || bool_decide (a = "SAME_LOWER")) in
           change (bool_decide (a = "SAME_UPPER") || bool_decide (a = "SAME_LOWER")) with b
       end; cbv iota.
  all: try match goal with
       | |- context [bool_decide (?a = "VALID") || bool_decide (?a = "")] =>
           let b := eval vm_compute in (bool_decide (a = "VALID") || bool_decide (a = "")) in
           change (bool_decide (a = "VALID") || bool_decide (a = "")) with b
       end; cbv iota.
  all: apply result_map_raise.
  all: try (intros i Hi; destruct (Hget i Hi) as (t & Ht & Ei); rewrite <- Ei;
            assert (Hin : In t l) by (apply list_elem_of_In, list_elem_of_lookup; eauto);
            destruct (Hsize t Hin) as (_ & Hd & Hdk);
            rewrite (py_getitem_map dks_dim l _ t Ht); cbn [mbind result_bind];
            try (rewrite (py_getitem_map dks_kernel l _ t Ht); cbn [mbind result_bind]);
            rewrite (py_getitem_map dks_stride l _ t Ht); cbn [mbind result_bind];
            apply Hstep; assumption).
  all: exists (Z.of_nat i0); split; [exact Hin0|];
       destruct (Hsize t0 Ht0') as (_ & Hd & Hdk);
       rewrite (py_getitem_map dks_dim l _ t0 Hi0); cbn [mbind result_bind];
       try (rewrite (py_getitem_map dks_kernel l _ t0 Hi0); cbn [mbind result_bind]);
       rewrite (py_getitem_map dks_stride l _ t0 Hi0); cbn [mbind result_bind];
       rewrite Hz; apply ceil_div_zero; assumption.
Qed.


(** X12: a zero stride on any axis makes [_get_output_shape] fail in each of
    its four modes: with ZeroDivisionError when the sizes convert to doubles
    exactly (below [2^53]), and with ZeroDivisionError or with the
    OverflowError of [float(...)] whatever the sizes are. *)
Theorem get_output_shape_zero_stride (auto_pad : string) (l : list (Z * Z * Z)) :
  (exists t, In t l /\ dks_stride t = 0) ->
  auto_pad = "" \/ auto_pad = "VALID" \/ auto_pad = "SAME_UPPER" \/ auto_pad = "SAME_LOWER" ->
  (exists e,
     _get_output_shape auto_pad (map dks_dim l) (map dks_kernel l) (map dks_stride l)
     = Raise e /\ (e = ZeroDivisionError \/ e = OverflowError)) /\
  (Forall (fun t => Z.abs (dks_stride t) < 2 ^ 53 /\ Z.abs (dks_dim t) < 2 ^ 53 /\
                    Z.abs (dks_dim t - (dks_kernel t - 1)) < 2 ^ 53) l ->
   _get_output_shape auto_pad (map dks_dim l) (map dks_kernel l) (map dks_stride l)
   = Raise ZeroDivisionError).
Proof.
  intros Hzero Hmode.
  split; [|intros Hsize; apply get_output_shape_zero_stride_small; assumption].
  destruct Hzero as (t0 & Ht0 & Hz).
  assert (Hlen : zlen (map dks_dim l) = zlen l) by (unfold zlen; rewrite length_map; reflexivity).
  apply list_elem_of_In, list_elem_of_lookup in Ht0 as [i0 Hi0].
  pose proof (lookup_lt_Some _ _ _ Hi0) as Hlt0.
  assert (Hin0 : In (Z.of_nat i0) (py_range (zlen l))).
  { apply In_py_range. unfold zlen. lia. }
  assert (Hget : forall i, In i (py_range (zlen l)) ->
            exists t, l !! Z.to_nat i = Some t /\ Z.of_nat (Z.to_nat i) = i).
  { intros i Hi. apply In_py_range in Hi. unfold zlen in Hi.
    destruct (lookup_lt_is_Some_2 l (Z.to_nat i) ltac:(lia)) as [t Ht].
    exists t. split; [exact Ht | lia]. }
  unfold _get_output_shape. rewrite Hlen.
  destruct Hmode as [-> | [-> | [-> | ->]]].
  all: match goal with
       | |- context [bool_decide (?a = "SAME_UPPER") || bool_decide (?a = "SAME_LOWER")] =>
           let b := eval vm_compute in
             (bool_decide (a = "SAME_UPPER") || bool_decide (a = "SAME_LOWER")) in
           change (bool_decide (a = "SAME_UPPER") || bool_decide (a = "SAME_LOWER")) with b
       end; cbv iota.
  all: try match goal with
       | |- context [bool_decide (?a = "VALID") || bool_decide (?a = "")] =>
           let b := eval vm_compute in (bool_decide (a = "VALID") || bool_decide (a = "")) in
           change (bool_decide (a = "VALID") || bool_decide (a = "")) with b
       end; cbv iota.
  all: apply result_map_raises.
  all: try (intros i Hi; destruct (Hget i Hi) as (t & Ht & Ei); rewrite <- Ei;
            rewrite (py_getitem_map dks_dim l _ t Ht); cbn [mbind result_bind];
            try (rewrite (py_getitem_map dks_kernel l _ t Ht); cbn [mbind result_bind]);
            rewrite (py_getitem_map dks_stride l _ t Ht); cbn [mbind result_bind];
            apply ceil_div_outcome).
  all: exists (Z.of_nat i0); split; [exact Hin0|];
       rewrite (py_getitem_map dks_dim l _ t0 Hi0); cbn [mbind result_bind];
       try (rewrite (py_getitem_map dks_kernel l _ t0 Hi0); cbn [mbind result_bind]);
       rewrite (py_getitem_map dks_stride l _ t0 Hi0); cbn [mbind result_bind];
       rewrite Hz; apply ceil_div_by_zero.
Qed.

(** A length that does not fit a double fails in [float(...)] before the
    stride is looked at. *)
Lemma get_output_shape_huge_length :
  _get_output_shape "SAME_UPPER" [2 ^ 1024] [1] [0] = Raise OverflowError.
Proof. vm_compute. reflexivity. Qed.

(** ** Flatten *)

Lemma ravel_from (sh idx : list Z) (acc : Z) :
  length idx = length sh ->
  foldl (fun acc di => acc * di.1 + di.2) acc (zip sh idx)
  = acc * reduce_prod sh + ravel sh idx.
Proof.
  unfold ravel. revert idx acc.
  induction sh as [|d sh IH]; intros idx acc Hlen.
  - cbn. unfold reduce_prod. cbn. lia.
  - destruct idx as [|i idx]; [discriminate|].
    cbn [zip zip_with foldl fst snd].
    rewrite (IH idx (acc * d + i)) by (cbn in Hlen; lia).
    rewrite (IH idx (0 * d + i)) by (cbn in Hlen; lia).
    unfold reduce_prod. cbn [foldr]. fold (reduce_prod sh). lia.
Qed.

Lemma ravel_app (sh1 sh2 idx1 idx2 : list Z) :
  length idx1 = length sh1 -> length idx2 = length sh2 ->
  ravel (sh1 ++ sh2) (idx1 ++ idx2) = ravel sh1 idx1 * reduce_prod sh2 + ravel sh2 idx2.
Proof.
  intros H1 H2. unfold ravel at 1.
  rewrite zip_with_app by (symmetry; exact H1).
  rewrite foldl_app. fold (ravel sh1 idx1).
  apply ravel_from. exact H2.
Qed.

Lemma ravel_bound (sh idx : list Z) :
  Forall2 (fun i d => 0 <= i < d) idx sh -> 0 <= ravel sh idx < reduce_prod sh.
Proof.
  induction 1 as [|i d idx sh Hi Hf IH].
  - unfold ravel, reduce_prod. cbn. lia.
  - unfold ravel. cbn [zip zip_with foldl fst snd].
    rewrite ravel_from by (eapply Forall2_length; exact Hf).
    unfold reduce_prod. cbn [foldr]. fold (reduce_prod sh). nia.
Qed.

Lemma unravel_ravel (sh idx : list Z) :
  Forall2 (fun i d => 0 <= i < d) idx sh -> unravel sh (ravel sh idx) = idx.
Proof.
  induction 1 as [|i d idx sh Hi Hf IH]; [reflexivity|].
  pose proof (ravel_bound sh idx Hf) as Hb.
  assert (E : ravel (d :: sh) (i :: idx) = i * reduce_prod sh + ravel sh idx).
  { unfold ravel at 1. cbn [zip zip_with foldl fst snd].
    rewrite ravel_from by (eapply Forall2_length; exact Hf). lia. }
  rewrite E. cbn [unravel].
  assert (Hq : (i * reduce_prod sh + ravel sh idx) / reduce_prod sh = i).
  { rewrite Z.div_add_l by lia. rewrite Z.div_small by lia. lia. }
  assert (Hr : (i * reduce_prod sh + ravel sh idx) mod reduce_prod sh = ravel sh idx).
  { rewrite (Z.add_comm (i * reduce_prod sh)), Z.mod_add by lia.
    apply Z.mod_small. lia. }
  rewrite Hq, Hr, IH. reflexivity.
Qed.

(** X13: Flatten keeps the row-major order.  For an axis between 0 and the
    rank (1 when the attribute is absent), [handle_flatten] returns a matrix
    whose two lengths are the products of the dimensions before and from
    [axis] on, and the element of the input at [idx] is found at row
    [ravel] of the leading part of [idx] and column [ravel] of the rest. *)
Theorem flatten_row_major (n : node F) (d : gmap string (tensor F)) (i0 : string)
    (x : tensor F) (a : Z) :
  inputs n !! 0%nat = Some i0 ->
  d !! i0 = Some x ->
  attrs n !! "axis" = Some (AInt a) \/ (attrs n !! "axis" = None /\ a = 1) ->
  0 <= a <= rank x ->
  let lead := take (Z.to_nat a) (shape x) in
  let trail := drop (Z.to_nat a) (shape x) in
  exists y,
    call handle_flatten n d = (Ok [y], PyState n d []) /\
    shape y = [reduce_prod lead; reduce_prod trail] /\
    forall idx, In idx (indices (shape x)) ->
      let i := ravel lead (take (Z.to_nat a) idx) in
      let j := ravel trail (drop (Z.to_nat a) idx) in
      0 <= i < reduce_prod lead /\ 0 <= j < reduce_prod trail /\
      item y [i; j] = item x idx.
Proof.
  intros Hi Hx Hax Ha lead trail.
  assert (Hsplit : tf_split_sizes (shape x) a (zlen (shape x) - a) = Ok (lead, trail)).
  { unfold tf_split_sizes, rank in *.
    replace (a =? -1) with false by (symmetry; apply Z.eqb_neq; lia).
    cbn [andb].
    destruct (zlen (shape x) - a =? -1) eqn:E; [apply Z.eqb_eq in E; lia|].
    replace (0 <=? a) with true by (symmetry; apply Z.leb_le; lia).
    replace (0 <=? zlen (shape x) - a) with true by (symmetry; apply Z.leb_le; lia).
    replace (a + (zlen (shape x) - a) =? zlen (shape x)) with true
      by (symmetry; apply Z.eqb_eq; lia).
    reflexivity. }
  assert (Hprod : reduce_prod [reduce_prod lead; reduce_prod trail] = reduce_prod (shape x)).
  { transitivity (reduce_prod (lead ++ trail));
      [|unfold lead, trail; rewrite take_drop; reflexivity].
    rewrite reduce_prod_app. unfold reduce_prod at 1. cbn [foldr]. lia. }
  exists (reshaped x [reduce_prod lead; reduce_prod trail]).
  split; [|split; [reflexivity|]].
  - unfold call, handle_flatten.
    erewrite bind_Ok by (apply node_input_0; exact Hi).
    erewrite bind_Ok by (apply input_dict_getitem_Some; exact Hx).
    erewrite bind_Ok by (unfold attrs_contains; reflexivity).
    cbn [st_node].
    erewrite (bind_Ok _ _ _ a); cycle 1.
    { destruct Hax as [Hax | [Hax ->]]; rewrite Hax.
      - rewrite bool_decide_eq_true_2 by eauto.
        erewrite bind_Ok by (apply attrs_getitem_Some; exact Hax). reflexivity.
      - rewrite bool_decide_eq_false_2 by (intros [? ?]; discriminate). reflexivity. }
    erewrite bind_Ok by (unfold lift; rewrite Hsplit; reflexivity).
    cbv beta iota.
    erewrite bind_Ok; [reflexivity|].
    unfold lift, tf_reshape. fold lead trail. rewrite Hprod, Z.eqb_refl. reflexivity.
  - intros idx Hidx i j.
    apply In_indices in Hidx.
    assert (Hlead : Forall2 (fun i d => 0 <= i < d) (take (Z.to_nat a) idx) lead)
      by (apply Forall2_take; exact Hidx).
    assert (Htrail : Forall2 (fun i d => 0 <= i < d) (drop (Z.to_nat a) idx) trail)
      by (apply Forall2_drop; exact Hidx).
    pose proof (ravel_bound _ _ Hlead) as Bi. pose proof (ravel_bound _ _ Htrail) as Bj.
    split; [exact Bi|]. split; [exact Bj|].
    unfold reshaped. cbn [item].
    assert (E : ravel [reduce_prod lead; reduce_prod trail] [i; j] = ravel (shape x) idx).
    { transitivity (ravel (lead ++ trail)
                      (take (Z.to_nat a) idx ++ drop (Z.to_nat a) idx));
        [|unfold lead, trail; rewrite !take_drop; reflexivity].
      rewrite ravel_app by (eapply Forall2_length; eassumption).
      unfold ravel at 1. cbn [zip zip_with foldl fst snd]. fold i j. lia. }
    rewrite E, unravel_ravel by exact Hidx. reflexivity.
Qed.

(** X14: [handle_flatten] takes no axis outside 0..rank: a negative axis is
    not counted from the back, and the split of the shape is rejected. *)
Theorem flatten_axis_out_of_range (n : node F) (d : gmap string (tensor F)) (i0 : string)
    (x : tensor F) (a : Z) :
  inputs n !! 0%nat = Some i0 ->
  d !! i0 = Some x ->
  attrs n !! "axis" = Some (AInt a) \/ (attrs n !! "axis" = None /\ a = 1) ->
  a < 0 \/ rank x < a ->
  call handle_flatten n d = (Raise ValueError, PyState n d []).
Proof.
  intros Hi Hx Hax Ha.
  assert (Hsplit : tf_split_sizes (shape x) a (zlen (shape x) - a) = Raise ValueError).
  { unfold tf_split_sizes, rank in *.
    assert (Hz : 0 <= zlen (shape x)) by (unfold zlen; lia).
    destruct (a =? -1) eqn:E1; destruct (zlen (shape x) - a =? -1) eqn:E2; cbn [andb];
      try reflexivity.
    - apply Z.eqb_eq in E1.
      replace (0 <=? zlen (shape x) - (zlen (shape x) - a)) with false
        by (symmetry; apply Z.leb_gt; lia).
      reflexivity.
    - apply Z.eqb_eq in E2.
      replace (a + (zlen (shape x) - a) =? zlen (shape x)) with true
        by (symmetry; apply Z.eqb_eq; lia).
      replace (0 <=? zlen (shape x) - a) with false by (symmetry; apply Z.leb_gt; lia).
      rewrite andb_false_r. reflexivity.
    - apply Z.eqb_neq in E1, E2.
      destruct Ha as [Ha | Ha].
      + replace (0 <=? a) with false by (symmetry; apply Z.leb_gt; lia). reflexivity.
      + replace (0 <=? zlen (shape x) - a) with false by (symmetry; apply Z.leb_gt; lia).
        rewrite andb_false_r. reflexivity. }
  unfold call, handle_flatten.
  erewrite bind_Ok by (apply node_input_0; exact Hi).
  erewrite bind_Ok by (apply input_dict_getitem_Some; exact Hx).
  erewrite bind_Ok by (unfold attrs_contains; reflexivity).
  cbn [st_node].
  erewrite (bind_Ok _ _ _ a); cycle 1.
  { destruct Hax as [Hax | [Hax ->]]; rewrite Hax.
    - rewrite bool_decide_eq_true_2 by eauto.
      erewrite bind_Ok by (apply attrs_getitem_Some; exact Hax). reflexivity.
    - rewrite bool_decide_eq_false_2 by (intros [? ?]; discriminate). reflexivity. }
  erewrite bind_Raise; [reflexivity|].
  unfold lift. rewrite Hsplit. reflexivity.
Qed.

(** ** Unsqueeze *)

Lemma sorted_insert_Permutation (a : Z) (l : list Z) : sorted_insert a l ≡ₚ a :: l.
Proof.
  induction l as [|b l IH]; cbn [sorted_insert]; [reflexivity|].
  destruct (a <=? b); [reflexivity|].
  rewrite IH. apply Permutation_swap.
Qed.

Lemma sorted_Permutation (l : list Z) : sorted l ≡ₚ l.
Proof.
  unfold sorted. induction l as [|a l IH]; cbn [foldr]; [reflexivity|].
  rewrite sorted_insert_Permutation, IH. reflexivity.
Qed.

Lemma sorted_insert_ascending (a : Z) (l : list Z) :
  StronglySorted Z.le l -> StronglySorted Z.le (sorted_insert a l).
Proof.
  induction 1 as [|b l Hs IH Hb]; cbn [sorted_insert].
  - repeat constructor.
  - destruct (a <=? b) eqn:E.
    + apply Z.leb_le in E. constructor; [constructor; assumption|].
      constructor; [exact E|].
      eapply List.Forall_impl; [|exact Hb]. intros c Hc. cbn in Hc. lia.
    + apply Z.leb_gt in E. constructor; [exact IH|].
      rewrite sorted_insert_Permutation. constructor; [lia | exact Hb].
Qed.

Lemma sorted_ascending (l : list Z) : StronglySorted Z.le (sorted l).
Proof.
  unfold sorted. induction l as [|a l IH]; cbn [foldr]; [constructor|].
  apply sorted_insert_ascending. exact IH.
Qed.

Lemma ascending_NoDup (l : list Z) :
  StronglySorted Z.le l -> NoDup l -> StronglySorted Z.lt l.
Proof.
  induction 1 as [|a l Hs IH Ha]; intros Hnd; [constructor|].
  apply NoDup_cons in Hnd as [Hnot Hnd].
  constructor; [apply IH; exact Hnd|].
  rewrite List.Forall_forall in Ha. apply List.Forall_forall. intros b Hb.
  specialize (Ha b Hb).
  assert (a <> b) by (intros ->; apply Hnot, list_elem_of_In; exact Hb). lia.
Qed.

Lemma increasing_bound (l : list Z) (m : Z) :
  StronglySorted Z.lt l -> Forall (fun a => a < m) l ->
  forall (j : nat) (a : Z), l !! j = Some a -> a + Z.of_nat (length l - j) <= m.
Proof.
  induction 1 as [|x l Hs IH Hx]; intros Hm j a Hj; [discriminate|].
  apply Forall_cons in Hm as [Hxm Hm].
  destruct j as [|j].
  - cbn in Hj. inversion Hj; subst a. cbn [length].
    destruct l as [|y l']; [cbn; lia|].
    specialize (IH Hm 0%nat y eq_refl).
    apply Forall_cons in Hx as [Hxy _]. cbn [length] in *. lia.
  - cbn in Hj. specialize (IH Hm j a Hj). cbn [length]. lia.
Qed.

Lemma lookup_insert_at {A} (k : Z) (v : A) (l : list A) (p : nat) :
  0 <= k <= zlen l ->
  insert_at k v l !! p
  = if decide (p < Z.to_nat k)%nat then l !! p
    else if decide (p = Z.to_nat k) then Some v else l !! (p - 1)%nat.
Proof.
  intros Hk. unfold insert_at, py_upto, py_from, zlen in *.
  assert (Hlen : length (take (Z.to_nat k) l) = Z.to_nat k)
    by (rewrite length_take; lia).
  destruct (decide (p < Z.to_nat k)%nat) as [Hlt | Hge].
  - rewrite lookup_app_l by lia. apply lookup_take_lt. exact Hlt.
  - rewrite lookup_app_r by lia. rewrite Hlen.
    destruct (decide (p = Z.to_nat k)) as [-> | Hne].
    + rewrite Nat.sub_diag. reflexivity.
    + destruct (p - Z.to_nat k)%nat as [|q] eqn:E; [lia|].
      change ((v :: drop (Z.to_nat k) l) !! S q) with (drop (Z.to_nat k) l !! q).
      rewrite lookup_drop. f_equal. lia.
Qed.

Lemma length_insert_at {A} (k : Z) (v : A) (l : list A) :
  0 <= k <= zlen l -> length (insert_at k v l) = S (length l).
Proof.
  intros Hk. unfold insert_at, py_upto, py_from, zlen in *.
  rewrite length_app, length_take. cbn [length]. rewrite length_drop. lia.
Qed.

Lemma filter_below_all (q : Z) (l : list Z) :
  (forall b, b ∈ l -> b < q) -> filter (fun b => b < q) l = l.
Proof.
  induction l as [|b l IH]; intros Hall; [reflexivity|].
  rewrite filter_cons_True by (apply Hall; left).
  rewrite IH; [reflexivity|]. intros c Hc. apply Hall. right. exact Hc.
Qed.

Lemma expand_shape_lookup (sh l : list Z) :
  StronglySorted Z.lt l ->
  Forall (fun a => 0 <= a) l ->
  (forall (j : nat) (a : Z), l !! j = Some a -> a <= zlen sh + Z.of_nat j) ->
  let sh' := foldl (fun s a => insert_at a 1 s) sh l in
  length sh' = (length sh + length l)%nat /\
  forall p : nat,
    sh' !! p = if decide (Z.of_nat p ∈ l) then Some 1
               else sh !! (p - length (filter (fun a => (a < Z.of_nat p)%Z) l))%nat.
Proof.
  induction l as [|a l IH] using rev_ind; intros Hs Hnn Hb sh'.
  - subst sh'. cbn [foldl length]. split; [lia|]. intros p.
    rewrite decide_False by (apply not_elem_of_nil).
    rewrite filter_nil. cbn [length]. f_equal. lia.
  - pose proof (StronglySorted_app_1_l _ _ _ Hs) as Hs'.
    assert (Hlt : forall b, b ∈ l -> b < a).
    { intros b Hbl. eapply (StronglySorted_app_1_elem_of Z.lt); [exact Hs | exact Hbl|].
      apply list_elem_of_singleton. reflexivity. }
    apply Forall_app in Hnn as [Hnn Ha]. apply List.Forall_inv in Ha.
    destruct (IH Hs' Hnn) as [Hlen Hlook].
    { intros j b Hj. apply Hb. rewrite lookup_app_l; [exact Hj|].
      eapply lookup_lt_Some. exact Hj. }
    set (E := foldl (fun s a => insert_at a 1 s) sh l) in *.
    assert (HaE : 0 <= a <= zlen E).
    { split; [exact Ha|]. unfold zlen. rewrite Hlen.
      specialize (Hb (length l) a). rewrite lookup_app_r in Hb by lia.
      rewrite Nat.sub_diag in Hb. specialize (Hb eq_refl). unfold zlen in Hb. lia. }
    subst sh'. rewrite foldl_app. cbn [foldl]. fold E.
    split; [rewrite length_insert_at by exact HaE; rewrite length_app; cbn [length]; lia|].
    intros p. rewrite lookup_insert_at by exact HaE.
    assert (Hfilter_all : forall q : Z, a <= q -> filter (fun b => b < q) l = l).
    { intros q Hq. apply filter_below_all. intros b Hbl. specialize (Hlt b Hbl). lia. }
    destruct (decide (p < Z.to_nat a)%nat) as [Hpa | Hpa].
    + rewrite Hlook.
      rewrite filter_app, length_app.
      rewrite (filter_singleton_False (fun b => b < Z.of_nat p) a) by (exact [] || lia).
      cbn [length]. rewrite Nat.add_0_r.
      destruct (decide (Z.of_nat p ∈ l)) as [Hin | Hnin].
      * rewrite decide_True by (apply elem_of_app; left; exact Hin). reflexivity.
      * rewrite decide_False; [reflexivity|].
        intros Hin. apply elem_of_app in Hin as [Hin | Hin]; [contradiction|].
        apply list_elem_of_singleton in Hin. lia.
    + destruct (decide (p = Z.to_nat a)) as [-> | Hne].
      * rewrite decide_True; [reflexivity|].
        apply elem_of_app. right. apply list_elem_of_singleton. lia.
      * assert (Hgt : a < Z.of_nat p) by lia.
        rewrite Hlook.
        rewrite decide_False; cycle 1.
        { intros Hin. specialize (Hlt _ Hin). lia. }
        rewrite decide_False; cycle 1.
        { intros Hin. apply elem_of_app in Hin as [Hin | Hin].
          - specialize (Hlt _ Hin). lia.
          - apply list_elem_of_singleton in Hin. lia. }
        rewrite (Hfilter_all (Z.of_nat (p - 1))) by lia.
        rewrite filter_app, length_app, (Hfilter_all (Z.of_nat p)) by lia.
        rewrite (filter_singleton_True (fun b => b < Z.of_nat p) a) by (exact [] || lia).
        cbn [length]. f_equal. lia.
Qed.

Lemma expand_dims_fold (l : list Z) (x : tensor F) :
  Forall (fun a => 0 <= a) l ->
  (forall (j : nat) (a : Z), l !! j = Some a -> a <= rank x + Z.of_nat j) ->
  exists y,
    result_fold tf_expand_dims l x = Ok y /\
    dtype_of y = dtype_of x /\
    shape y = foldl (fun s a => insert_at a 1 s) (shape x) l /\
    forall idx, item y idx = item x (foldr remove_at idx l).
Proof.
  revert x. induction l as [|a l IH]; intros x Hnn Hb.
  - exists x. repeat split; reflexivity.
  - apply Forall_cons in Hnn as [Ha Hnn].
    pose proof (Hb 0%nat a eq_refl) as Ha0.
    assert (Hstep : tf_expand_dims x a
                    = Ok (Tensor (dtype_of x) (insert_at a 1 (shape x))
                            (fun idx => item x (remove_at a idx)))).
    { unfold tf_expand_dims.
      replace (- rank x - 1 <=? a) with true
        by (symmetry; apply Z.leb_le; unfold rank, zlen in *; lia).
      replace (a <=? rank x) with true by (symmetry; apply Z.leb_le; lia).
      replace (a <? 0) with false by (symmetry; apply Z.ltb_ge; lia).
      reflexivity. }
    destruct (IH (Tensor (dtype_of x) (insert_at a 1 (shape x))
                    (fun idx => item x (remove_at a idx))) Hnn)
      as (y & Hy & Hdt & Hsh & Hit).
    { intros j b Hj. specialize (Hb (S j) b Hj).
      unfold rank in *. cbn [shape]. unfold zlen in *.
      rewrite length_insert_at by (unfold zlen; lia). lia. }
    exists y. cbn [result_fold]. rewrite Hstep. cbn [mbind result_bind].
    split; [exact Hy|]. split; [exact Hdt|]. split; [exact Hsh|].
    intros idx. rewrite Hit. reflexivity.
Qed.

(** X15: Unsqueeze with valid axes.  For distinct axes between 0 and the
    rank of the output, [handle_unsqueeze] succeeds whatever the order of the
    attribute is: the output has length 1 at every listed position, the
    other positions carry the dimensions of the input in their order, and
    the elements are those of the input. *)
Theorem unsqueeze_valid_axes (n : node F) (d : gmap string (tensor F)) (i0 : string)
    (x : tensor F) (axes : list Z) :
  inputs n !! 0%nat = Some i0 ->
  d !! i0 = Some x ->
  attrs n !! "axes" = Some (AInts axes) ->
  NoDup axes ->
  Forall (fun a => 0 <= a < rank x + zlen axes) axes ->
  exists y,
    call handle_unsqueeze n d = (Ok [y], PyState n d []) /\
    dtype_of y = dtype_of x /\
    rank y = rank x + zlen axes /\
    (forall p : nat,
       shape y !! p
       = if decide (Z.of_nat p ∈ axes) then Some 1
         else shape x !! (p - length (filter (fun a => (a < Z.of_nat p)%Z) axes))%nat) /\
    forall idx, item y idx = item x (foldr remove_at idx (sorted axes)).
Proof.
  intros Hi Hx Hax Hnd Hrange.
  pose proof (sorted_Permutation axes) as Hperm.
  assert (Hs : StronglySorted Z.lt (sorted axes)).
  { apply ascending_NoDup; [apply sorted_ascending|]. rewrite Hperm. exact Hnd. }
  assert (Hnn : Forall (fun a => 0 <= a) (sorted axes)).
  { rewrite Hperm. eapply List.Forall_impl; [|exact Hrange]. intros a Ha. cbn in Ha. lia. }
  assert (Hb : forall (j : nat) (a : Z),
             sorted axes !! j = Some a -> a <= rank x + Z.of_nat j).
  { intros j a Hj.
    pose proof (increasing_bound (sorted axes) (rank x + zlen axes) Hs) as Hinc.
    specialize (Hinc ltac:(rewrite Hperm; eapply List.Forall_impl; [|exact Hrange];
                           intros b Hb; cbn in Hb; lia) j a Hj).
    pose proof (lookup_lt_Some _ _ _ Hj) as Hlt.
    rewrite (Permutation_length Hperm) in Hinc, Hlt. unfold zlen in *. lia. }
  destruct (expand_dims_fold (sorted axes) x Hnn Hb) as (y & Hy & Hdt & Hsh & Hit).
  destruct (expand_shape_lookup (shape x) (sorted axes) Hs Hnn Hb) as [Hlen Hlook].
  exists y. split; [|split; [exact Hdt|split; [|split; [|exact Hit]]]].
  - unfold call, handle_unsqueeze.
    erewrite bind_Ok by (apply node_input_0; exact Hi).
    erewrite bind_Ok by (apply input_dict_getitem_Some; exact Hx).
    erewrite bind_Ok by (apply attrs_getitem_Some; exact Hax).
    erewrite bind_Ok by reflexivity.
    erewrite bind_Ok by (unfold lift; rewrite Hy; reflexivity).
    reflexivity.
  - unfold rank, zlen. rewrite Hsh, Hlen, (Permutation_length Hperm). lia.
  - intros p. rewrite Hsh, Hlook.
    destruct (decide (Z.of_nat p ∈ sorted axes)) as [Hin | Hnin].
    + rewrite decide_True by (rewrite <- Hperm; exact Hin). reflexivity.
    + rewrite decide_False by (rewrite <- Hperm; exact Hnin).
      rewrite (Permutation_length (filter_Permutation _ _ _ Hperm)). reflexivity.
Qed.

Lemma result_fold_snoc {A B} (f : B -> A -> result B) (l : list A) (a : A) (b : B) :
  result_fold f (l ++ [a]) b = (result_fold f l b ≫= fun b' => f b' a).
Proof.
  revert b. induction l as [|a0 l IH]; intros b; cbn [app result_fold].
  - cbn [mbind result_bind]. destruct (f b a); reflexivity.
  - destruct (f b a0) as [b'|e]; cbn [mbind result_bind]; [apply IH | reflexivity].
Qed.

Lemma expand_dims_rank (x : tensor F) (a : Z) :
  tf_expand_dims x a = Raise ValueError \/
  exists y, tf_expand_dims x a = Ok y /\ rank y = rank x + 1.
Proof.
  unfold tf_expand_dims.
  destruct (- rank x - 1 <=? a) eqn:E1; [|left; reflexivity].
  destruct (a <=? rank x) eqn:E2; [|left; reflexivity].
  cbn [andb]. right. eexists. split; [reflexivity|].
  apply Z.leb_le in E1, E2.
  unfold rank in *. cbn [shape]. unfold zlen in *.
  rewrite length_insert_at; [lia|].
  unfold zlen. destruct (a <? 0) eqn:E3; [apply Z.ltb_lt in E3 | apply Z.ltb_ge in E3]; lia.
Qed.

Lemma expand_dims_fold_rank (l : list Z) (x : tensor F) :
  result_fold tf_expand_dims l x = Raise ValueError \/
  exists y, result_fold tf_expand_dims l x = Ok y /\ rank y = rank x + zlen l.
Proof.
  revert x. induction l as [|a l IH]; intros x.
  - right. exists x. split; [reflexivity|]. unfold zlen. cbn. lia.
  - cbn [result_fold].
    destruct (expand_dims_rank x a) as [-> | (x1 & -> & Hr)]; [left; reflexivity|].
    cbn [mbind result_bind].
    destruct (IH x1) as [-> | (y & -> & Hy)]; [left; reflexivity|].
    right. exists y. split; [reflexivity|]. rewrite Hy, Hr. unfold zlen. cbn [length]. lia.
Qed.

(** X16: an axis at or beyond the rank of the output makes
    [handle_unsqueeze] fail: the axes are inserted in ascending order, and
    the largest one is rejected by [tf.expand_dims] if no earlier one was. *)
Theorem unsqueeze_axis_too_large (n : node F) (d : gmap string (tensor F)) (i0 : string)
    (x : tensor F) (axes : list Z) (a : Z) :
  inputs n !! 0%nat = Some i0 ->
  d !! i0 = Some x ->
  attrs n !! "axes" = Some (AInts axes) ->
  a ∈ axes ->
  rank x + zlen axes <= a ->
  call handle_unsqueeze n d = (Raise ValueError, PyState n d []).
Proof.
  intros Hi Hx Hax Hin Ha.
  pose proof (sorted_Permutation axes) as Hperm.
  pose proof (sorted_ascending axes) as Hs.
  assert (Hrun : result_fold tf_expand_dims (sorted axes) x = Raise ValueError).
  { rewrite <- Hperm in Hin.
    assert (Hlen : zlen (sorted axes) = zlen axes)
      by (unfold zlen; rewrite (Permutation_length Hperm); reflexivity).
    rewrite <- Hlen in Ha. clear Hlen Hperm.
    destruct (sorted axes) as [|m l] using rev_ind; [inversion Hin|].
    clear IHl.
    assert (Hm : a <= m).
    { apply elem_of_app in Hin as [Hin | Hin].
      - eapply (StronglySorted_app_1_elem_of Z.le); [exact Hs | exact Hin|].
        apply list_elem_of_singleton. reflexivity.
      - apply list_elem_of_singleton in Hin. lia. }
    rewrite result_fold_snoc.
    destruct (expand_dims_fold_rank l x) as [-> | (y & -> & Hy)]; [reflexivity|].
    cbn [mbind result_bind]. unfold tf_expand_dims.
    replace (m <=? rank y) with false; [rewrite andb_false_r; reflexivity|].
    symmetry. apply Z.leb_gt. unfold zlen in *. rewrite length_app in Ha.
    cbn [length] in Ha. lia. }
  unfold call, handle_unsqueeze.
  erewrite bind_Ok by (apply node_input_0; exact Hi).
  erewrite bind_Ok by (apply input_dict_getitem_Some; exact Hx).
  erewrite bind_Ok by (apply attrs_getitem_Some; exact Hax).
  erewrite bind_Ok by reflexivity.
  erewrite bind_Raise; [reflexivity|].
  unfold lift. rewrite Hrun. reflexivity.
Qed.

(** ** The SAME_LOWER branch of the pooling fallback *)







(** ** Softmax: a shift that keeps order and differences is not seen *)

Lemma foldl_f_max_In (l : list F) (v : F) : In (foldl f_max v l) (v :: l).
Proof.
  revert v. induction l as [|u l IH]; intros v; [left; reflexivity|].
  cbn [foldl]. destruct (IH (f_max v u)) as [E | Hin]; [|right; right; exact Hin].
  rewrite <- E. unfold f_max. destruct (f_ltb v u); [right; left | left]; reflexivity.
Qed.

Lemma f_max_In (u v : F) (l : list F) : In (f_max v u) (v :: u :: l).
Proof.
  unfold f_max. destruct (f_ltb v u); [right; left | left]; reflexivity.
Qed.

Lemma foldl_f_max_map (g : F -> F) (l : list F) (v : F) :
  (forall a b, In a (v :: l) -> In b (v :: l) -> f_ltb (g a) (g b) = f_ltb a b) ->
  foldl f_max (g v) (map g l) = g (foldl f_max v l).
Proof.
  revert v. induction l as [|u l IH]; intros v Hg; [reflexivity|].
  cbn [map foldl].
  assert (E : f_max (g v) (g u) = g (f_max v u)).
  { unfold f_max. rewrite Hg by (cbn; auto). destruct (f_ltb v u); reflexivity. }
  rewrite E. apply IH. intros a b Ha Hb.
  assert (Hsub : forall e, In e (f_max v u :: l) -> In e (v :: u :: l)).
  { intros e [<-|He]; [apply f_max_In | right; right; exact He]. }
  apply Hg; apply Hsub; assumption.
Qed.

Lemma max_or_lowest_In (l : list F) : l <> [] -> In (max_or_lowest l) l.
Proof.
  destruct l as [|v l]; [contradiction|]. intros _. apply foldl_f_max_In.
Qed.

(** Under a map that keeps order and differences, the distance of an element
    to the largest one stays what it was. *)
Lemma sub_max_shift (g : F -> F) (l : list F) :
  (forall a b, In a l -> In b l ->
     f_ltb (g a) (g b) = f_ltb a b /\ f_sub (g a) (g b) = f_sub a b) ->
  forall a, In a l ->
    f_sub (g a) (max_or_lowest (map g l)) = f_sub a (max_or_lowest l).
Proof.
  intros Hg a Ha. destruct l as [|v l]; [destruct Ha|].
  unfold max_or_lowest. cbn [map].
  rewrite foldl_f_max_map by (intros a' b' Ha' Hb'; apply Hg; assumption).
  apply Hg; [exact Ha | apply foldl_f_max_In].
Qed.

(** The row of an index, as [tf.nn.softmax] sees it, lies in the tensor and
    holds the index itself. *)
Lemma set_last_in_bounds (sh idx : list Z) (k : Z) :
  1 <= zlen sh ->
  Forall2 (fun i d => 0 <= i < d) idx sh ->
  In k (py_range (nth (Z.to_nat (zlen sh - 1)) sh 0)) ->
  Forall2 (fun i d => 0 <= i < d) (set_at (zlen idx - 1) k idx) sh.
Proof.
  intros Hr Hf Hk.
  pose proof (Forall2_length _ _ _ Hf) as Hlen.
  unfold set_at, zlen in *. rewrite Hlen.
  set (p := Z.to_nat (Z.of_nat (length sh) - 1)) in *.
  destruct (lookup_lt_is_Some_2 sh p ltac:(lia)) as [d Hd].
  rewrite nth_lookup, Hd in Hk. cbn [default] in Hk.
  apply In_py_range in Hk.
  rewrite <- (list_insert_id sh p d Hd).
  apply Forall2_insert; [exact Hf | exact Hk].
Qed.

Lemma softmax_row_in_bounds (x : tensor F) (idx j : list Z) :
  1 <= rank x ->
  In idx (indices (shape x)) ->
  In j (softmax_row x idx) ->
  In j (indices (shape x)).
Proof.
  intros Hr Hidx Hj. unfold softmax_row in Hj.
  apply in_map_iff in Hj. destruct Hj as (k & <- & Hk).
  apply In_indices. apply In_indices in Hidx.
  apply set_last_in_bounds; assumption.
Qed.

Lemma softmax_row_self (x : tensor F) (idx : list Z) :
  1 <= rank x ->
  In idx (indices (shape x)) ->
  In idx (softmax_row x idx).
Proof.
  intros Hr Hidx. apply In_indices in Hidx.
  pose proof (Forall2_length _ _ _ Hidx) as Hlen.
  unfold softmax_row, rank, zlen in *. rewrite Hlen.
  set (p := Z.to_nat (Z.of_nat (length (shape x)) - 1)) in *.
  destruct (lookup_lt_is_Some_2 idx p ltac:(lia)) as [i Hi].
  destruct (lookup_lt_is_Some_2 (shape x) p ltac:(lia)) as [d Hd].
  apply in_map_iff. exists i. split.
  - unfold set_at. apply list_insert_id. exact Hi.
  - rewrite nth_lookup, Hd. cbn [default]. apply In_py_range.
    exact (Forall2_lookup_lr _ _ _ _ _ _ Hidx Hi Hd).
Qed.

(** [tf.nn.softmax] reads its argument at the indices of its shape only. *)
Lemma tf_nn_softmax_ext (a b : tensor F) :
  1 <= rank a ->
  tensor_eq a b ->
  tensor_eq (tf_nn_softmax a) (tf_nn_softmax b).
Proof.
  intros Hr (Hd & Hs & Hi).
  split; [exact Hd|]. split; [exact Hs|].
  intros idx Hidx. cbn [tf_nn_softmax shape] in Hidx.
  unfold tf_nn_softmax. cbn [item].
  assert (Erow : softmax_row b idx = softmax_row a idx).
  { unfold softmax_row, rank. rewrite Hs. reflexivity. }
  rewrite Erow.
  assert (Evals : map (item b) (softmax_row a idx) = map (item a) (softmax_row a idx)).
  { apply map_ext_in. intros j Hj. symmetry. apply Hi.
    exact (softmax_row_in_bounds a idx j Hr Hidx Hj). }
  rewrite Evals, (Hi idx Hidx). reflexivity.
Qed.

(** [tf.nn.softmax] does not see a shift that keeps order and differences. *)
Lemma tf_nn_softmax_shift (x : tensor F) (c : F) :
  1 <= rank x ->
  shift_exact x c ->
  tensor_eq (tf_nn_softmax (tf_add_scalar x c)) (tf_nn_softmax x).
Proof.
  intros Hr Hsh.
  split; [reflexivity|]. split; [reflexivity|].
  intros idx Hidx. cbn [tf_nn_softmax tf_add_scalar shape] in Hidx.
  unfold tf_nn_softmax. cbn [item].
  change (softmax_row (tf_add_scalar x c) idx) with (softmax_row x idx).
  assert (E : map (item (tf_add_scalar x c)) (softmax_row x idx)
              = map (fun v => f_add v c) (map (item x) (softmax_row x idx)))
    by (rewrite map_map; reflexivity).
  rewrite E. clear E.
  set (vals := map (item x) (softmax_row x idx)).
  assert (Hvals : forall a, In a vals -> exists j, In j (indices (shape x)) /\ a = item x j).
  { intros a Ha. apply in_map_iff in Ha. destruct Ha as (j & <- & Hj).
    exists j. split; [|reflexivity]. exact (softmax_row_in_bounds x idx j Hr Hidx Hj). }
  assert (Hg : forall a b, In a vals -> In b vals ->
             f_ltb (f_add a c) (f_add b c) = f_ltb a b /\
             f_sub (f_add a c) (f_add b c) = f_sub a b).
  { intros a b Ha Hb.
    destruct (Hvals a Ha) as (i & Hi & ->). destruct (Hvals b Hb) as (j & Hj & ->).
    apply Hsh; assumption. }
  pose proof (sub_max_shift (fun v => f_add v c) vals Hg) as Hsub. cbv beta in Hsub.
  assert (Hself : In (item x idx) vals).
  { apply in_map. apply softmax_row_self; assumption. }
  cbn [tf_add_scalar item].
  rewrite (Hsub _ Hself). f_equal. f_equal. f_equal.
  rewrite map_map. apply map_ext_in. intros a Ha. cbv beta.
  rewrite (Hsub a Ha). reflexivity.
Qed.

Lemma unravel_in_bounds (sh : list Z) (k : Z) :
  Forall (fun d => 0 < d) sh ->
  0 <= k < reduce_prod sh ->
  Forall2 (fun i d => 0 <= i < d) (unravel sh k) sh.
Proof.
  intros Hpos. revert k.
  induction Hpos as [|d sh Hd Hsh IH]; intros k Hk; [constructor|].
  pose proof (reduce_prod_pos sh Hsh) as Hp.
  change (reduce_prod (d :: sh)) with (d * reduce_prod sh) in Hk.
  cbn [unravel]. constructor.
  - split; [apply Z.div_pos; lia|].
    apply Z.div_lt_upper_bound; [exact Hp | nia].
  - apply IH. apply Z.mod_pos_bound. exact Hp.
Qed.

Lemma reshaped_index_in_bounds (sh sh' idx : list Z) :
  Forall (fun d => 0 < d) sh ->
  reduce_prod sh' = reduce_prod sh ->
  In idx (indices sh') ->
  In (unravel sh (ravel sh' idx)) (indices sh).
Proof.
  intros Hpos Hprod Hidx. apply In_indices in Hidx.
  apply In_indices. apply unravel_in_bounds; [exact Hpos|].
  rewrite <- Hprod. apply ravel_bound. exact Hidx.
Qed.

Lemma cal_shape_positive (sh : list Z) (axis : Z) :
  Forall (fun d => 0 < d) sh -> Forall (fun d => 0 < d) (cal_shape sh axis).
Proof.
  intros Hpos. unfold cal_shape. rewrite py_slice_prefix, py_slice_suffix.
  constructor; [|constructor; [|constructor]]; apply reduce_prod_pos.
  - apply Forall_take. exact Hpos.
  - apply Forall_drop. exact Hpos.
Qed.

(** The rule's own path: after the largest element of the whole tensor is
    subtracted, a shift that keeps order and differences is gone. *)
Lemma softmax_via_2d_shift (x : tensor F) (c : F) (axis : Z) :
  shift_exact x c ->
  tensor_eq (softmax_via_2d (tf_add_scalar x c) axis) (softmax_via_2d x axis).
Proof.
  intros Hsh.
  split; [reflexivity|]. split; [reflexivity|].
  intros idx Hidx.
  change (shape (softmax_via_2d (tf_add_scalar x c) axis)) with (shape x) in Hidx.
  pose proof (indices_positive _ _ Hidx) as Hpos.
  pose proof (cal_shape_positive _ axis Hpos) as Hcal.
  unfold softmax_via_2d.
  change (reshaped (tf_add_scalar x c) (cal_shape (shape (tf_add_scalar x c)) axis))
    with (tf_add_scalar (reshaped x (cal_shape (shape x) axis)) c).
  change (shape (tf_add_scalar x c)) with (shape x).
  set (x2 := reshaped x (cal_shape (shape x) axis)).
  assert (Hx2 : forall i, In i (indices (shape x2)) ->
            exists j, In j (indices (shape x)) /\ item x2 i = item x j).
  { intros i Hi. eexists. split; [|reflexivity].
    apply reshaped_index_in_bounds;
      [exact Hpos | apply reduce_prod_cal_shape | exact Hi]. }
  set (vals := map (item x2) (indices (shape x2))).
  assert (Hg : forall a b, In a vals -> In b vals ->
             f_ltb (f_add a c) (f_add b c) = f_ltb a b /\
             f_sub (f_add a c) (f_add b c) = f_sub a b).
  { intros a b Ha Hb.
    apply in_map_iff in Ha. destruct Ha as (i & <- & Hi).
    apply in_map_iff in Hb. destruct Hb as (j & <- & Hj).
    destruct (Hx2 i Hi) as (i' & Hi' & ->). destruct (Hx2 j Hj) as (j' & Hj' & ->).
    apply Hsh; assumption. }
  pose proof (sub_max_shift (fun v => f_add v c) vals Hg) as Hsub. cbv beta in Hsub.
  assert (Heq : tensor_eq
            (tf_sub_scalar (tf_add_scalar x2 c) (tf_reduce_max_all (tf_add_scalar x2 c)))
            (tf_sub_scalar x2 (tf_reduce_max_all x2))).
  { split; [reflexivity|]. split; [reflexivity|].
    intros i Hi. change (In i (indices (shape x2))) in Hi.
    unfold tf_sub_scalar, tf_reduce_max_all. cbn [item shape tf_add_scalar].
    assert (E : map (fun idx0 => f_add (item x2 idx0) c) (indices (shape x2))
                = map (fun v => f_add v c) (map (item x2) (indices (shape x2))))
      by (rewrite map_map; reflexivity).
    rewrite E. clear E.
    apply Hsub. apply in_map. exact Hi. }
  apply tf_nn_softmax_ext in Heq; [|unfold rank, zlen; cbn; lia].
  destruct Heq as (_ & _ & Hitems).
  unfold reshaped. cbn [item].
  apply Hitems. cbn [shape tf_nn_softmax tf_sub_scalar tf_add_scalar].
  change (shape x2) with (cal_shape (shape x) axis).
  apply reshaped_index_in_bounds;
    [exact Hcal | symmetry; apply reduce_prod_cal_shape | exact Hidx].
Qed.

(** C7: adding a constant [c] to every element of the input does not change
    what [handle_softmax] returns, provided the addition changes neither the
    order nor the difference of any two elements of the input, as an exact
    addition does.  On the last axis (of an input of rank one at least) the
    rule calls [tf.nn.softmax], which subtracts the largest element of each
    row; on any other axis it subtracts the largest element of the whole
    tensor first.  The property holds in every float arithmetic; a float
    addition that rounds is outside its hypothesis. *)
Theorem softmax_shift_invariant (n : node F) (d : gmap string (tensor F))
    (i0 : string) (x : tensor F) (c : F) :
  inputs n !! 0%nat = Some i0 ->
  attrs n !! "axis" = None \/ (exists a, attrs n !! "axis" = Some (AInt a)) ->
  1 <= rank x ->
  shift_exact x c ->
  exists y y',
    call handle_softmax n (<[i0 := x]> d) = (Ok [y], PyState n (<[i0 := x]> d) []) /\
    call handle_softmax n (<[i0 := tf_add_scalar x c]> d)
    = (Ok [y'], PyState n (<[i0 := tf_add_scalar x c]> d) []) /\
    tensor_eq y' y.
Proof.
  intros Hi Hax Hr Hsh.
  exists (softmax_result n x), (softmax_result n (tf_add_scalar x c)).
  split; [|split].
  - apply (handle_softmax_run n _ i0 x Hi); [apply lookup_insert_eq | exact Hax].
  - apply (handle_softmax_run n _ i0 _ Hi); [apply lookup_insert_eq | exact Hax].
  - unfold softmax_result.
    change (rank (tf_add_scalar x c)) with (rank x).
    destruct (attrs n !! "axis") as [[a| | | |]|];
      try (apply softmax_via_2d_shift; exact Hsh).
    destruct (a =? rank x - 1); [|apply softmax_via_2d_shift; exact Hsh].
    apply tf_nn_softmax_shift; assumption.
Qed.
End BackendFacts.

(** ** The rules on concrete nodes *)

Section Runs.
Import QFloat.

Lemma arg_max_min_drop_axis_witness :
  call handle_arg_max argmax_node image_dict
  = (Ok [tf_argmax (iota float32 [1; 1; 2; 2]) 1],
     PyState argmax_node image_dict [argmax_warning]) /\
  rank (tf_argmax (iota float32 [1; 1; 2; 2]) 1) = 3.
Proof.
  pose proof (arg_max_min_drop_axis argmax_node image_dict "x"
                (iota float32 [1; 1; 2; 2]) 1) as W.
  cbv zeta in W.
  destruct W as (W1 & _ & W3 & _).
  - reflexivity.
  - reflexivity.
  - reflexivity.
  - unfold rank, zlen. cbn. lia.
  - left. reflexivity.
  - split; [exact W1 | exact W3].
Defined.

Lemma pool_routing_witness :
  call (_pool (tf_nn_pool "MAX") "MAX") maxpool_same_upper image_dict
  = (Ok [tf_transpose
           (tf_nn_pool "MAX"
              (tf_transpose (iota float32 [1; 1; 2; 2]) [0; 2; 3; 1])
              [2; 2] "SAME" [1; 1] (channel_last 4))
           [0; 3; 1; 2]],
     PyState maxpool_same_upper image_dict []).
Proof.
  pose proof (pool_routing (tf_nn_pool "MAX") "MAX" maxpool_same_upper image_dict "x"
                (iota float32 [1; 1; 2; 2]) [2; 2]) as W.
  cbv zeta in W.
  destruct W as (W1 & _ & _).
  - reflexivity.
  - reflexivity.
  - reflexivity.
  - left. reflexivity.
  - apply W1. reflexivity.
Defined.

Lemma missing_attribute_raises_KeyError_witness :
  call handle_arg_max argmax_node_a image_dict
  = (Raise (KeyError "axis"), PyState argmax_node_a image_dict []) /\
  call handle_max_pool maxpool_no_kernel image_dict
  = (Raise (KeyError "kernel_shape"), PyState maxpool_no_kernel image_dict []).
Proof.
  split.
  - destruct (missing_attribute_raises_KeyError argmax_node_a image_dict "x"
                (iota float32 [1; 1; 2; 2]) eq_refl eq_refl) as [Ha _].
    destruct (Ha eq_refl) as [Hmax _]. exact Hmax.
  - destruct (missing_attribute_raises_KeyError maxpool_no_kernel image_dict "x"
                (iota float32 [1; 1; 2; 2]) eq_refl eq_refl) as [_ Hk].
    destruct (Hk eq_refl) as [_ Hpool]. exact Hpool.
Defined.

(** C8 as stated fails: the error of a node without "axis" does not tell
    which node it came from.  Two nodes with different names raise the same
    exception, [KeyError "axis"]. *)
Lemma missing_axis_error_ignores_node_name :
  name argmax_node_a <> name argmax_node_b /\
  (call handle_arg_max argmax_node_a image_dict).1 = Raise (KeyError "axis") /\
  (call handle_arg_max argmax_node_b image_dict).1 = Raise (KeyError "axis").
Proof.
  split; [|split].
  - discriminate.
  - reflexivity.
  - reflexivity.
Qed.

Lemma slice_clamp_witness :
  exists y,
    shape y = [0] /\
    (call handle_slice slice_node slice_dict).1 = Ok [y].
Proof.
  destruct (slice_clamp slice_node slice_dict "x" (iota float32 [4]) []) as (y & _ & Hs & Hc).
  - reflexivity.
  - reflexivity.
  - reflexivity.
  - constructor.
  - reflexivity.
  - reflexivity.
  - reflexivity.
  - exists y. split; [exact Hs | rewrite Hc; reflexivity].
Defined.

(** C1 as stated fails: on the vector of length 4 the end [handle_slice]
    works with is 3, not 4, and the size it hands to [tf.slice] is -1. *)
Lemma slice_clamp_end_is_3 :
  let r := call handle_slice slice_node slice_dict in
  attrs (st_node r.2) !! "ends" = Some (AInts [3]) /\
  attrs (st_node r.2) !! "ends" <> Some (AInts [4]) /\
  M_fold (slice_step [0]) [0] (SliceVars [5] [-1] [0] [4]) (PyState slice_node slice_dict [])
  = (Ok (SliceVars [4] [3] [4] [-1]), r.2).
Proof.
  cbv zeta. split; [|split].
  - reflexivity.
  - vm_compute. discriminate.
  - reflexivity.
Qed.

(** C3 fails on the code: [handle_slice] returns normally and leaves other
    lists in [node.attrs] than it found: starts went from [5] to [4], ends
    from [-1] to [3]. *)
Theorem handle_slice_changes_node_attrs :
  let r := call handle_slice slice_node slice_dict in
  (exists y, r.1 = Ok [y]) /\
  attrs slice_node !! "starts" = Some (AInts [5]) /\
  attrs (st_node r.2) !! "starts" = Some (AInts [4]) /\
  attrs slice_node !! "ends" = Some (AInts [-1]) /\
  attrs (st_node r.2) !! "ends" = Some (AInts [3]).
Proof.
  cbv zeta. split; [|repeat split].
  eexists. reflexivity.
Qed.

Lemma average_pool_global_case_witness :
  call handle_average_pool avgpool_3x3 image_dict
  = (Ok [tf_reduce_mean (iota float32 [1; 1; 2; 2]) [2; 3] true],
     PyState avgpool_3x3 image_dict []) /\
  shape (tf_reduce_mean (iota float32 [1; 1; 2; 2]) [2; 3] true) = [1; 1; 1; 1].
Proof.
  pose proof (average_pool_global_case avgpool_3x3 image_dict "x"
                (iota float32 [1; 1; 2; 2]) [3; 3]) as W.
  cbv zeta in W.
  destruct W as (W1 & _ & W3).
  - reflexivity.
  - reflexivity.
  - unfold rank, zlen. cbn. lia.
  - reflexivity.
  - intros [|[|i]] dim Hdim; cbn in Hdim; inversion Hdim; subst.
    + exists 3. split; [reflexivity | lia].
    + exists 3. split; [reflexivity | lia].
  - split; [exact W1 | exact W3].
Defined.

(** C2 as stated fails: a 2x2 kernel covers the 2x2 image, yet with one row
    or column of padding on every side both pooling rules return a 3x3 map
    per channel, where reducing the whole spatial extent gives 1x1. *)
Lemma kernel_covering_image_not_global :
  (exists y, (call handle_max_pool maxpool_padded image_dict).1 = Ok [y] /\
             shape y = [1; 1; 3; 3]) /\
  (exists y, (call handle_average_pool avgpool_padded image_dict).1 = Ok [y] /\
             shape y = [1; 1; 3; 3]) /\
  shape (tf_reduce_max (iota float32 [1; 1; 2; 2]) [2; 3] true) = [1; 1; 1; 1] /\
  shape (tf_reduce_mean (iota float32 [1; 1; 2; 2]) [2; 3] true) = [1; 1; 1; 1].
Proof.
  split; [|split; [|split]].
  - eexists. split; [vm_compute; reflexivity | reflexivity].
  - eexists. split; [vm_compute; reflexivity | reflexivity].
  - reflexivity.
  - reflexivity.
Qed.

(** With auto_pad SAME_LOWER the padding goes to the start of each axis, and
    the pads list of the node is overwritten with the amounts computed. *)
Lemma same_lower_pool_run :
  let r := call handle_max_pool maxpool_same_lower image_dict in
  (exists y, r.1 = Ok [y] /\ dtype_of y = float32 /\ shape y = [1; 1; 2; 2] /\
             map (item y) (indices (shape y))
             = [Some 0%Q; Some 1%Q; Some 10%Q; Some 11%Q]) /\
  attrs maxpool_same_lower !! "pads" = Some (AInts [0; 0; 0; 0]) /\
  attrs (st_node r.2) !! "pads" = Some (AInts [1; 1; 0; 0]).
Proof.
  cbv zeta. split; [|split; reflexivity].
  eexists. split; [vm_compute; reflexivity|]. split; [reflexivity|]. split; reflexivity.
Qed.



Lemma batch_normalization_training_witness :
  exists y,
    call handle_batch_normalization bn_node bn_dict = (Ok [y], PyState bn_node bn_dict []).
Proof.
  eexists.
  apply (batch_normalization_training bn_node bn_dict "x" "scale" "bias" "mean" "var"
           (iota float32 [2; 3]) (iota float32 [3]) (iota float32 [3])
           (iota float32 [3]) (iota float32 [3])).
  - reflexivity.
  - reflexivity.
  - reflexivity.
  - reflexivity.
  - reflexivity.
  - reflexivity.
  - reflexivity.
  - reflexivity.
  - reflexivity.
  - reflexivity.
  - left. reflexivity.
  - left. reflexivity.
  - right. left. eexists. reflexivity.
Defined.


(** *** Runs for the further properties *)

Lemma rules_need_first_input_witness :
  call handle_slice Examples.node_without_inputs image_dict
  = (Raise IndexError, PyState Examples.node_without_inputs image_dict []) /\
  call handle_softmax argmax_node ∅ = (Raise (KeyError "x"), PyState argmax_node ∅ []).
Proof.
  destruct (@rules_need_first_input t _ _) as (_ & _ & _ & _ & _ & _ & _ & _ & _ & _ & Hs & Hm).
  split.
  - apply (Hs Examples.node_without_inputs image_dict). reflexivity.
  - apply (Hm argmax_node ∅); reflexivity.
Defined.

Lemma pool_unknown_auto_pad_witness :
  call handle_max_pool Examples.maxpool_notset image_dict
  = (Raise UnboundLocalError, PyState Examples.maxpool_notset image_dict []).
Proof.
  pose proof (pool_unknown_auto_pad (tf_nn_pool "MAX") "MAX" Examples.maxpool_notset
                image_dict "x" (iota float32 [1; 1; 2; 2]) [2; 2] "NOTSET"
                eq_refl eq_refl eq_refl (or_introl eq_refl) (or_introl eq_refl) eq_refl) as P.
  exact (P ltac:(discriminate) ltac:(discriminate) ltac:(discriminate) ltac:(discriminate)).
Defined.

Lemma average_pool_without_kernel_shape_witness :
  call handle_average_pool Examples.avgpool_no_kernel image_dict
  = (Raise IndexError, PyState Examples.avgpool_no_kernel image_dict []).
Proof.
  apply (average_pool_without_kernel_shape Examples.avgpool_no_kernel image_dict "x"
           (iota float32 [1; 1; 2; 2]) 1 1 2 [2]); reflexivity.
Defined.

Lemma average_pool_not_global_witness :
  call handle_average_pool avgpool_padded image_dict
  = call (_pool (tf_nn_pool "AVG") "AVG") avgpool_padded image_dict.
Proof.
  apply (average_pool_not_global avgpool_padded image_dict "x"
           (iota float32 [1; 1; 2; 2]) [2; 2] 0%nat 2 2).
  - reflexivity.
  - reflexivity.
  - reflexivity.
  - intros i di Hi. lia.
  - reflexivity.
  - reflexivity.
  - lia.
Defined.

Lemma global_pool_rank_witness :
  exists y, call handle_global_max_pool maxpool_no_kernel image_dict
            = (Ok [y], PyState maxpool_no_kernel image_dict []) /\
            shape y = [1; 1; 1; 1].
Proof.
  destruct (global_pool_rank maxpool_no_kernel image_dict "x" (iota float32 [1; 1; 2; 2])
              eq_refl eq_refl) as [_ Hbig].
  destruct Hbig as (ya & ym & _ & Hm & _ & Hs).
  - unfold rank, zlen. cbn. lia.
  - exists ym. split; [exact Hm | exact Hs].
Defined.

Lemma batch_normalization_inference_witness :
  exists y,
    call handle_batch_normalization Examples.bn_test_node bn_dict
    = (Ok [y], PyState Examples.bn_test_node bn_dict []).
Proof.
  eexists.
  apply (batch_normalization_inference Examples.bn_test_node bn_dict
           "x" "scale" "bias" "mean" "var"
           (iota float32 [2; 3]) (iota float32 [3]) (iota float32 [3])
           (iota float32 [3]) (iota float32 [3]) (AInt 1)).
  - reflexivity.
  - reflexivity.
  - reflexivity.
  - reflexivity.
  - reflexivity.
  - reflexivity.
  - reflexivity.
  - reflexivity.
  - reflexivity.
  - reflexivity.
  - reflexivity.
  - reflexivity.
  - left. reflexivity.
Defined.

Lemma conv_kernel_shape_mismatch_witness :
  call handle_conv Examples.conv_bad_kernel conv_dict
  = (Raise AssertionError, PyState Examples.conv_bad_kernel conv_dict []).
Proof.
  apply (conv_kernel_shape_mismatch false Examples.conv_bad_kernel conv_dict "x" "w"
           (iota float32 [1; 4; 2; 2]) (iota float32 [4; 2; 1; 1]) (AInts [3; 3])).
  - reflexivity.
  - reflexivity.
  - reflexivity.
  - reflexivity.
  - reflexivity.
  - discriminate.
Defined.


Lemma slice_single_axis_witness :
  exists y,
    call handle_slice Examples.slice_middle slice_dict
    = (Ok [y],
       PyState (Node "Slice"
                  (<["starts" := AInts [1]]>
                     (<["ends" := AInts [3]]> (attrs Examples.slice_middle)))
                  ["x"] ["y"] (name Examples.slice_middle)) slice_dict []) /\
    shape y = [2].
Proof.
  destruct (slice_single_axis Examples.slice_middle slice_dict "x" (iota float32 [4])
              1 (-1) 0 4) as (y & Hy & Hs & _).
  - reflexivity.
  - reflexivity.
  - reflexivity.
  - reflexivity.
  - left. reflexivity.
  - repeat constructor; cbn; lia.
  - lia.
  - reflexivity.
  - lia.
  - cbn. lia.
  - exists y. split; [exact Hy | exact Hs].
Defined.

Lemma slice_negative_start_witness :
  call handle_slice Examples.slice_from_back slice_dict
  = (Raise ValueError,
     PyState (Node "Slice"
                (<["starts" := AInts [-2]]>
                   (<["ends" := AInts [4]]> (attrs Examples.slice_from_back)))
                ["x"] ["y"] (name Examples.slice_from_back)) slice_dict []).
Proof.
  destruct (slice_negative_start Examples.slice_from_back slice_dict "x" (iota float32 [4])
              (-2) 4 0 4) as [_ Hc].
  - reflexivity.
  - reflexivity.
  - reflexivity.
  - reflexivity.
  - right. split; reflexivity.
  - lia.
  - reflexivity.
  - lia.
  - lia.
  - exact Hc.
Defined.

Lemma py_pool_max_window_witness :
  py_pool (iota float32 [1; 1; 1]) [1] [2] [2; 0] [2] [2] "MAX" = Raise ValueError /\
  exists y, py_pool (iota float32 [1; 1; 2]) [2] [1] [0; 0] [1] [0] "MAX" = Ok y.
Proof.
  split.
  - destruct (py_pool_max_window (iota float32 [1; 1; 1]) 1 1 Examples.padded_only_axes)
      as [Hraise _].
    + reflexivity.
    + left. reflexivity.
    + lia.
    + lia.
    + repeat constructor; cbn; lia.
    + apply Hraise. exists [0; 0; 0]. split; [left; reflexivity | reflexivity].
  - destruct (py_pool_max_window (iota float32 [1; 1; 2]) 1 1 Examples.one_window_axes)
      as [_ Hok].
    + reflexivity.
    + left. reflexivity.
    + lia.
    + lia.
    + repeat constructor; cbn; lia.
    + apply Hok. intros pos [<- | []]. vm_compute. discriminate.
Defined.

Lemma get_output_shape_counts_windows_witness :
  exists valid same,
    _get_output_shape "" [5; 4] [2; 3] [2; 1] = Ok valid /\
    _get_output_shape "SAME_UPPER" [5; 4] [2; 3] [2; 1] = Ok same /\
    valid = [2; 2] /\ same = [3; 4].
Proof.
  destruct (get_output_shape_counts_windows [(5, 2, 2); (4, 3, 1)])
    as (valid & same & Hv & _ & Hs & _).
  - repeat constructor; cbn; lia.
  - exists valid, same. split; [exact Hv|]. split; [exact Hs|].
    split.
    + assert (E : Ok valid = Ok [2; 2]) by (rewrite <- Hv; reflexivity).
      inversion E. reflexivity.
    + assert (E : Ok same = Ok [3; 4]) by (rewrite <- Hs; reflexivity).
      inversion E. reflexivity.
Defined.

Lemma get_output_shape_zero_stride_witness :
  _get_output_shape "SAME_LOWER" [5; 4] [2; 3] [2; 0] = Raise ZeroDivisionError.
Proof.
  destruct (get_output_shape_zero_stride "SAME_LOWER" [(5, 2, 2); (4, 3, 0)]) as [_ Hsmall].
  - exists (4, 3, 0). split; [right; left; reflexivity | reflexivity].
  - right. right. right. reflexivity.
  - apply Hsmall. repeat constructor; cbn; lia.
Defined.

Lemma flatten_row_major_witness :
  exists y,
    call handle_flatten Examples.flatten_at_2 image4_dict
    = (Ok [y], PyState Examples.flatten_at_2 image4_dict []) /\
    shape y = [3; 16] /\
    item y [1; 6] = item (iota float32 [1; 3; 4; 4]) [0; 1; 1; 2].
Proof.
  destruct (flatten_row_major Examples.flatten_at_2 image4_dict "x"
              (iota float32 [1; 3; 4; 4]) 2) as (y & Hy & Hs & Hitem).
  - reflexivity.
  - reflexivity.
  - left. reflexivity.
  - unfold rank, zlen. cbn. lia.
  - exists y. split; [exact Hy|]. split; [exact Hs|].
    destruct (Hitem [0; 1; 1; 2]) as (_ & _ & E).
    + apply In_indices. repeat constructor; cbn; lia.
    + exact E.
Defined.

Lemma flatten_axis_out_of_range_witness :
  call handle_flatten Examples.flatten_from_back image4_dict
  = (Raise ValueError, PyState Examples.flatten_from_back image4_dict []).
Proof.
  apply (flatten_axis_out_of_range Examples.flatten_from_back image4_dict "x"
           (iota float32 [1; 3; 4; 4]) (-1)).
  - reflexivity.
  - reflexivity.
  - left. reflexivity.
  - left. lia.
Defined.

Lemma unsqueeze_valid_axes_witness :
  exists y,
    call handle_unsqueeze Examples.unsqueeze_3_0 bn_dict
    = (Ok [y], PyState Examples.unsqueeze_3_0 bn_dict []) /\
    shape y = [1; 2; 3; 1] /\
    item y [0; 1; 2; 0] = item (iota float32 [2; 3]) [1; 2].
Proof.
  destruct (unsqueeze_valid_axes Examples.unsqueeze_3_0 bn_dict "x" (iota float32 [2; 3])
              [3; 0]) as (y & Hy & _ & _ & _ & Hitem).
  - reflexivity.
  - reflexivity.
  - reflexivity.
  - apply NoDup_cons. split; [|apply NoDup_singleton].
    intros Hin. apply list_elem_of_singleton in Hin. discriminate.
  - repeat constructor; unfold rank, zlen; cbn; lia.
  - exists y. split; [exact Hy|].
    assert (E : (Ok [y], PyState Examples.unsqueeze_3_0 bn_dict [])
                = call handle_unsqueeze Examples.unsqueeze_3_0 bn_dict)
      by (symmetry; exact Hy).
    split.
    + vm_compute in E. inversion E. reflexivity.
    + rewrite Hitem. reflexivity.
Defined.

Lemma unsqueeze_axis_too_large_witness :
  call handle_unsqueeze Examples.unsqueeze_far bn_dict
  = (Raise ValueError, PyState Examples.unsqueeze_far bn_dict []).
Proof.
  apply (unsqueeze_axis_too_large Examples.unsqueeze_far bn_dict "x" (iota float32 [2; 3])
           [0; 6] 6).
  - reflexivity.
  - reflexivity.
  - reflexivity.
  - right. left.
  - unfold rank, zlen. cbn. lia.
Defined.


(** The softmax of [[0, 1], [2, 3]] in float32 does not change when 1 is
    added to every element: the sums 1, 2, 3, 4 are exact. *)
Lemma softmax_shift_invariant_witness :
  exists y y',
    (call handle_softmax F32.softmax_node {[ "x" := F32.ramp_2x2 ]}).1 = Ok [y] /\
    (call handle_softmax F32.softmax_node
       {[ "x" := tf_add_scalar F32.ramp_2x2 (F32.of_Z 1) ]}).1 = Ok [y'] /\
    tensor_eq y' y.
Proof.
  destruct (softmax_shift_invariant F32.softmax_node ∅ "x" F32.ramp_2x2 (F32.of_Z 1))
    as (y & y' & Hy & Hy' & Heq).
  - reflexivity.
  - left. reflexivity.
  - vm_compute. discriminate.
  - intros i j Hi Hj. vm_compute in Hi, Hj.
    destruct Hi as [<-|[<-|[<-|[<-|[]]]]]; destruct Hj as [<-|[<-|[<-|[<-|[]]]]];
      split; vm_compute; reflexivity.
  - exists y, y'. rewrite insert_empty in Hy, Hy'.
    split; [rewrite Hy; reflexivity|]. split; [rewrite Hy'; reflexivity | exact Heq].
Defined.

(** C7 as stated fails in float32: added to 0, 1, 2 and 3, the constant
    10^10 gives 10^10 four times, as floats of that size are 1024 apart.
    The softmax of the shifted input is 1/2 everywhere, that of the input
    itself is about 0.269 and 0.731 in each row. *)
Lemma softmax_large_shift_absorbed :
  exists y y',
    (call handle_softmax F32.softmax_node {[ "x" := F32.ramp_2x2 ]}).1 = Ok [y] /\
    (call handle_softmax F32.softmax_node
       {[ "x" := tf_add_scalar F32.ramp_2x2 (F32.of_Z (10 ^ 10)) ]}).1 = Ok [y'] /\
    map (item y') (indices [2; 2]) = [F32.half; F32.half; F32.half; F32.half] /\
    map (item y) (indices [2; 2])
    = [F32.of_Q (9024177 # 33554432); F32.of_Q (12265128 # 16777216);
       F32.of_Q (9024177 # 33554432); F32.of_Q (12265128 # 16777216)] /\
    ~ tensor_eq y' y.
Proof.
  exists (softmax_result F32.softmax_node F32.ramp_2x2),
         (softmax_result F32.softmax_node
            (tf_add_scalar F32.ramp_2x2 (F32.of_Z (10 ^ 10)))).
  split; [|split; [|split; [|split]]].
  - rewrite (handle_softmax_run F32.softmax_node _ "x" F32.ramp_2x2);
      reflexivity || (left; reflexivity).
  - rewrite (handle_softmax_run F32.softmax_node _ "x"
               (tf_add_scalar F32.ramp_2x2 (F32.of_Z (10 ^ 10))));
      reflexivity || (left; reflexivity).
  - vm_compute. reflexivity.
  - vm_compute. reflexivity.
  - intros (_ & _ & Hit).
    assert (Hin : In [0; 0] (indices (shape (softmax_result F32.softmax_node
                     (tf_add_scalar F32.ramp_2x2 (F32.of_Z (10 ^ 10)))))))
      by (vm_compute; auto).
    specialize (Hit [0; 0] Hin). vm_compute in Hit. discriminate Hit.
Qed.

(** The same on the last axis, where the rule calls [tf.nn.softmax] at once. *)
Lemma softmax_last_axis_large_shift_absorbed :
  exists y y',
    (call handle_softmax F32.softmax_last_node {[ "x" := F32.ramp_2x2 ]}).1 = Ok [y] /\
    (call handle_softmax F32.softmax_last_node
       {[ "x" := tf_add_scalar F32.ramp_2x2 (F32.of_Z (10 ^ 10)) ]}).1 = Ok [y'] /\
    item y' [0; 0] = F32.half /\
    item y [0; 0] = F32.of_Q (9024177 # 33554432).
Proof.
  exists (softmax_result F32.softmax_last_node F32.ramp_2x2),
         (softmax_result F32.softmax_last_node
            (tf_add_scalar F32.ramp_2x2 (F32.of_Z (10 ^ 10)))).
  split; [|split; [|split]].
  - rewrite (handle_softmax_run F32.softmax_last_node _ "x" F32.ramp_2x2);
      reflexivity || (right; eexists; reflexivity).
  - rewrite (handle_softmax_run F32.softmax_last_node _ "x"
               (tf_add_scalar F32.ramp_2x2 (F32.of_Z (10 ^ 10))));
      reflexivity || (right; eexists; reflexivity).
  - vm_compute. reflexivity.
  - vm_compute. reflexivity.
Qed.

(** In exact arithmetic every finite shift keeps order and differences. *)
Lemma shift_exact_exact_arithmetic (x : tensor QFloat.t) (q : Q) :
  shift_exact x (Some q).
Proof.
  intros i j _ _.
  destruct (item x i) as [a|], (item x j) as [b|]; cbn; try (split; reflexivity).
  split.
  - f_equal.
    destruct (Qle_bool b a) eqn:E.
    + apply Qle_bool_iff. apply Qle_bool_iff in E. rewrite !Qred_correct. lra.
    + destruct (Qle_bool (Qred (b + q)) (Qred (a + q))) eqn:E'; [|reflexivity].
      apply Qle_bool_iff in E'. rewrite !Qred_correct in E'.
      assert (Hle : (b <= a)%Q) by lra.
      apply Qle_bool_iff in Hle. congruence.
  - f_equal. apply Qred_complete. rewrite !Qred_correct. ring.
Qed.
End Runs.
